(** * Session runtime of the exchange-simulator clients

    A shallow embedding of the two client programs of the repository,
    [my_algo.py] (class [TradingBot], the automated participant) and
    [manual_trader.py] (class [ManualTrader], the interactive one), and
    the properties of their session protocol core: registration, the two
    message handlers, the DONE pacing signal, the fill ledger and the
    latency samples.

    Modelling conventions.
    - A Python [int] is a [Z].  A Python [float] is idealised as an exact
      rational in canonical form ([Qc]), so that [==] on floats is Leibniz
      equality and no rounding takes place.
    - A message is modelled after [json.loads]: either it cannot be decoded,
      or it is a dictionary whose known keys carry values of the types of
      the wire format; a missing key is [None].
    - The part of a book that [json.dumps] writes out again is kept as it
      was decoded: a level is a dictionary with its keys in the order of
      the text, and a number of a level or of the last trade is an [int]
      or a [float] as the text spelled it ([10] or [10.0]).
    - Every handler is a computation in a small state-and-exception monad
      over the object ([self]); [try]/[except] is [try_except].
    - [print] appends one structured line to [stdout]; [ws.send] appends one
      frame to the frames sent on that connection.
    - [time.time()] is an input of the handler that calls it.
    - The callbacks of the two listener threads and the command loop are
      taken one at a time, in the order in which they happen. *)

From Stdlib Require Import ZArith QArith Qcanon Ascii String Lqa.
From stdpp Require Import base strings list gmap pretty numbers countable.

Local Open Scope Z_scope.

(** ** Python runtime *)

Module Py.

(** The exceptions the two programs can meet. *)
Inductive exn : Set :=
| JSONDecodeError
| TypeError
| AttributeError
| WebSocketConnectionClosedException
| RequestException.

(** [float(z)] for an [int] that meets a [float] in an arithmetic
    operation. *)
Definition float (z : Z) : Qc := Q2Qc (inject_Z z).

(** A number as [json.loads] decodes it: an [int] when the text has neither
    fraction nor exponent, a [float] otherwise.  [10 == 10.0] holds, but
    [json.dumps] writes the one as [10] and the other as [10.0]. *)
Inductive number :=
| Int (z : Z)
| Float (x : Qc).

(** The value of a number, as arithmetic, comparison and the [.2f]
    format see it. *)
Definition value (n : number) : Qc :=
  match n with
  | Int z => float z
  | Float x => x
  end.

(** [int(x)] on a float truncates toward zero. *)
Definition int (x : Qc) : Z := Z.quot (Qnum x) (Zpos (Qden x)).

(** [str(z)], as an f-string renders an [int]. *)
Definition str (z : Z) : string := pretty z.

(** [sum(l)] on floats. *)
Definition sum (l : list Qc) : Qc := foldl Qcplus (Q2Qc 0) l.

(** [l[-n:]]: the last [n] elements. *)
Definition last_n {A} (n : nat) (l : list A) : list A :=
  drop (length l - n)%nat l.

(** Truthiness of an optional string: [None] and [""] are false. *)
Definition truthy (s : option string) : bool :=
  match s with
  | Some s => negb (bool_decide (s = ""))
  | None => false
  end.

(** [round(x, 2)]: two decimals, ties to the even neighbour. *)
Definition round2 (x : Qc) : Qc :=
  let n := (Qnum x * 100)%Z in
  let d := Zpos (Qden x) in
  let q := (n / d)%Z in
  let r := (n mod d)%Z in
  let up :=
    if bool_decide (2 * r < d)%Z then false
    else if bool_decide (d < 2 * r)%Z then true
    else Z.odd q in
  Q2Qc (Qmake (if up then q + 1 else q) 100).

(** State and exceptions.  An exception keeps the state reached when it
    was raised: assignments made before it are not rolled back. *)
Definition M (S A : Type) : Type := S -> (exn + A) * S.

Definition ret {S A} (a : A) : M S A := fun s => (inr a, s).

Definition bind {S A B} (m : M S A) (k : A -> M S B) : M S B :=
  fun s =>
    match m s with
    | (inr a, s') => k a s'
    | (inl e, s') => (inl e, s')
    end.

Definition raise {S A} (e : exn) : M S A := fun s => (inl e, s).

Definition get {S} : M S S := fun s => (inr s, s).

Definition modify {S} (f : S -> S) : M S unit := fun s => (inr tt, f s).

Definition try_except {S A} (m : M S A) (h : exn -> M S A) : M S A :=
  fun s =>
    match m s with
    | (inl e, s') => h e s'
    | r => r
    end.

Definition when {S} (c : bool) (m : M S unit) : M S unit :=
  if c then m else ret tt.

Definition exec {S A} (m : M S A) (s : S) : S := snd (m s).

Definition outcome {S A} (m : M S A) (s : S) : exn + A := fst (m s).

(** [try: m finally: f]: [f] runs whatever [m] did; the outcome is the one
    of [m] unless [f] itself raises. *)
Definition try_finally {S A} (m : M S A) (f : M S unit) : M S A :=
  fun s =>
    match m s with
    | (r, s') =>
        match f s' with
        | (inr _, s'') => (r, s'')
        | (inl e, s'') => (inl e, s'')
        end
    end.

End Py.

Declare Scope py_scope.
Delimit Scope py_scope with py.
Notation "x <- m ; k" := (Py.bind m (fun x => k))
  (at level 20, m at level 100, k at level 200, only parsing) : py_scope.
Notation "m ;; k" := (Py.bind m (fun _ => k))
  (at level 100, k at level 200, only parsing, right associativity) : py_scope.

(** ** Messages on the wire *)

(** One price level of the book, [{"price": ..., "qty": ...}], as decoded:
    a dictionary from keys to numbers, its keys in the order of the
    text. *)
Definition level : Type := list (string * Py.number).

(** [b.get(k)] on a level. *)
Fixpoint level_get (k : string) (b : level) : option Py.number :=
  match b with
  | [] => None
  | (k', v) :: b => if bool_decide (k' = k) then Some v else level_get k b
  end.

(** [b.get('price', 0.0)] and [b.get('qty', 0)]. *)
Definition level_price (b : level) : Py.number :=
  default (Py.Float (Q2Qc 0)) (level_get "price" b).

Definition level_qty (b : level) : Py.number :=
  default (Py.Int 0) (level_get "qty" b).

(** A decoded message: the keys either program reads with [data.get]. *)
Record message := Message {
  type : option string;
  text : option string;          (* "message" *)
  step : option Z;
  bid : option Qc;
  ask : option Qc;
  bids : option (list level);
  asks : option (list level);
  last_trade : option Py.number;
  order_id : option string;
  side : option string;
  price : option Qc;
  qty : option Z
}.

(** What arrives on a channel: text that [json.loads] rejects, or a
    dictionary. *)
Inductive payload :=
| Undecodable
| Decoded (data : message).

Definition json_loads {S} (p : payload) : Py.M S message :=
  match p with
  | Undecodable => Py.raise Py.JSONDecodeError
  | Decoded data => Py.ret data
  end.

(** Frames a client sends on the order channel. *)
Inductive frame :=
| Order (type ticker : option string) (order_id side : string)
        (price : Qc) (qty : Z)
| CancelOrder (order_id : string)
| Done.

Definition is_done (f : frame) : bool :=
  match f with Done => true | _ => false end.

Definition frame_order_id (f : frame) : option string :=
  match f with Order _ _ oid _ _ _ => Some oid | _ => None end.

(** The connection object of the websocket library, as the programs use
    it: [sock] is present once the connection is established and until it
    is closed, and [send] raises when there is no socket. *)
Record WebSocketApp := {
  url : string;
  sock : bool;
  sent : list frame
}.

Definition ws_send (f : frame) (ws : WebSocketApp) : Py.exn + WebSocketApp :=
  if sock ws
  then inr {| url := url ws; sock := true; sent := sent ws ++ [f] |}
  else inl Py.WebSocketConnectionClosedException.

Definition ws_open (ws : WebSocketApp) : WebSocketApp :=
  {| url := url ws; sock := true; sent := sent ws |}.

Definition ws_close (ws : WebSocketApp) : WebSocketApp :=
  {| url := url ws; sock := false; sent := sent ws |}.

(** The frames sent so far on an optional connection. *)
Definition frames (ws : option WebSocketApp) : list frame :=
  match ws with Some ws => sent ws | None => [] end.

(** [ws and ws.sock]. *)
Definition connected (ws : option WebSocketApp) : bool :=
  match ws with Some ws => sock ws | None => false end.

(** A connection after one more frame went out on it. *)
Definition sent_on (f : frame) (ws : option WebSocketApp)
    : option WebSocketApp :=
  (fun w => {| url := url w; sock := true; sent := sent w ++ [f] |}) <$> ws.

(** The answer to the registration request. *)
Record body := { body_token : option string; body_run_id : option string }.

Inductive response :=
| NoResponse                       (* requests.get raised *)
| Response (status_code : Z) (resp_text : string) (json : option body).

(** [resp.json()]: raises when the body is not a JSON dictionary. *)
Definition resp_json {S} (j : option body) : Py.M S body :=
  match j with
  | Some d => Py.ret d
  | None => Py.raise Py.JSONDecodeError
  end.

(** ** The automated participant: [my_algo.py] *)

Module TradingBot.

(** What [print] writes, one constructor per message of the program. *)
Inductive line :=
| Registering (scenario : string)
| RegistrationFailed (resp_text : string)
| MissingTokenOrRunId
| Registered (run_id : option string)
| RegistrationError (e : Py.exn)
| MarketDataConnected
| OrderEntryConnected
| Running
| Progress (step orders inventory : Z) (avg_latency : Qc)
| MarketDataError (e : Py.exn)
| SendOrderError (e : Py.exn)
| Authenticated
| Fill (side : string) (qty : Z) (price : Qc) (inventory : Z) (pnl : Qc)
| ServerError (text : option string)
| OrderResponseError (e : Py.exn)
| ConnectionClosed (status : option Z).

(** The attributes of a [TradingBot]; [stdout] collects what it prints. *)
Record state := {
  student_id : string;
  host : string;
  scenario : string;
  password : option string;
  secure : bool;
  token : option string;
  run_id : option string;
  inventory : Z;
  cash_flow : Qc;
  pnl : Qc;
  current_step : Z;
  orders_sent : Z;
  last_bid : Qc;
  last_ask : Qc;
  last_mid : Qc;
  history_steps : list Z;
  history_mids : list Qc;
  history_bids : list Qc;
  history_asks : list Qc;
  market_ws : option WebSocketApp;
  order_ws : option WebSocketApp;
  running : bool;
  last_done_time : option Qc;
  step_latencies : list Qc;
  order_send_times : gmap string Qc;
  fill_latencies : list Qc;
  stdout : list line
}.

(** Assignment to one attribute. *)
Definition set_token (v : option string) (self : state) : state :=
  {| student_id := student_id self; host := host self; scenario := scenario
     self; password := password self; secure := secure self; token := v;
     run_id := run_id self; inventory := inventory self; cash_flow :=
     cash_flow self; pnl := pnl self; current_step := current_step self;
     orders_sent := orders_sent self; last_bid := last_bid self; last_ask :=
     last_ask self; last_mid := last_mid self; history_steps := history_steps
     self; history_mids := history_mids self; history_bids := history_bids
     self; history_asks := history_asks self; market_ws := market_ws self;
     order_ws := order_ws self; running := running self; last_done_time :=
     last_done_time self; step_latencies := step_latencies self;
     order_send_times := order_send_times self; fill_latencies :=
     fill_latencies self; stdout := stdout self |}.
Definition set_run_id (v : option string) (self : state) : state :=
  {| student_id := student_id self; host := host self; scenario := scenario
     self; password := password self; secure := secure self; token := token
     self; run_id := v; inventory := inventory self; cash_flow := cash_flow
     self; pnl := pnl self; current_step := current_step self; orders_sent :=
     orders_sent self; last_bid := last_bid self; last_ask := last_ask self;
     last_mid := last_mid self; history_steps := history_steps self;
     history_mids := history_mids self; history_bids := history_bids self;
     history_asks := history_asks self; market_ws := market_ws self; order_ws
     := order_ws self; running := running self; last_done_time :=
     last_done_time self; step_latencies := step_latencies self;
     order_send_times := order_send_times self; fill_latencies :=
     fill_latencies self; stdout := stdout self |}.
Definition set_inventory (v : Z) (self : state) : state :=
  {| student_id := student_id self; host := host self; scenario := scenario
     self; password := password self; secure := secure self; token := token
     self; run_id := run_id self; inventory := v; cash_flow := cash_flow self;
     pnl := pnl self; current_step := current_step self; orders_sent :=
     orders_sent self; last_bid := last_bid self; last_ask := last_ask self;
     last_mid := last_mid self; history_steps := history_steps self;
     history_mids := history_mids self; history_bids := history_bids self;
     history_asks := history_asks self; market_ws := market_ws self; order_ws
     := order_ws self; running := running self; last_done_time :=
     last_done_time self; step_latencies := step_latencies self;
     order_send_times := order_send_times self; fill_latencies :=
     fill_latencies self; stdout := stdout self |}.
Definition set_cash_flow (v : Qc) (self : state) : state :=
  {| student_id := student_id self; host := host self; scenario := scenario
     self; password := password self; secure := secure self; token := token
     self; run_id := run_id self; inventory := inventory self; cash_flow := v;
     pnl := pnl self; current_step := current_step self; orders_sent :=
     orders_sent self; last_bid := last_bid self; last_ask := last_ask self;
     last_mid := last_mid self; history_steps := history_steps self;
     history_mids := history_mids self; history_bids := history_bids self;
     history_asks := history_asks self; market_ws := market_ws self; order_ws
     := order_ws self; running := running self; last_done_time :=
     last_done_time self; step_latencies := step_latencies self;
     order_send_times := order_send_times self; fill_latencies :=
     fill_latencies self; stdout := stdout self |}.
Definition set_pnl (v : Qc) (self : state) : state :=
  {| student_id := student_id self; host := host self; scenario := scenario
     self; password := password self; secure := secure self; token := token
     self; run_id := run_id self; inventory := inventory self; cash_flow :=
     cash_flow self; pnl := v; current_step := current_step self; orders_sent
     := orders_sent self; last_bid := last_bid self; last_ask := last_ask
     self; last_mid := last_mid self; history_steps := history_steps self;
     history_mids := history_mids self; history_bids := history_bids self;
     history_asks := history_asks self; market_ws := market_ws self; order_ws
     := order_ws self; running := running self; last_done_time :=
     last_done_time self; step_latencies := step_latencies self;
     order_send_times := order_send_times self; fill_latencies :=
     fill_latencies self; stdout := stdout self |}.
Definition set_current_step (v : Z) (self : state) : state :=
  {| student_id := student_id self; host := host self; scenario := scenario
     self; password := password self; secure := secure self; token := token
     self; run_id := run_id self; inventory := inventory self; cash_flow :=
     cash_flow self; pnl := pnl self; current_step := v; orders_sent :=
     orders_sent self; last_bid := last_bid self; last_ask := last_ask self;
     last_mid := last_mid self; history_steps := history_steps self;
     history_mids := history_mids self; history_bids := history_bids self;
     history_asks := history_asks self; market_ws := market_ws self; order_ws
     := order_ws self; running := running self; last_done_time :=
     last_done_time self; step_latencies := step_latencies self;
     order_send_times := order_send_times self; fill_latencies :=
     fill_latencies self; stdout := stdout self |}.
Definition set_orders_sent (v : Z) (self : state) : state :=
  {| student_id := student_id self; host := host self; scenario := scenario
     self; password := password self; secure := secure self; token := token
     self; run_id := run_id self; inventory := inventory self; cash_flow :=
     cash_flow self; pnl := pnl self; current_step := current_step self;
     orders_sent := v; last_bid := last_bid self; last_ask := last_ask self;
     last_mid := last_mid self; history_steps := history_steps self;
     history_mids := history_mids self; history_bids := history_bids self;
     history_asks := history_asks self; market_ws := market_ws self; order_ws
     := order_ws self; running := running self; last_done_time :=
     last_done_time self; step_latencies := step_latencies self;
     order_send_times := order_send_times self; fill_latencies :=
     fill_latencies self; stdout := stdout self |}.
Definition set_last_bid (v : Qc) (self : state) : state :=
  {| student_id := student_id self; host := host self; scenario := scenario
     self; password := password self; secure := secure self; token := token
     self; run_id := run_id self; inventory := inventory self; cash_flow :=
     cash_flow self; pnl := pnl self; current_step := current_step self;
     orders_sent := orders_sent self; last_bid := v; last_ask := last_ask
     self; last_mid := last_mid self; history_steps := history_steps self;
     history_mids := history_mids self; history_bids := history_bids self;
     history_asks := history_asks self; market_ws := market_ws self; order_ws
     := order_ws self; running := running self; last_done_time :=
     last_done_time self; step_latencies := step_latencies self;
     order_send_times := order_send_times self; fill_latencies :=
     fill_latencies self; stdout := stdout self |}.
Definition set_last_ask (v : Qc) (self : state) : state :=
  {| student_id := student_id self; host := host self; scenario := scenario
     self; password := password self; secure := secure self; token := token
     self; run_id := run_id self; inventory := inventory self; cash_flow :=
     cash_flow self; pnl := pnl self; current_step := current_step self;
     orders_sent := orders_sent self; last_bid := last_bid self; last_ask :=
     v; last_mid := last_mid self; history_steps := history_steps self;
     history_mids := history_mids self; history_bids := history_bids self;
     history_asks := history_asks self; market_ws := market_ws self; order_ws
     := order_ws self; running := running self; last_done_time :=
     last_done_time self; step_latencies := step_latencies self;
     order_send_times := order_send_times self; fill_latencies :=
     fill_latencies self; stdout := stdout self |}.
Definition set_last_mid (v : Qc) (self : state) : state :=
  {| student_id := student_id self; host := host self; scenario := scenario
     self; password := password self; secure := secure self; token := token
     self; run_id := run_id self; inventory := inventory self; cash_flow :=
     cash_flow self; pnl := pnl self; current_step := current_step self;
     orders_sent := orders_sent self; last_bid := last_bid self; last_ask :=
     last_ask self; last_mid := v; history_steps := history_steps self;
     history_mids := history_mids self; history_bids := history_bids self;
     history_asks := history_asks self; market_ws := market_ws self; order_ws
     := order_ws self; running := running self; last_done_time :=
     last_done_time self; step_latencies := step_latencies self;
     order_send_times := order_send_times self; fill_latencies :=
     fill_latencies self; stdout := stdout self |}.
Definition set_history_steps (v : list Z) (self : state) : state :=
  {| student_id := student_id self; host := host self; scenario := scenario
     self; password := password self; secure := secure self; token := token
     self; run_id := run_id self; inventory := inventory self; cash_flow :=
     cash_flow self; pnl := pnl self; current_step := current_step self;
     orders_sent := orders_sent self; last_bid := last_bid self; last_ask :=
     last_ask self; last_mid := last_mid self; history_steps := v;
     history_mids := history_mids self; history_bids := history_bids self;
     history_asks := history_asks self; market_ws := market_ws self; order_ws
     := order_ws self; running := running self; last_done_time :=
     last_done_time self; step_latencies := step_latencies self;
     order_send_times := order_send_times self; fill_latencies :=
     fill_latencies self; stdout := stdout self |}.
Definition set_history_mids (v : list Qc) (self : state) : state :=
  {| student_id := student_id self; host := host self; scenario := scenario
     self; password := password self; secure := secure self; token := token
     self; run_id := run_id self; inventory := inventory self; cash_flow :=
     cash_flow self; pnl := pnl self; current_step := current_step self;
     orders_sent := orders_sent self; last_bid := last_bid self; last_ask :=
     last_ask self; last_mid := last_mid self; history_steps := history_steps
     self; history_mids := v; history_bids := history_bids self; history_asks
     := history_asks self; market_ws := market_ws self; order_ws := order_ws
     self; running := running self; last_done_time := last_done_time self;
     step_latencies := step_latencies self; order_send_times :=
     order_send_times self; fill_latencies := fill_latencies self; stdout :=
     stdout self |}.
Definition set_history_bids (v : list Qc) (self : state) : state :=
  {| student_id := student_id self; host := host self; scenario := scenario
     self; password := password self; secure := secure self; token := token
     self; run_id := run_id self; inventory := inventory self; cash_flow :=
     cash_flow self; pnl := pnl self; current_step := current_step self;
     orders_sent := orders_sent self; last_bid := last_bid self; last_ask :=
     last_ask self; last_mid := last_mid self; history_steps := history_steps
     self; history_mids := history_mids self; history_bids := v; history_asks
     := history_asks self; market_ws := market_ws self; order_ws := order_ws
     self; running := running self; last_done_time := last_done_time self;
     step_latencies := step_latencies self; order_send_times :=
     order_send_times self; fill_latencies := fill_latencies self; stdout :=
     stdout self |}.
Definition set_history_asks (v : list Qc) (self : state) : state :=
  {| student_id := student_id self; host := host self; scenario := scenario
     self; password := password self; secure := secure self; token := token
     self; run_id := run_id self; inventory := inventory self; cash_flow :=
     cash_flow self; pnl := pnl self; current_step := current_step self;
     orders_sent := orders_sent self; last_bid := last_bid self; last_ask :=
     last_ask self; last_mid := last_mid self; history_steps := history_steps
     self; history_mids := history_mids self; history_bids := history_bids
     self; history_asks := v; market_ws := market_ws self; order_ws :=
     order_ws self; running := running self; last_done_time := last_done_time
     self; step_latencies := step_latencies self; order_send_times :=
     order_send_times self; fill_latencies := fill_latencies self; stdout :=
     stdout self |}.
Definition set_market_ws (v : option WebSocketApp) (self : state) : state :=
  {| student_id := student_id self; host := host self; scenario := scenario
     self; password := password self; secure := secure self; token := token
     self; run_id := run_id self; inventory := inventory self; cash_flow :=
     cash_flow self; pnl := pnl self; current_step := current_step self;
     orders_sent := orders_sent self; last_bid := last_bid self; last_ask :=
     last_ask self; last_mid := last_mid self; history_steps := history_steps
     self; history_mids := history_mids self; history_bids := history_bids
     self; history_asks := history_asks self; market_ws := v; order_ws :=
     order_ws self; running := running self; last_done_time := last_done_time
     self; step_latencies := step_latencies self; order_send_times :=
     order_send_times self; fill_latencies := fill_latencies self; stdout :=
     stdout self |}.
Definition set_order_ws (v : option WebSocketApp) (self : state) : state :=
  {| student_id := student_id self; host := host self; scenario := scenario
     self; password := password self; secure := secure self; token := token
     self; run_id := run_id self; inventory := inventory self; cash_flow :=
     cash_flow self; pnl := pnl self; current_step := current_step self;
     orders_sent := orders_sent self; last_bid := last_bid self; last_ask :=
     last_ask self; last_mid := last_mid self; history_steps := history_steps
     self; history_mids := history_mids self; history_bids := history_bids
     self; history_asks := history_asks self; market_ws := market_ws self;
     order_ws := v; running := running self; last_done_time := last_done_time
     self; step_latencies := step_latencies self; order_send_times :=
     order_send_times self; fill_latencies := fill_latencies self; stdout :=
     stdout self |}.
Definition set_running (v : bool) (self : state) : state :=
  {| student_id := student_id self; host := host self; scenario := scenario
     self; password := password self; secure := secure self; token := token
     self; run_id := run_id self; inventory := inventory self; cash_flow :=
     cash_flow self; pnl := pnl self; current_step := current_step self;
     orders_sent := orders_sent self; last_bid := last_bid self; last_ask :=
     last_ask self; last_mid := last_mid self; history_steps := history_steps
     self; history_mids := history_mids self; history_bids := history_bids
     self; history_asks := history_asks self; market_ws := market_ws self;
     order_ws := order_ws self; running := v; last_done_time := last_done_time
     self; step_latencies := step_latencies self; order_send_times :=
     order_send_times self; fill_latencies := fill_latencies self; stdout :=
     stdout self |}.
Definition set_last_done_time (v : option Qc) (self : state) : state :=
  {| student_id := student_id self; host := host self; scenario := scenario
     self; password := password self; secure := secure self; token := token
     self; run_id := run_id self; inventory := inventory self; cash_flow :=
     cash_flow self; pnl := pnl self; current_step := current_step self;
     orders_sent := orders_sent self; last_bid := last_bid self; last_ask :=
     last_ask self; last_mid := last_mid self; history_steps := history_steps
     self; history_mids := history_mids self; history_bids := history_bids
     self; history_asks := history_asks self; market_ws := market_ws self;
     order_ws := order_ws self; running := running self; last_done_time := v;
     step_latencies := step_latencies self; order_send_times :=
     order_send_times self; fill_latencies := fill_latencies self; stdout :=
     stdout self |}.
Definition set_step_latencies (v : list Qc) (self : state) : state :=
  {| student_id := student_id self; host := host self; scenario := scenario
     self; password := password self; secure := secure self; token := token
     self; run_id := run_id self; inventory := inventory self; cash_flow :=
     cash_flow self; pnl := pnl self; current_step := current_step self;
     orders_sent := orders_sent self; last_bid := last_bid self; last_ask :=
     last_ask self; last_mid := last_mid self; history_steps := history_steps
     self; history_mids := history_mids self; history_bids := history_bids
     self; history_asks := history_asks self; market_ws := market_ws self;
     order_ws := order_ws self; running := running self; last_done_time :=
     last_done_time self; step_latencies := v; order_send_times :=
     order_send_times self; fill_latencies := fill_latencies self; stdout :=
     stdout self |}.
Definition set_order_send_times (v : gmap string Qc) (self : state) : state :=
  {| student_id := student_id self; host := host self; scenario := scenario
     self; password := password self; secure := secure self; token := token
     self; run_id := run_id self; inventory := inventory self; cash_flow :=
     cash_flow self; pnl := pnl self; current_step := current_step self;
     orders_sent := orders_sent self; last_bid := last_bid self; last_ask :=
     last_ask self; last_mid := last_mid self; history_steps := history_steps
     self; history_mids := history_mids self; history_bids := history_bids
     self; history_asks := history_asks self; market_ws := market_ws self;
     order_ws := order_ws self; running := running self; last_done_time :=
     last_done_time self; step_latencies := step_latencies self;
     order_send_times := v; fill_latencies := fill_latencies self; stdout :=
     stdout self |}.
Definition set_fill_latencies (v : list Qc) (self : state) : state :=
  {| student_id := student_id self; host := host self; scenario := scenario
     self; password := password self; secure := secure self; token := token
     self; run_id := run_id self; inventory := inventory self; cash_flow :=
     cash_flow self; pnl := pnl self; current_step := current_step self;
     orders_sent := orders_sent self; last_bid := last_bid self; last_ask :=
     last_ask self; last_mid := last_mid self; history_steps := history_steps
     self; history_mids := history_mids self; history_bids := history_bids
     self; history_asks := history_asks self; market_ws := market_ws self;
     order_ws := order_ws self; running := running self; last_done_time :=
     last_done_time self; step_latencies := step_latencies self;
     order_send_times := order_send_times self; fill_latencies := v; stdout :=
     stdout self |}.
Definition set_stdout (v : list line) (self : state) : state :=
  {| student_id := student_id self; host := host self; scenario := scenario
     self; password := password self; secure := secure self; token := token
     self; run_id := run_id self; inventory := inventory self; cash_flow :=
     cash_flow self; pnl := pnl self; current_step := current_step self;
     orders_sent := orders_sent self; last_bid := last_bid self; last_ask :=
     last_ask self; last_mid := last_mid self; history_steps := history_steps
     self; history_mids := history_mids self; history_bids := history_bids
     self; history_asks := history_asks self; market_ws := market_ws self;
     order_ws := order_ws self; running := running self; last_done_time :=
     last_done_time self; step_latencies := step_latencies self;
     order_send_times := order_send_times self; fill_latencies :=
     fill_latencies self; stdout := v |}.

Local Open Scope py_scope.

Definition print (l : line) : Py.M state unit :=
  Py.modify (fun self => set_stdout (stdout self ++ [l]) self).

Definition http_proto (self : state) : string :=
  if secure self then "https" else "http".

Definition ws_proto (self : state) : string :=
  if secure self then "wss" else "ws".

(** [TradingBot(student_id, host, scenario, password, secure)]. *)
Definition __init__ (student_id host scenario : string)
    (password : option string) (secure : bool) : state :=
  {| student_id := student_id; host := host; scenario := scenario;
     password := password; secure := secure;
     token := None; run_id := None;
     inventory := 0; cash_flow := Q2Qc 0; pnl := Q2Qc 0;
     current_step := 0; orders_sent := 0;
     last_bid := Q2Qc 0; last_ask := Q2Qc 0; last_mid := Q2Qc 0;
     history_steps := []; history_mids := [];
     history_bids := []; history_asks := [];
     market_ws := None; order_ws := None; running := true;
     last_done_time := None; step_latencies := [];
     order_send_times := ∅; fill_latencies := [];
     stdout := [] |}.

(** [register]: one request; [False] unless the status is 200 and the
    body carries a token and a run id. *)
Definition register (resp : response) : Py.M state bool :=
  self <- Py.get ;
  print (Registering (scenario self)) ;;
  Py.try_except
    (match resp with
     | NoResponse => Py.raise Py.RequestException
     | Response status_code resp_text json =>
         if negb (bool_decide (status_code = 200)) then
           print (RegistrationFailed resp_text) ;;
           Py.ret false
         else
           data <- resp_json json ;
           Py.modify (set_token (body_token data)) ;;
           Py.modify (set_run_id (body_run_id data)) ;;
           if negb (Py.truthy (body_token data))
              || negb (Py.truthy (body_run_id data)) then
             print MissingTokenOrRunId ;;
             Py.ret false
           else
             print (Registered (body_run_id data)) ;;
             Py.ret true
     end)
    (fun e => print (RegistrationError e) ;; Py.ret false).

(** How an f-string renders [self.run_id] and [self.token]. *)
Definition fmt (s : option string) : string := default "None" s.

Definition market_url (self : state) : string :=
  ws_proto self +:+ "://" +:+ host self +:+ "/api/ws/market?run_id="
    +:+ fmt (run_id self).

Definition order_url (self : state) : string :=
  ws_proto self +:+ "://" +:+ host self +:+ "/api/ws/orders?token="
    +:+ fmt (token self) +:+ "&run_id=" +:+ fmt (run_id self).

(** [connect]: builds the two connection objects and starts their
    threads; the sockets come up later, on the threads. *)
Definition connect : Py.M state bool :=
  self <- Py.get ;
  Py.modify (set_market_ws
    (Some {| url := market_url self; sock := false; sent := [] |})) ;;
  Py.modify (set_order_ws
    (Some {| url := order_url self; sock := false; sent := [] |})) ;;
  Py.ret true.

(** The order a strategy returns: [{"side", "price", "qty"}]. *)
Record order := { order_side : string; order_price : Qc; order_qty : Z }.

(** [decide_order], as the template ships it. *)
Definition decide_order (self : state) (bid ask mid : Qc) : option order :=
  if bool_decide (mid ≤ Q2Qc 0)%Qc || bool_decide (bid ≤ Q2Qc 0)%Qc
     || bool_decide (ask ≤ Q2Qc 0)%Qc then None
  else if negb (bool_decide (current_step self mod 50 = 0)) then None
  else if bool_decide (200 < inventory self) then
    Some {| order_side := "SELL"; order_price := Py.round2 bid;
            order_qty := 100 |}
  else if bool_decide (inventory self < -200) then
    Some {| order_side := "BUY"; order_price := Py.round2 ask;
            order_qty := 100 |}
  else if bool_decide ((current_step self / 50) mod 2 = 0) then
    Some {| order_side := "BUY"; order_price := Py.round2 ask;
            order_qty := 100 |}
  else
    Some {| order_side := "SELL"; order_price := Py.round2 bid;
            order_qty := 100 |}.

(** [self.order_ws.send(...)]. *)
Definition order_ws_send (f : frame) : Py.M state unit :=
  self <- Py.get ;
  match order_ws self with
  | None => Py.raise Py.AttributeError
  | Some ws =>
      match ws_send f ws with
      | inl e => Py.raise e
      | inr ws' => Py.modify (set_order_ws (Some ws'))
      end
  end.

(** The id of the next order: [f"ORD_{student_id}_{step}_{orders_sent}"]. *)
Definition new_order_id (self : state) : string :=
  "ORD_" +:+ student_id self +:+ "_" +:+ Py.str (current_step self)
    +:+ "_" +:+ Py.str (orders_sent self).

Definition _send_order (now : Qc) (o : order) : Py.M state unit :=
  self <- Py.get ;
  let order_id := new_order_id self in
  let msg := Order None None order_id (order_side o) (order_price o)
               (order_qty o) in
  Py.try_except
    (Py.modify (fun self =>
       set_order_send_times (<[order_id := now]> (order_send_times self))
         self) ;;
     order_ws_send msg ;;
     Py.modify (fun self => set_orders_sent (orders_sent self + 1) self))
    (fun e => print (SendOrderError e)).

Definition _send_done (now : Qc) : Py.M state unit :=
  Py.try_except
    (order_ws_send Done ;;
     Py.modify (set_last_done_time (Some now)))
    (fun _ => Py.ret tt).

(** The readings of [time.time()] during one call of [_on_market_data]:
    on entry, in [_send_order] and in [_send_done]. *)
Record clock := { recv_time : Qc; send_time : Qc; done_time : Qc }.

(** A duration in seconds, in milliseconds. *)
Definition milliseconds (seconds : Qc) : Qc := (seconds * Q2Qc 1000)%Qc.

(** The bookkeeping of a tick, from the latency sample to the plotting
    history: the part of [_on_market_data] between the CONNECTED test
    and the call of the strategy. *)
Definition bookkeeping (recv_time : Qc) (data : message)
    : Py.M state unit :=
  self <- Py.get ;
  match last_done_time self with
  | Some t0 =>
      let step_latency := milliseconds (recv_time - t0)%Qc in
      Py.modify (set_step_latencies
                   (step_latencies self ++ [step_latency]))
  | None => Py.ret tt
  end ;;
  Py.modify (set_current_step (default 0 (step data))) ;;
  Py.modify (set_last_bid (default (Q2Qc 0) (bid data))) ;;
  Py.modify (set_last_ask (default (Q2Qc 0) (ask data))) ;;
  self <- Py.get ;
  Py.when (bool_decide (current_step self mod 500 = 0)
           && negb (bool_decide (step_latencies self = [])))
    (let avg_lat :=
       (Py.sum (Py.last_n 100 (step_latencies self))
        / Py.float (Z.of_nat (length (step_latencies self)) `min` 100))%Qc in
     print (Progress (current_step self) (orders_sent self)
              (inventory self) avg_lat)) ;;
  Py.modify (fun self =>
    set_last_mid
      (if bool_decide (Q2Qc 0 < last_bid self)%Qc
          && bool_decide (Q2Qc 0 < last_ask self)%Qc
       then ((last_bid self + last_ask self) / Q2Qc 2)%Qc
       else if bool_decide (Q2Qc 0 < last_bid self)%Qc
       then last_bid self
       else if bool_decide (Q2Qc 0 < last_ask self)%Qc
       then last_ask self
       else Q2Qc 0) self) ;;
  Py.modify (fun self =>
    set_history_steps (history_steps self ++ [current_step self]) self) ;;
  Py.modify (fun self =>
    set_history_mids (history_mids self ++ [last_mid self]) self) ;;
  Py.modify (fun self =>
    set_history_bids (history_bids self ++ [last_bid self]) self) ;;
  Py.modify (fun self =>
    set_history_asks (history_asks self ++ [last_ask self]) self).

Section Strategy.

(** [self.decide_order] is the method a participant overrides. *)
Variable strategy : state -> Qc -> Qc -> Qc -> option order.

(** The order of the tick, if the strategy places one and the order
    channel is up. *)
Definition place_order (now : Qc) : Py.M state unit :=
  self <- Py.get ;
  match strategy self (last_bid self) (last_ask self) (last_mid self) with
  | Some o => Py.when (connected (order_ws self)) (_send_order now o)
  | None => Py.ret tt
  end.

Definition _on_market_data (clk : clock) (message : payload)
    : Py.M state unit :=
  Py.try_except
    (let recv_time := recv_time clk in
     data <- json_loads message ;
     if bool_decide (type data = Some "CONNECTED") then Py.ret tt
     else
       bookkeeping recv_time data ;;
       place_order (send_time clk) ;;
       _send_done (done_time clk))
    (fun e => print (MarketDataError e)).

End Strategy.

Definition _on_order_response (recv_time : Qc) (message : payload)
    : Py.M state unit :=
  Py.try_except
    (data <- json_loads message ;
     let msg_type := type data in
     if bool_decide (msg_type = Some "AUTHENTICATED") then
       print Authenticated
     else if bool_decide (msg_type = Some "FILL") then
       let qty := default 0 (qty data) in
       let price := default (Q2Qc 0) (price data) in
       let side := default "" (side data) in
       let order_id := default "" (order_id data) in
       self <- Py.get ;
       match order_send_times self !! order_id with
       | Some sent_at =>
           let fill_latency := milliseconds (recv_time - sent_at)%Qc in
           Py.modify (set_fill_latencies
                        (fill_latencies self ++ [fill_latency])) ;;
           Py.modify (set_order_send_times
                        (delete order_id (order_send_times self)))
       | None => Py.ret tt
       end ;;
       (if bool_decide (side = "BUY") then
          Py.modify (fun self => set_inventory (inventory self + qty) self) ;;
          Py.modify (fun self =>
            set_cash_flow (cash_flow self - Py.float qty * price)%Qc self)
        else
          Py.modify (fun self => set_inventory (inventory self - qty) self) ;;
          Py.modify (fun self =>
            set_cash_flow (cash_flow self + Py.float qty * price)%Qc self)) ;;
       Py.modify (fun self =>
         set_pnl (cash_flow self
                  + Py.float (inventory self) * last_mid self)%Qc self) ;;
       self <- Py.get ;
       print (Fill side qty price (inventory self) (pnl self))
     else if bool_decide (msg_type = Some "ERROR") then
       print (ServerError (text data))
     else Py.ret tt)
    (fun e => print (OrderResponseError e)).

Definition _on_close (status : option Z) : Py.M state unit :=
  Py.modify (set_running false) ;;
  print (ConnectionClosed status).

(** [run], up to the plotting loop: register, then connect. *)
Definition run (resp : response) : Py.M state unit :=
  ok <- register resp ;
  if negb ok then Py.ret tt
  else
    ok <- connect ;
    if negb ok then Py.ret tt
    else print Running.

(** What happens to a bot during a session: the library brings the
    order socket up or down, or one of the two listeners delivers a
    message to its callback. *)
Inductive event :=
| OrderSocketUp
| OrderSocketDown (status : option Z)
| MarketMessage (clk : clock) (message : payload)
| OrderMessage (recv_time : Qc) (message : payload).

Definition handle (strategy : state -> Qc -> Qc -> Qc -> option order)
    (e : event) : Py.M state unit :=
  match e with
  | OrderSocketUp =>
      Py.modify (fun self => set_order_ws (ws_open <$> order_ws self) self) ;;
      print OrderEntryConnected
  | OrderSocketDown status =>
      Py.modify (fun self => set_order_ws (ws_close <$> order_ws self) self) ;;
      _on_close status
  | MarketMessage clk message => _on_market_data strategy clk message
  | OrderMessage recv_time message => _on_order_response recv_time message
  end.

Definition session (strategy : state -> Qc -> Qc -> Qc -> option order)
    (es : list event) (self : state) : state :=
  foldl (fun self e => Py.exec (handle strategy e) self) self es.

(** The ids of the orders sent so far, oldest first. *)
Definition sent_order_ids (self : state) : list string :=
  omap frame_order_id (frames (order_ws self)).

End TradingBot.

(** ** The interactive participant: [manual_trader.py] *)

Module ManualTrader.

(** One row of a side of the displayed book: the quantity and the price
    read from a level. *)
Record row := { row_qty : Py.number; row_price : Py.number }.

(** What [display_book] shows: the last trade, the ten best levels of
    each side, and the position line. *)
Record book := {
  book_last : Py.number;
  book_bids : list row;
  book_asks : list row;
  book_inventory : Z;
  book_pnl : Qc
}.

(** What [print] writes, one constructor per message of the program. *)
Inductive line :=
| Registering (scenario : string)
| RegistrationFailed (resp_text : string)
| Registered (run_id : option string)
| ErrorRegistering (e : Py.exn)
| MarketConnected (text : option string)
| MarketSnapshot (b : book)
| Fill (side : option string) (qty : Z) (price : Qc)
| ServerError (text : option string)
| WsError (e : Py.exn)
| WsClosed (status : option Z)
| Connected
| SentDone
| TradeUsage
| SentOrder (side : string) (qty : Z) (price : Qc) (order_id : string)
| InvalidNumber
| CancelUsage
| SentCancel (order_id : string).

(** The attributes of a [ManualTrader]; [stdout] collects what it
    prints. *)
Record state := {
  host : string;
  scenario : string;
  secure : bool;
  student_id : string;
  password : option string;
  token : option string;
  run_id : option string;
  ws_order : option WebSocketApp;
  ws_market : option WebSocketApp;
  running : bool;
  last_snapshot_hash : option string;
  inventory : Z;
  pnl : Qc;
  stdout : list line
}.

(** Assignment to one attribute. *)
Definition set_token (v : option string) (self : state) : state :=
  {| host := host self; scenario := scenario self; secure := secure self;
     student_id := student_id self; password := password self; token := v;
     run_id := run_id self; ws_order := ws_order self; ws_market := ws_market
     self; running := running self; last_snapshot_hash := last_snapshot_hash
     self; inventory := inventory self; pnl := pnl self; stdout := stdout self
     |}.
Definition set_run_id (v : option string) (self : state) : state :=
  {| host := host self; scenario := scenario self; secure := secure self;
     student_id := student_id self; password := password self; token := token
     self; run_id := v; ws_order := ws_order self; ws_market := ws_market
     self; running := running self; last_snapshot_hash := last_snapshot_hash
     self; inventory := inventory self; pnl := pnl self; stdout := stdout self
     |}.
Definition set_ws_order (v : option WebSocketApp) (self : state) : state :=
  {| host := host self; scenario := scenario self; secure := secure self;
     student_id := student_id self; password := password self; token := token
     self; run_id := run_id self; ws_order := v; ws_market := ws_market self;
     running := running self; last_snapshot_hash := last_snapshot_hash self;
     inventory := inventory self; pnl := pnl self; stdout := stdout self |}.
Definition set_ws_market (v : option WebSocketApp) (self : state) : state :=
  {| host := host self; scenario := scenario self; secure := secure self;
     student_id := student_id self; password := password self; token := token
     self; run_id := run_id self; ws_order := ws_order self; ws_market := v;
     running := running self; last_snapshot_hash := last_snapshot_hash self;
     inventory := inventory self; pnl := pnl self; stdout := stdout self |}.
Definition set_running (v : bool) (self : state) : state :=
  {| host := host self; scenario := scenario self; secure := secure self;
     student_id := student_id self; password := password self; token := token
     self; run_id := run_id self; ws_order := ws_order self; ws_market :=
     ws_market self; running := v; last_snapshot_hash := last_snapshot_hash
     self; inventory := inventory self; pnl := pnl self; stdout := stdout self
     |}.
Definition set_last_snapshot_hash (v : option string) (self : state) : state :=
  {| host := host self; scenario := scenario self; secure := secure self;
     student_id := student_id self; password := password self; token := token
     self; run_id := run_id self; ws_order := ws_order self; ws_market :=
     ws_market self; running := running self; last_snapshot_hash := v;
     inventory := inventory self; pnl := pnl self; stdout := stdout self |}.
Definition set_inventory (v : Z) (self : state) : state :=
  {| host := host self; scenario := scenario self; secure := secure self;
     student_id := student_id self; password := password self; token := token
     self; run_id := run_id self; ws_order := ws_order self; ws_market :=
     ws_market self; running := running self; last_snapshot_hash :=
     last_snapshot_hash self; inventory := v; pnl := pnl self; stdout :=
     stdout self |}.
Definition set_pnl (v : Qc) (self : state) : state :=
  {| host := host self; scenario := scenario self; secure := secure self;
     student_id := student_id self; password := password self; token := token
     self; run_id := run_id self; ws_order := ws_order self; ws_market :=
     ws_market self; running := running self; last_snapshot_hash :=
     last_snapshot_hash self; inventory := inventory self; pnl := v; stdout :=
     stdout self |}.
Definition set_stdout (v : list line) (self : state) : state :=
  {| host := host self; scenario := scenario self; secure := secure self;
     student_id := student_id self; password := password self; token := token
     self; run_id := run_id self; ws_order := ws_order self; ws_market :=
     ws_market self; running := running self; last_snapshot_hash :=
     last_snapshot_hash self; inventory := inventory self; pnl := pnl self;
     stdout := v |}.

Local Open Scope py_scope.

Definition print (l : line) : Py.M state unit :=
  Py.modify (fun self => set_stdout (stdout self ++ [l]) self).

Definition http_proto (self : state) : string :=
  if secure self then "https" else "http".

Definition ws_proto (self : state) : string :=
  if secure self then "wss" else "ws".

(** [ManualTrader(host, scenario, name, password, secure)]. *)
Definition __init__ (host scenario name : string)
    (password : option string) (secure : bool) : state :=
  {| host := host; scenario := scenario; secure := secure;
     student_id := name; password := password;
     token := None; run_id := None;
     ws_order := None; ws_market := None; running := true;
     last_snapshot_hash := None;
     inventory := 0; pnl := Q2Qc 0;
     stdout := [] |}.

(** [register]: one request; [False] unless the status is 200.  The
    token and the run id are stored as [data.get] returns them. *)
Definition register (resp : response) : Py.M state bool :=
  self <- Py.get ;
  print (Registering (scenario self)) ;;
  Py.try_except
    (match resp with
     | NoResponse => Py.raise Py.RequestException
     | Response status_code resp_text json =>
         if negb (bool_decide (status_code = 200)) then
           print (RegistrationFailed resp_text) ;;
           Py.ret false
         else
           data <- resp_json json ;
           Py.modify (set_token (body_token data)) ;;
           Py.modify (set_run_id (body_run_id data)) ;;
           print (Registered (body_run_id data)) ;;
           Py.ret true
     end)
    (fun e => print (ErrorRegistering e) ;; Py.ret false).

(** The dictionary whose [json.dumps] is the fingerprint of a book. *)
Record snapshot := {
  snapshot_bids : list level;       (* bids[:10] *)
  snapshot_asks : list level;       (* asks[:10] *)
  snapshot_last : Py.number;
  snapshot_step : option Z
}.

Definition current_snapshot (data : message) : snapshot :=
  {| snapshot_bids := take 10 (default [] (bids data));
     snapshot_asks := take 10 (default [] (asks data));
     snapshot_last := default (Py.Float (Q2Qc 0)) (last_trade data);
     snapshot_step := step data |}.

Definition row_of (b : level) : row :=
  {| row_qty := level_qty b; row_price := level_price b |}.

Definition display_book (bids asks : list level) (last_price : Py.number)
    : Py.M state unit :=
  self <- Py.get ;
  print (MarketSnapshot
           {| book_last := last_price;
              book_bids := row_of <$> take 10 bids;
              book_asks := row_of <$> take 10 asks;
              book_inventory := inventory self; book_pnl := pnl self |}).

Section Fingerprint.

(** [json.dumps], of the standard library, on the fingerprint
    dictionary. *)
Variable json_dumps : snapshot -> string.

Definition on_market_message (message : payload) : Py.M state unit :=
  data <- json_loads message ;
  let msg_type := type data in
  if bool_decide (msg_type = Some "CONNECTED") then
    print (MarketConnected (text data))
  else if bool_decide (msg_type = Some "MARKET_DATA")
          || bool_decide (msg_type = Some "SNAPSHOT") then
    let bids := default [] (bids data) in
    let asks := default [] (asks data) in
    let last_price := default (Py.Float (Q2Qc 0)) (last_trade data) in
    let current_snapshot := json_dumps (current_snapshot data) in
    self <- Py.get ;
    if negb (bool_decide (Some current_snapshot = last_snapshot_hash self))
    then
      display_book bids asks last_price ;;
      Py.modify (set_last_snapshot_hash (Some current_snapshot))
    else Py.ret tt
  else Py.ret tt.

End Fingerprint.

(** [x = data.get(k)] used as a number: [None] raises [TypeError] at
    the first arithmetic operation. *)
Definition number {A} (x : option A) : Py.M state A :=
  match x with
  | Some x => Py.ret x
  | None => Py.raise Py.TypeError
  end.

Definition on_order_message (message : payload) : Py.M state unit :=
  data <- json_loads message ;
  let msg_type := type data in
  if bool_decide (msg_type = Some "FILL") then
    let side := side data in
    (if bool_decide (side = Some "BUY") then
       qty <- number (qty data) ;
       Py.modify (fun self => set_inventory (inventory self + qty) self) ;;
       price <- number (price data) ;
       Py.modify (fun self =>
         set_pnl (pnl self - Py.float qty * price)%Qc self)
     else
       qty <- number (qty data) ;
       Py.modify (fun self => set_inventory (inventory self - qty) self) ;;
       price <- number (price data) ;
       Py.modify (fun self =>
         set_pnl (pnl self + Py.float qty * price)%Qc self)) ;;
    qty <- number (qty data) ;
    price <- number (price data) ;
    print (Fill side qty price)
  else if bool_decide (msg_type = Some "ERROR") then
    print (ServerError (text data))
  else Py.ret tt.

Definition on_error (e : Py.exn) : Py.M state unit :=
  self <- Py.get ;
  Py.when (running self) (print (WsError e)).

Definition on_close (status : option Z) : Py.M state unit :=
  self <- Py.get ;
  Py.when (running self) (print (WsClosed status)).

(** How an f-string renders [self.run_id] and [self.token]. *)
Definition fmt (s : option string) : string := default "None" s.

Definition market_url (self : state) : string :=
  ws_proto self +:+ "://" +:+ host self +:+ "/api/ws/market?run_id="
    +:+ fmt (run_id self).

Definition order_url (self : state) : string :=
  ws_proto self +:+ "://" +:+ host self +:+ "/api/ws/orders?token="
    +:+ fmt (token self) +:+ "&run_id=" +:+ fmt (run_id self).

(** [self.ws_order.send(...)]. *)
Definition ws_order_send (f : frame) : Py.M state unit :=
  self <- Py.get ;
  match ws_order self with
  | None => Py.raise Py.AttributeError
  | Some ws =>
      match ws_send f ws with
      | inl e => Py.raise e
      | inr ws' => Py.modify (set_ws_order (Some ws'))
      end
  end.

(** One line of the operator, after [strip().split()] and the parsing
    of its numbers; [None] is an argument [int] or [float] rejects. *)
Inductive command :=
| Blank
| Quit                                  (* quit, exit *)
| Advance                               (* step, next, done *)
| TradeShort (buy : bool)               (* buy/sell, fewer than 3 words *)
| Trade (buy : bool) (qty : option Z) (price : option Qc)
| CancelShort                           (* cancel, no id *)
| Cancel (order_id : string)
| Other.

(** [f"manual_{int(time.time()*1000)}"]. *)
Definition new_order_id (now : Qc) : string :=
  "manual_" +:+ Py.str (Py.int (now * Q2Qc 1000)%Qc).

(** The body of the command loop for one line read at time [now]. *)
Definition on_command (now : Qc) (cmd : command) : Py.M state unit :=
  match cmd with
  | Blank => Py.ret tt
  | Quit => Py.modify (set_running false)
  | Advance => ws_order_send Done ;; print SentDone
  | TradeShort _ => print TradeUsage
  | Trade buy (Some qty) (Some price) =>
      let side := if buy then "BUY" else "SELL" in
      let order_id := new_order_id now in
      ws_order_send
        (Order (Some "NEW_ORDER") (Some "SYM") order_id side price qty) ;;
      print (SentOrder side qty price order_id)
  | Trade _ _ _ => print InvalidNumber
  | CancelShort => print CancelUsage
  | Cancel order_id =>
      ws_order_send (CancelOrder order_id) ;;
      print (SentCancel order_id)
  | Other => Py.ret tt
  end.

(** [start], up to the command loop: register, then build the two
    connections and start their threads. *)
Definition start (resp : response) : Py.M state unit :=
  ok <- register resp ;
  if negb ok then Py.ret tt
  else
    self <- Py.get ;
    Py.modify (set_ws_market
      (Some {| url := market_url self; sock := false; sent := [] |})) ;;
    Py.modify (set_ws_order
      (Some {| url := order_url self; sock := false; sent := [] |})) ;;
    print Connected.

(** How the websocket library calls a callback of the application: an
    exception that escapes the callback is caught by the library and
    handed to [on_error]. *)
Definition dispatch (callback : Py.M state unit) : Py.M state unit :=
  Py.try_except callback on_error.

(** The ids of the orders sent so far, oldest first. *)
Definition sent_order_ids (self : state) : list string :=
  omap frame_order_id (frames (ws_order self)).

(** The books shown so far. *)
Definition shown (self : state) : list book :=
  omap (fun l => match l with MarketSnapshot b => Some b | _ => None end)
    (stdout self).

(** The command loop of [start]: [while self.running], one line of the
    operator at a time; the end of the input and [quit] leave the loop, an
    exception of a command leaves it too. *)
Fixpoint command_loop (lines : list (Qc * command)) : Py.M state unit :=
  match lines with
  | [] => Py.ret tt
  | (now, cmd) :: rest =>
      self <- Py.get ;
      if running self then
        on_command now cmd ;;
        match cmd with
        | Quit => Py.ret tt
        | _ => command_loop rest
        end
      else Py.ret tt
  end.

(** The [finally] block of [start]. *)
Definition start_finally : Py.M state unit :=
  Py.modify (set_running false) ;;
  Py.modify (fun self => set_ws_market (ws_close <$> ws_market self) self) ;;
  Py.modify (fun self => set_ws_order (ws_close <$> ws_order self) self).

(** [start], from the command loop on. *)
Definition command_session (lines : list (Qc * command))
    : Py.M state unit :=
  Py.try_finally (command_loop lines) start_finally.

End ManualTrader.

(** ** The ledger the specification describes *)

(** A fill as the order channel reports it:
    [{"type": "FILL", "order_id", "side", "price", "qty"}]. *)
Record fill := {
  fill_order_id : string;
  fill_side : string;
  fill_price : Qc;
  fill_qty : Z
}.

Definition fill_message (f : fill) : payload :=
  Decoded {| type := Some "FILL"; text := None; step := None;
             bid := None; ask := None; bids := None; asks := None;
             last_trade := None;
             order_id := Some (fill_order_id f);
             side := Some (fill_side f);
             price := Some (fill_price f);
             qty := Some (fill_qty f) |}.

(** The two sides of the specification. *)
Definition known_side (f : fill) : Prop :=
  fill_side f = "BUY" ∨ fill_side f = "SELL".

(** Signed quantity and signed cash of one fill, in the words of the
    specification: BUY counts the quantity positive and the cash
    negative, SELL the inverse. *)
Definition signed_qty (f : fill) : Z :=
  if bool_decide (fill_side f = "BUY") then fill_qty f
  else if bool_decide (fill_side f = "SELL") then - fill_qty f
  else 0.

Definition signed_cash (f : fill) : Qc :=
  if bool_decide (fill_side f = "BUY")
  then (- (Py.float (fill_qty f) * fill_price f))%Qc
  else if bool_decide (fill_side f = "SELL")
  then (Py.float (fill_qty f) * fill_price f)%Qc
  else Q2Qc 0.

Definition total_qty (fills : list fill) : Z :=
  foldr (fun f acc => signed_qty f + acc) 0 fills.

Definition total_cash (fills : list fill) : Qc :=
  foldr (fun f acc => (signed_cash f + acc)%Qc) (Q2Qc 0) fills.

(** The ledger of either program: position and cash.  The interactive
    trader keeps its cash in [pnl]; it has no mid price and no
    mark-to-market value. *)
Definition bot_ledger (self : TradingBot.state) : Z * Qc :=
  (TradingBot.inventory self, TradingBot.cash_flow self).

Definition trader_ledger (self : ManualTrader.state) : Z * Qc :=
  (ManualTrader.inventory self, ManualTrader.pnl self).

(** "On each FILL: if side == BUY, inventory += qty, cash_flow -=
    qty*price; if side == SELL, the inverse." *)
Definition applies_fill (f : fill) (before after : Z * Qc) : Prop :=
  (fill_side f = "BUY" ->
   after = (before.1 + fill_qty f,
            (before.2 - Py.float (fill_qty f) * fill_price f)%Qc))
  ∧ (fill_side f = "SELL" ->
     after = (before.1 - fill_qty f,
              (before.2 + Py.float (fill_qty f) * fill_price f)%Qc)).

(** The fills of a session reach the order callback one at a time, each
    at its own time of arrival. *)
Definition bot_fills (fills : list (Qc * fill)) (self : TradingBot.state)
    : TradingBot.state :=
  foldl (fun self tf =>
           Py.exec (TradingBot._on_order_response tf.1 (fill_message tf.2))
             self)
    self fills.

(** For the interactive trader a callback that raises stops nothing: the
    state it reached is kept. *)
Definition manual_fills (fills : list fill) (self : ManualTrader.state)
    : ManualTrader.state :=
  foldl (fun self f =>
           Py.exec (ManualTrader.on_order_message (fill_message f)) self)
    self fills.

(** What a FILL assigns in the bot, read off the payload with the
    defaults of [data.get]. *)
Definition fill_inventory (data : message) (self : TradingBot.state) : Z :=
  if bool_decide (default "" (side data) = "BUY")
  then TradingBot.inventory self + default 0 (qty data)
  else TradingBot.inventory self - default 0 (qty data).

Definition fill_cash_flow (data : message) (self : TradingBot.state) : Qc :=
  if bool_decide (default "" (side data) = "BUY")
  then (TradingBot.cash_flow self
        - Py.float (default 0%Z (qty data)) * default (Q2Qc 0) (price data))%Qc
  else (TradingBot.cash_flow self
        + Py.float (default 0%Z (qty data)) * default (Q2Qc 0) (price data))%Qc.

Definition fill_pnl (data : message) (self : TradingBot.state) : Qc :=
  (fill_cash_flow data self
   + Py.float (fill_inventory data self) * TradingBot.last_mid self)%Qc.

Definition fill_line (data : message) (self : TradingBot.state)
    : TradingBot.line :=
  TradingBot.Fill (default "" (side data)) (default 0 (qty data))
    (default (Q2Qc 0) (price data))
    (fill_inventory data self) (fill_pnl data self).

(** What a callback of the bot printed: the lines added to [stdout]. *)
Definition printed (before after : TradingBot.state)
    : list TradingBot.line :=
  drop (length (TradingBot.stdout before)) (TradingBot.stdout after).

(** The frames a tick puts on an order channel that is up: the order of
    the strategy, if it places one, then DONE.  [self] is the bot after
    the bookkeeping of the tick. *)
Definition tick_frames
    (strategy : TradingBot.state -> Qc -> Qc -> Qc -> option TradingBot.order)
    (self : TradingBot.state) : list frame :=
  match strategy self (TradingBot.last_bid self) (TradingBot.last_ask self)
          (TradingBot.last_mid self) with
  | Some o =>
      [Order None None (TradingBot.new_order_id self)
         (TradingBot.order_side o) (TradingBot.order_price o)
         (TradingBot.order_qty o); Done]
  | None => [Done]
  end.

(** The events of the market channel. *)
Definition is_market (e : TradingBot.event) : bool :=
  match e with TradingBot.MarketMessage _ _ => true | _ => false end.

(** A string in which the character [c] does not occur. *)
Fixpoint free_of (c : ascii) (s : string) : Prop :=
  match s with
  | EmptyString => True
  | String a s' => a ≠ c ∧ free_of c s'
  end.

(** The ids sent so far are those of numbered orders: each carries a
    step and a sequence number below [orders_sent], and no sequence number
    occurs twice. *)
Definition ids_numbered (self : TradingBot.state) : Prop :=
  ∃ l : list (Z * Z),
    TradingBot.sent_order_ids self
    = (fun p => "ORD_" +:+ TradingBot.student_id self +:+ "_"
                  +:+ Py.str p.1 +:+ "_" +:+ Py.str p.2) <$> l
    ∧ NoDup l.*2
    ∧ Forall (fun p => p.2 < TradingBot.orders_sent self) l.

(** The messages that carry a book. *)
Definition is_book (data : message) : Prop :=
  type data = Some "MARKET_DATA" ∨ type data = Some "SNAPSHOT".

(** The book [display_book] shows for a message. *)
Definition book_of (data : message) (self : ManualTrader.state)
    : ManualTrader.book :=
  {| ManualTrader.book_last := default (Py.Float (Q2Qc 0)) (last_trade data);
     ManualTrader.book_bids :=
       ManualTrader.row_of <$> take 10 (default [] (bids data));
     ManualTrader.book_asks :=
       ManualTrader.row_of <$> take 10 (default [] (asks data));
     ManualTrader.book_inventory := ManualTrader.inventory self;
     ManualTrader.book_pnl := ManualTrader.pnl self |}.

(** The price and the quantity of a level, as values. *)
Definition level_values (b : level) : Qc * Qc :=
  (Py.value (level_price b), Py.value (level_qty b)).

(** Two messages differ in one of the ten best levels of a side: at some
    place among the first ten, the one has another price or quantity than
    the other, or a level where the other has none. *)
Definition differ_in_level (d1 d2 : message) : Prop :=
  ∃ i : nat,
    (i < 10)%nat
    ∧ (level_values <$> default [] (bids d1) !! i
       ≠ level_values <$> default [] (bids d2) !! i
       ∨ level_values <$> default [] (asks d1) !! i
         ≠ level_values <$> default [] (asks d2) !! i).

(** Two messages carry the same book: the ten best levels of both sides
    have the same prices and quantities, and the last trade and the step
    are equal. *)
Definition same_book (d1 d2 : message) : Prop :=
  level_values <$> take 10 (default [] (bids d1))
  = level_values <$> take 10 (default [] (bids d2))
  ∧ level_values <$> take 10 (default [] (asks d1))
    = level_values <$> take 10 (default [] (asks d2))
  ∧ Py.value (default (Py.Float (Q2Qc 0)) (last_trade d1))
    = Py.value (default (Py.Float (Q2Qc 0)) (last_trade d2))
  ∧ step d1 = step d2.

(** An injective rendering of the fingerprint dictionary, to stand for
    [json.dumps] in examples. *)
Global Instance number_eq_dec : EqDecision Py.number.
Proof. solve_decision. Defined.

Global Instance number_countable : Countable Py.number :=
  inj_countable'
    (fun n => match n with Py.Int z => inl z | Py.Float x => inr x end)
    (fun s => match s with inl z => Py.Int z | inr x => Py.Float x end)
    (fun n => match n with Py.Int _ => eq_refl | Py.Float _ => eq_refl end).

Global Instance snapshot_eq_dec : EqDecision ManualTrader.snapshot.
Proof. solve_decision. Defined.

Global Instance snapshot_countable : Countable ManualTrader.snapshot :=
  inj_countable'
    (fun s => (ManualTrader.snapshot_bids s, ManualTrader.snapshot_asks s,
               ManualTrader.snapshot_last s, ManualTrader.snapshot_step s))
    (fun t => {| ManualTrader.snapshot_bids := t.1.1.1;
                 ManualTrader.snapshot_asks := t.1.1.2;
                 ManualTrader.snapshot_last := t.1.2;
                 ManualTrader.snapshot_step := t.2 |})
    (fun s => match s with
              | ManualTrader.Build_snapshot _ _ _ _ => eq_refl
              end).

Definition render (s : ManualTrader.snapshot) : string :=
  pretty (encode s).

(** ** Worked examples *)

Definition dec (n : Z) (d : positive) : Qc := Q2Qc (Qmake n d).

(** A bot and a trader that have registered and opened their channels. *)
Definition registered : response :=
  Response 200 ""
    (Some {| body_token := Some "tok"; body_run_id := Some "run1" |}).

Definition bob : TradingBot.state :=
  Py.exec (TradingBot.run registered)
    (TradingBot.__init__ "bob" "localhost:8080" "normal_market"
       (Some "pw") false).

Definition bob_online : TradingBot.state :=
  TradingBot.session TradingBot.decide_order [TradingBot.OrderSocketUp] bob.

Definition eve : ManualTrader.state :=
  Py.exec (ManualTrader.start registered)
    (ManualTrader.__init__ "localhost:8080" "normal_market" "eve"
       (Some "pw") false).

Definition eve_online : ManualTrader.state :=
  ManualTrader.set_ws_order (ws_open <$> ManualTrader.ws_order eve) eve.

(** The fills of the specification's example, and a bot whose last mid
    price is 11.00. *)
Definition spec_fills : list fill :=
  [ {| fill_order_id := "ORD_bob_0_0"; fill_side := "BUY";
       fill_price := dec 10 1; fill_qty := 100 |};
    {| fill_order_id := "ORD_bob_50_1"; fill_side := "SELL";
       fill_price := dec 11 1; fill_qty := 50 |} ].

Definition bob_mid_11 : TradingBot.state :=
  TradingBot.set_last_mid (dec 11 1) bob_online.

Definition spec_fills_timed : list (Qc * fill) :=
  zip [dec 3 1; dec 7 1] spec_fills.

(** A fill whose side is missing, and one for an order never sent. *)
Definition sideless_fill : message :=
  {| type := Some "FILL"; text := None; step := None; bid := None;
     ask := None; bids := None; asks := None; last_trade := None;
     order_id := Some "ORD_bob_0_0"; side := None;
     price := Some (dec 10 1); qty := Some 100 |}.

Definition stray_fill : message :=
  {| type := Some "FILL"; text := None; step := None; bid := None;
     ask := None; bids := None; asks := None; last_trade := None;
     order_id := Some "ORD_bob_0_0"; side := Some "BUY";
     price := Some (dec 10 1); qty := Some 100 |}.

(** The same bot with that order pending since time 1. *)
Definition bob_pending : TradingBot.state :=
  TradingBot.set_order_send_times {[ "ORD_bob_0_0" := dec 1 1 ]} bob_online.

(** A registration answered with status 200 and an empty dictionary. *)
Definition empty_answer : response :=
  Response 200 "{}" (Some {| body_token := None; body_run_id := None |}).

(** Two books that differ in the quantity of the second bid. *)
(** [{"price": p, "qty": q}]. *)
Definition price_qty (p : Py.number) (q : Z) : level :=
  [("price", p); ("qty", Py.Int q)].

Definition book_message (second_bid_qty : Z) : message :=
  {| type := Some "MARKET_DATA"; text := None; step := Some 7;
     bid := None; ask := None;
     bids := Some [price_qty (Py.Float (dec 10 1)) 5;
                   price_qty (Py.Float (dec 99 10)) second_bid_qty];
     asks := Some [price_qty (Py.Float (dec 11 1)) 4];
     last_trade := Some (Py.Float (dec 21 2));
     order_id := None; side := None; price := None; qty := None |}.

(** One book spelled in two ways: first with the best bid as
    [{"price": 10.0, "qty": 5}], then as [{"qty": 5, "price": 10}]. *)
Definition book_spelled (best_bid : level) : message :=
  {| type := Some "MARKET_DATA"; text := None; step := Some 7;
     bid := None; ask := None;
     bids := Some [best_bid];
     asks := Some [price_qty (Py.Float (dec 11 1)) 4];
     last_trade := Some (Py.Float (dec 21 2));
     order_id := None; side := None; price := None; qty := None |}.

Definition bid_as_float : level := price_qty (Py.Float (dec 10 1)) 5.

Definition bid_as_int : level :=
  [("qty", Py.Int 5); ("price", Py.Int 10)].

(** A tick of the market channel with the flattened best levels. *)
Definition tick (st : Z) (b a : Qc) : payload :=
  Decoded {| type := Some "MARKET_DATA"; text := None; step := Some st;
             bid := Some b; ask := Some a; bids := None; asks := None;
             last_trade := None; order_id := None; side := None;
             price := None; qty := None |}.

Definition at_time (t : Z) : TradingBot.clock :=
  {| TradingBot.recv_time := dec t 1;
     TradingBot.send_time := dec (10 * t + 1) 10;
     TradingBot.done_time := dec (10 * t + 2) 10 |}.

(** ** Sessions as a whole *)

(** The market messages the bot processes as ticks: every decoded one
    but the connection confirmation. *)
Definition is_tick (e : TradingBot.event) : bool :=
  match e with
  | TradingBot.MarketMessage _ (Decoded data) =>
      negb (bool_decide (type data = Some "CONNECTED"))
  | _ => false
  end.

Definition is_fill_event (e : TradingBot.event) : bool :=
  match e with
  | TradingBot.OrderMessage _ (Decoded data) =>
      bool_decide (type data = Some "FILL")
  | _ => false
  end.

Definition is_socket_down (e : TradingBot.event) : bool :=
  match e with TradingBot.OrderSocketDown _ => true | _ => false end.

(** The DONE frames among the frames sent. *)
Definition done_count (ws : option WebSocketApp) : nat :=
  length (filter (fun f => is_done f = true) (frames ws)).

(** The four plotting histories have one entry per processed tick. *)
Definition history_aligned (self : TradingBot.state) (n : nat) : Prop :=
  length (TradingBot.history_steps self) = n
  ∧ length (TradingBot.history_mids self) = n
  ∧ length (TradingBot.history_bids self) = n
  ∧ length (TradingBot.history_asks self) = n.

(** Every order sent is on the wire once, and is either pending in the
    table of send times or has given one fill-latency sample. *)
Definition orders_accounted (self : TradingBot.state) : Prop :=
  Z.of_nat (length (TradingBot.sent_order_ids self))
  = TradingBot.orders_sent self
  ∧ Z.of_nat (size (TradingBot.order_send_times self))
    + Z.of_nat (length (TradingBot.fill_latencies self))
    = TradingBot.orders_sent self
  ∧ ∀ key, is_Some (TradingBot.order_send_times self !! key) ->
      ∃ st k : Z,
        key = "ORD_" +:+ TradingBot.student_id self +:+ "_"
                +:+ Py.str st +:+ "_" +:+ Py.str k
        ∧ k < TradingBot.orders_sent self.

(** The bot after the order of a tick went out at time [now]. *)
Definition order_sent (now : Qc) (o : TradingBot.order)
    (self : TradingBot.state) : TradingBot.state :=
  TradingBot.set_orders_sent (TradingBot.orders_sent self + 1)
    (TradingBot.set_order_ws
       (sent_on (Order None None (TradingBot.new_order_id self)
                   (TradingBot.order_side o) (TradingBot.order_price o)
                   (TradingBot.order_qty o))
          (TradingBot.order_ws self))
       (TradingBot.set_order_send_times
          (<[TradingBot.new_order_id self := now]>
             (TradingBot.order_send_times self)) self)).

(** The frame a command of the operator puts on the order channel. *)
Definition command_frame (now : Qc) (cmd : ManualTrader.command)
    : option frame :=
  match cmd with
  | ManualTrader.Advance => Some Done
  | ManualTrader.Trade buy (Some qty) (Some price) =>
      Some (Order (Some "NEW_ORDER") (Some "SYM")
              (ManualTrader.new_order_id now)
              (if buy then "BUY" else "SELL") price qty)
  | ManualTrader.Cancel order_id => Some (CancelOrder order_id)
  | _ => None
  end.

(** A message that carries only a type. *)
Definition bare (ty : option string) : message :=
  {| type := ty; text := None; step := None; bid := None; ask := None;
     bids := None; asks := None; last_trade := None; order_id := None;
     side := None; price := None; qty := None |}.

(** The bot after [place_order] and after [_send_done]. *)
Definition after_place
    (strategy : TradingBot.state -> Qc -> Qc -> Qc -> option TradingBot.order)
    (now : Qc) (self : TradingBot.state) : TradingBot.state :=
  match strategy self (TradingBot.last_bid self) (TradingBot.last_ask self)
          (TradingBot.last_mid self) with
  | Some o =>
      if connected (TradingBot.order_ws self) then order_sent now o self
      else self
  | None => self
  end.

Definition after_done (now : Qc) (self : TradingBot.state)
    : TradingBot.state :=
  if connected (TradingBot.order_ws self)
  then TradingBot.set_last_done_time (Some now)
         (TradingBot.set_order_ws (sent_on Done (TradingBot.order_ws self))
            self)
  else self.

(** The mid price the bookkeeping of a tick derives from the best bid and
    the best ask. *)
Definition mid_of (b a : Qc) : Qc :=
  if bool_decide (Q2Qc 0 < b)%Qc && bool_decide (Q2Qc 0 < a)%Qc
  then ((b + a) / Q2Qc 2)%Qc
  else if bool_decide (Q2Qc 0 < b)%Qc then b
  else if bool_decide (Q2Qc 0 < a)%Qc then a
  else Q2Qc 0.
(** ** Properties *)

(** *** Tactics *)

Ltac qc_eq := apply Qc_is_canon; vm_compute; reflexivity.

(** *** The order callback of the bot on a fill *)

(** The whole effect of a FILL on the bot, assignment by assignment. *)
Lemma bot_fill_run (recv_time : Qc) (data : message)
    (self : TradingBot.state) :
  type data = Some "FILL" ->
  TradingBot._on_order_response recv_time (Decoded data) self =
  (inr tt,
   TradingBot.set_stdout (TradingBot.stdout self ++ [fill_line data self])
     (TradingBot.set_pnl (fill_pnl data self)
        (TradingBot.set_cash_flow (fill_cash_flow data self)
           (TradingBot.set_inventory (fill_inventory data self)
              (match TradingBot.order_send_times self
                       !! default "" (order_id data) with
               | Some sent_at =>
                   TradingBot.set_order_send_times
                     (delete (default "" (order_id data))
                        (TradingBot.order_send_times self))
                     (TradingBot.set_fill_latencies
                        (TradingBot.fill_latencies self
                           ++ [TradingBot.milliseconds
                                 (recv_time - sent_at)%Qc]) self)
               | None => self
               end))))).
Proof.
  intros is_fill.
  unfold TradingBot._on_order_response, Py.try_except, Py.bind, json_loads,
    Py.ret, fill_line, fill_pnl, fill_cash_flow, fill_inventory.
  rewrite is_fill. simpl.
  destruct (TradingBot.order_send_times self !! default "" (order_id data))
    as [sent_at|];
    destruct (bool_decide (default "" (side data) = "BUY")); reflexivity.
Qed.

Section BotFillFields.

Variables (recv_time : Qc) (data : message) (self : TradingBot.state).
Hypothesis is_fill : type data = Some "FILL".

Let self' :=
  Py.exec (TradingBot._on_order_response recv_time (Decoded data)) self.

Lemma bot_fill_inventory :
  TradingBot.inventory self' = fill_inventory data self.
Proof.
  unfold self', Py.exec. rewrite bot_fill_run by done.
  by destruct (TradingBot.order_send_times self !! _).
Qed.

Lemma bot_fill_cash_flow :
  TradingBot.cash_flow self' = fill_cash_flow data self.
Proof.
  unfold self', Py.exec. rewrite bot_fill_run by done.
  by destruct (TradingBot.order_send_times self !! _).
Qed.

Lemma bot_fill_pnl : TradingBot.pnl self' = fill_pnl data self.
Proof.
  unfold self', Py.exec. rewrite bot_fill_run by done.
  by destruct (TradingBot.order_send_times self !! _).
Qed.

Lemma bot_fill_last_mid :
  TradingBot.last_mid self' = TradingBot.last_mid self.
Proof.
  unfold self', Py.exec. rewrite bot_fill_run by done.
  by destruct (TradingBot.order_send_times self !! _).
Qed.

Lemma bot_fill_stdout :
  TradingBot.stdout self' = TradingBot.stdout self ++ [fill_line data self].
Proof.
  unfold self', Py.exec. rewrite bot_fill_run by done.
  by destruct (TradingBot.order_send_times self !! _).
Qed.

End BotFillFields.


(** *** The order callback of the trader on a fill *)

Lemma manual_fill_run (data : message) (q : Z) (p : Qc)
    (self : ManualTrader.state) :
  type data = Some "FILL" -> qty data = Some q -> price data = Some p ->
  ManualTrader.on_order_message (Decoded data) self =
  (inr tt,
   ManualTrader.set_stdout
     (ManualTrader.stdout self ++ [ManualTrader.Fill (side data) q p])
     (if bool_decide (side data = Some "BUY")
      then ManualTrader.set_pnl
             (ManualTrader.pnl self - Py.float q * p)%Qc
             (ManualTrader.set_inventory (ManualTrader.inventory self + q) self)
      else ManualTrader.set_pnl
             (ManualTrader.pnl self + Py.float q * p)%Qc
             (ManualTrader.set_inventory (ManualTrader.inventory self - q)
                self))).
Proof.
  intros is_fill Hq Hp.
  unfold ManualTrader.on_order_message, Py.bind, json_loads, Py.ret.
  rewrite is_fill, Hq, Hp. simpl.
  destruct (bool_decide (side data = Some "BUY")); reflexivity.
Qed.

(** *** Totals of a sequence of fills *)

Lemma signed_qty_buy f : fill_side f = "BUY" -> signed_qty f = fill_qty f.
Proof. intros H. unfold signed_qty. by rewrite H. Qed.

Lemma signed_qty_sell f : fill_side f = "SELL" -> signed_qty f = - fill_qty f.
Proof. intros H. unfold signed_qty. by rewrite H. Qed.

Lemma signed_cash_buy f :
  fill_side f = "BUY" ->
  signed_cash f = (- (Py.float (fill_qty f) * fill_price f))%Qc.
Proof. intros H. unfold signed_cash. by rewrite H. Qed.

Lemma signed_cash_sell f :
  fill_side f = "SELL" ->
  signed_cash f = (Py.float (fill_qty f) * fill_price f)%Qc.
Proof. intros H. unfold signed_cash. by rewrite H. Qed.

(** One fill of a known side moves the ledger of the bot by its signed
    quantity and its signed cash. *)
Lemma bot_fill_step (t : Qc) (f : fill) (self : TradingBot.state) :
  known_side f ->
  let self' :=
    Py.exec (TradingBot._on_order_response t (fill_message f)) self in
  TradingBot.inventory self' = TradingBot.inventory self + signed_qty f
  ∧ TradingBot.cash_flow self'
    = (TradingBot.cash_flow self + signed_cash f)%Qc.
Proof.
  intros Hside. simpl. unfold fill_message.
  rewrite bot_fill_inventory, bot_fill_cash_flow by done.
  unfold fill_inventory, fill_cash_flow. simpl.
  destruct Hside as [H|H].
  - rewrite signed_qty_buy, signed_cash_buy by done. rewrite H. simpl.
    split; [done | ring].
  - rewrite signed_qty_sell, signed_cash_sell by done. rewrite H. simpl.
    split; [lia | done].
Qed.

Lemma manual_fill_step (f : fill) (self : ManualTrader.state) :
  known_side f ->
  let self' := Py.exec (ManualTrader.on_order_message (fill_message f)) self in
  ManualTrader.inventory self' = ManualTrader.inventory self + signed_qty f
  ∧ ManualTrader.pnl self' = (ManualTrader.pnl self + signed_cash f)%Qc.
Proof.
  intros Hside. simpl. unfold Py.exec, fill_message.
  erewrite manual_fill_run by done. simpl.
  destruct Hside as [H|H].
  - rewrite signed_qty_buy, signed_cash_buy by done. rewrite H. simpl.
    split; [done | ring].
  - rewrite signed_qty_sell, signed_cash_sell by done. rewrite H. simpl.
    split; [lia | done].
Qed.

Lemma bot_fills_totals (fills : list (Qc * fill)) (self : TradingBot.state) :
  Forall (fun tf => known_side tf.2) fills ->
  TradingBot.inventory (bot_fills fills self)
  = TradingBot.inventory self + total_qty fills.*2
  ∧ TradingBot.cash_flow (bot_fills fills self)
    = (TradingBot.cash_flow self + total_cash fills.*2)%Qc.
Proof.
  intros Hsides. revert self.
  induction Hsides as [|[t f] fills Hf _ IH]; intros self.
  - simpl. split; [lia | ring].
  - csimpl. destruct (IH (Py.exec (TradingBot._on_order_response t
                                    (fill_message f)) self)) as [-> ->].
    destruct (bot_fill_step t f self Hf) as [-> ->].
    split; [lia | ring].
Qed.

Lemma manual_fills_totals (fills : list fill) (self : ManualTrader.state) :
  Forall known_side fills ->
  ManualTrader.inventory (manual_fills fills self)
  = ManualTrader.inventory self + total_qty fills
  ∧ ManualTrader.pnl (manual_fills fills self)
    = (ManualTrader.pnl self + total_cash fills)%Qc.
Proof.
  intros Hsides. revert self.
  induction Hsides as [|f fills Hf _ IH]; intros self.
  - simpl. split; [lia | ring].
  - simpl. destruct (IH (Py.exec (ManualTrader.on_order_message
                                    (fill_message f)) self)) as [-> ->].
    destruct (manual_fill_step f self Hf) as [-> ->].
    split; [lia | ring].
Qed.

(** Fills leave the mid price alone, and after the last of them the
    mark-to-market value is the one of the final ledger. *)
Lemma bot_fills_last_mid (fills : list (Qc * fill)) (self : TradingBot.state) :
  TradingBot.last_mid (bot_fills fills self) = TradingBot.last_mid self.
Proof.
  revert self. induction fills as [|[t f] fills IH]; intros self; [done|].
  simpl. rewrite IH. by apply bot_fill_last_mid.
Qed.

Lemma bot_fills_pnl (fills : list (Qc * fill)) (self : TradingBot.state) :
  fills ≠ [] ->
  TradingBot.pnl (bot_fills fills self)
  = (TradingBot.cash_flow (bot_fills fills self)
     + Py.float (TradingBot.inventory (bot_fills fills self))
       * TradingBot.last_mid self)%Qc.
Proof.
  destruct fills as [|tf fills _] using rev_ind; [done|]. intros _.
  unfold bot_fills. rewrite foldl_app. simpl. fold (bot_fills fills self).
  destruct tf as [t f]. unfold fill_message. simpl.
  rewrite bot_fill_pnl, bot_fill_cash_flow, bot_fill_inventory by done.
  unfold fill_pnl. by rewrite bot_fills_last_mid.
Qed.

Lemma bot_fill_applies (t : Qc) (f : fill) (self : TradingBot.state) :
  applies_fill f (bot_ledger self)
    (bot_ledger
       (Py.exec (TradingBot._on_order_response t (fill_message f)) self)).
Proof.
  unfold applies_fill, bot_ledger, fill_message.
  rewrite bot_fill_inventory, bot_fill_cash_flow by done.
  unfold fill_inventory, fill_cash_flow. simpl.
  split; intros ->; reflexivity.
Qed.

Lemma manual_fill_applies (f : fill) (self : ManualTrader.state) :
  applies_fill f (trader_ledger self)
    (trader_ledger
       (Py.exec (ManualTrader.on_order_message (fill_message f)) self)).
Proof.
  unfold applies_fill, trader_ledger, Py.exec, fill_message.
  erewrite manual_fill_run by done. simpl.
  split; intros ->; reflexivity.
Qed.

(** C1.  Starting from an empty ledger (inventory 0, cash 0), a sequence
    of fills with sides BUY and SELL leaves the inventory at the signed sum
    of the filled quantities and the cash flow at the signed sum of
    qty*price; each fill moves the ledger as the specification says (BUY:
    inventory += qty, cash -= qty*price; SELL: the inverse).  This holds
    for the ledger of the bot and for the one of the interactive trader,
    whose cash is kept in [pnl].  In the bot the mark-to-market value after
    the last fill is cash + inventory * last_mid. *)
Theorem fill_ledger_totals (fills : list (Qc * fill))
    (bot : TradingBot.state) (trader : ManualTrader.state) :
  Forall (fun tf => known_side tf.2) fills ->
  bot_ledger bot = (0, Q2Qc 0) ->
  trader_ledger trader = (0, Q2Qc 0) ->
  bot_ledger (bot_fills fills bot) = (total_qty fills.*2, total_cash fills.*2)
  ∧ trader_ledger (manual_fills fills.*2 trader)
    = (total_qty fills.*2, total_cash fills.*2)
  ∧ (fills ≠ [] ->
     TradingBot.pnl (bot_fills fills bot)
     = (total_cash fills.*2
        + Py.float (total_qty fills.*2) * TradingBot.last_mid bot)%Qc)
  ∧ (∀ t f self,
       applies_fill f (bot_ledger self)
         (bot_ledger
            (Py.exec (TradingBot._on_order_response t (fill_message f))
               self)))
  ∧ (∀ f self,
       applies_fill f (trader_ledger self)
         (trader_ledger
            (Py.exec (ManualTrader.on_order_message (fill_message f)) self))).
Proof.
  intros Hsides [= Hinv Hcash] [= Hinv' Hcash'].
  destruct (bot_fills_totals fills bot Hsides) as [Hi Hc].
  assert (Forall known_side fills.*2) as Hsides'.
  { apply Forall_fmap. by eapply Forall_impl. }
  destruct (manual_fills_totals fills.*2 trader Hsides') as [Hi' Hc'].
  rewrite Hinv, Hcash in *. rewrite Hinv', Hcash' in *.
  assert (∀ x : Qc, (Q2Qc 0 + x)%Qc = x) as Hzero by (intros; ring).
  rewrite Hzero in Hc, Hc'. rewrite Z.add_0_l in Hi, Hi'.
  unfold bot_ledger, trader_ledger.
  repeat split.
  - by rewrite Hi, Hc.
  - by rewrite Hi', Hc'.
  - intros Hne. rewrite bot_fills_pnl by done. by rewrite Hi, Hc.
  - apply bot_fill_applies.
  - apply bot_fill_applies.
  - apply manual_fill_applies.
  - apply manual_fill_applies.
Qed.

(** The example of the specification: BUY 100 at 10.00 then SELL 50 at
    11.00, with the last mid price at 11.00. *)
Lemma fill_ledger_example :
  Forall (fun tf => known_side tf.2) spec_fills_timed
  ∧ bot_ledger bob_mid_11 = (0, Q2Qc 0)
  ∧ trader_ledger eve = (0, Q2Qc 0)
  ∧ TradingBot.last_mid bob_mid_11 = dec 11 1
  ∧ TradingBot.inventory (bot_fills spec_fills_timed bob_mid_11) = 50
  ∧ TradingBot.cash_flow (bot_fills spec_fills_timed bob_mid_11) = dec (-450) 1
  ∧ TradingBot.pnl (bot_fills spec_fills_timed bob_mid_11) = dec 100 1
  ∧ trader_ledger (manual_fills spec_fills eve) = (50, dec (-450) 1).
Proof.
  assert (Forall (fun tf => known_side tf.2) spec_fills_timed) as Hsides.
  { unfold spec_fills_timed, spec_fills. simpl.
    apply Forall_cons; [by left|]. apply Forall_cons; [by right|].
    apply Forall_nil. }
  assert (bot_ledger bob_mid_11 = (0, Q2Qc 0)) as Hbot by reflexivity.
  assert (trader_ledger eve = (0, Q2Qc 0)) as Heve by reflexivity.
  destruct (fill_ledger_totals spec_fills_timed bob_mid_11 eve Hsides Hbot Heve)
    as (Hb & Ht & Hp & _).
  assert (total_qty spec_fills_timed.*2 = 50) as Hq by reflexivity.
  assert (total_cash spec_fills_timed.*2 = dec (-450) 1) as Hc by qc_eq.
  rewrite Hq, Hc in Hb, Ht, Hp.
  unfold bot_ledger in Hb. apply pair_equal_spec in Hb as [Hbi Hbc].
  specialize (Hp ltac:(done)).
  repeat split; try done.
Defined.

(** *** Sessions of the bot *)

Lemma session_snoc strategy (es : list TradingBot.event)
    (e : TradingBot.event) (self : TradingBot.state) :
  TradingBot.session strategy (es ++ [e]) self
  = Py.exec (TradingBot.handle strategy e) (TradingBot.session strategy es self).
Proof. unfold TradingBot.session. by rewrite foldl_snoc. Qed.

(** C2, as the code has it.  In the bot, whatever happened in the session
    before, once a FILL has been applied the mark-to-market value is
    cash_flow + inventory * last_mid, where last_mid is the mid price the
    bot held when the fill arrived: the fill itself does not touch it.
    The interactive trader keeps no mid price and no cash flow of its own:
    a FILL moves its [pnl] by the cash of the fill and by nothing else, so
    that after any fills from an empty ledger [pnl] is the signed sum of
    qty*price; that is cash_flow + inventory * mid only for a mid price
    with inventory * mid = 0. *)
Theorem fill_marks_to_market
    (strategy : TradingBot.state -> Qc -> Qc -> Qc -> option TradingBot.order)
    (es : list TradingBot.event) (recv_time : Qc) (data : message)
    (self : TradingBot.state) :
  type data = Some "FILL" ->
  let before := TradingBot.session strategy es self in
  let after :=
    TradingBot.session strategy
      (es ++ [TradingBot.OrderMessage recv_time (Decoded data)]) self in
  TradingBot.pnl after
  = (TradingBot.cash_flow after
     + Py.float (TradingBot.inventory after) * TradingBot.last_mid after)%Qc
  ∧ TradingBot.last_mid after = TradingBot.last_mid before
  ∧ (∀ q p trader,
       qty data = Some q -> price data = Some p ->
       ManualTrader.pnl
         (Py.exec (ManualTrader.on_order_message (Decoded data)) trader)
       = if bool_decide (side data = Some "BUY")
         then (ManualTrader.pnl trader - Py.float q * p)%Qc
         else (ManualTrader.pnl trader + Py.float q * p)%Qc)
  ∧ (∀ fills trader mid,
       Forall known_side fills ->
       trader_ledger trader = (0, Q2Qc 0) ->
       let trader' := manual_fills fills trader in
       ManualTrader.inventory trader' = total_qty fills
       ∧ ManualTrader.pnl trader' = total_cash fills
       ∧ (ManualTrader.pnl trader'
          = (total_cash fills
             + Py.float (ManualTrader.inventory trader') * mid)%Qc
          ↔ (Py.float (ManualTrader.inventory trader') * mid)%Qc = Q2Qc 0)).
Proof.
  intros is_fill before after. subst after. rewrite session_snoc.
  fold before. simpl.
  rewrite bot_fill_pnl, bot_fill_cash_flow, bot_fill_inventory,
    bot_fill_last_mid by done.
  split; [done|]. split; [done|]. split.
  - intros q p trader Hq Hp. unfold Py.exec.
    erewrite manual_fill_run by done. simpl.
    by destruct (bool_decide (side data = Some "BUY")).
  - intros fills trader mid Hsides [= Hinv Hcash].
    destruct (manual_fills_totals fills trader Hsides) as [Hi Hc].
    rewrite Hinv in Hi. rewrite Hcash in Hc.
    assert (ManualTrader.pnl (manual_fills fills trader) = total_cash fills)
      as Hpnl by (rewrite Hc; ring).
    split; [by rewrite Hi|]. split; [exact Hpnl|].
    rewrite Hpnl.
    set (y := (Py.float _ * mid)%Qc). split.
    + intros Heq.
      assert (y = (total_cash fills + y - total_cash fills)%Qc) as ->
        by ring.
      rewrite <-Heq. ring.
    + intros ->. ring.
Qed.

(** A tick sets the mid price to 10.5, then a fill arrives at the bot; the
    trader takes the two fills of the specification's example. *)
Lemma fill_marks_to_market_example :
  type stray_fill = Some "FILL"
  ∧ Forall known_side spec_fills
  ∧ trader_ledger eve = (0, Q2Qc 0)
  ∧ (let after :=
       TradingBot.session TradingBot.decide_order
         [TradingBot.MarketMessage (at_time 1) (tick 7 (dec 10 1) (dec 11 1));
          TradingBot.OrderMessage (dec 2 1) (Decoded stray_fill)] bob_online in
     TradingBot.pnl after
     = (TradingBot.cash_flow after
        + Py.float (TradingBot.inventory after) * TradingBot.last_mid after)%Qc
     ∧ TradingBot.last_mid after = dec 21 2)
  ∧ ManualTrader.pnl
      (Py.exec (ManualTrader.on_order_message (Decoded stray_fill)) eve)
    = dec (-1000) 1
  ∧ ManualTrader.pnl (manual_fills spec_fills eve) = dec (-450) 1.
Proof.
  assert (Forall known_side spec_fills) as Hsides.
  { apply Forall_cons; [by left|]. apply Forall_cons; [by right|].
    apply Forall_nil. }
  assert (trader_ledger eve = (0, Q2Qc 0)) as Heve by reflexivity.
  split; [reflexivity|]. split; [exact Hsides|]. split; [exact Heve|].
  destruct (fill_marks_to_market TradingBot.decide_order
              [TradingBot.MarketMessage (at_time 1)
                 (tick 7 (dec 10 1) (dec 11 1))]
              (dec 2 1) stray_fill bob_online eq_refl)
    as (Hpnl & Hmid & Hone & Hall).
  simpl app in Hpnl, Hmid. split; [|split].
  - split; [exact Hpnl|]. rewrite Hmid. qc_eq.
  - rewrite (Hone 100 (dec 10 1) eve eq_refl eq_refl). qc_eq.
  - destruct (Hall spec_fills eve (dec 11 1) Hsides Heve) as (_ & -> & _).
    qc_eq.
Defined.

(** The example of the specification on the interactive trader: after
    BUY 100 at 10.00 and SELL 50 at 11.00 it holds 50 and its [pnl] is the
    cash, -450, where cash_flow + inventory * last_mid at a mid price of
    11.00 is 100; and so for every mid price but 0. *)
Lemma trader_pnl_not_marked :
  let after := manual_fills spec_fills eve in
  ManualTrader.inventory after = 50
  ∧ ManualTrader.pnl after = dec (-450) 1
  ∧ (dec (-450) 1 + Py.float 50 * dec 11 1)%Qc = dec 100 1
  ∧ ManualTrader.pnl after ≠ dec 100 1
  ∧ (∀ mid : Qc,
       mid ≠ Q2Qc 0 ->
       ManualTrader.pnl after
       ≠ (dec (-450) 1 + Py.float (ManualTrader.inventory after) * mid)%Qc).
Proof.
  intros after.
  assert (Forall known_side spec_fills) as Hsides.
  { apply Forall_cons; [by left|]. apply Forall_cons; [by right|].
    apply Forall_nil. }
  destruct (manual_fills_totals spec_fills eve Hsides) as [Hi Hc].
  fold after in Hi, Hc.
  assert (ManualTrader.inventory after = 50) as Hinv by (rewrite Hi; reflexivity).
  assert (ManualTrader.pnl after = dec (-450) 1) as Hpnl
    by (rewrite Hc; qc_eq).
  split; [exact Hinv|]. split; [exact Hpnl|]. split; [qc_eq|].
  split; [by rewrite Hpnl|].
  intros mid Hmid. rewrite Hpnl, Hinv. intros Heq.
  apply Hmid.
  assert ((Py.float 50 * mid)%Qc = Q2Qc 0) as Hzero.
  { assert ((Py.float 50 * mid)%Qc
            = (dec (-450) 1 + Py.float 50 * mid - dec (-450) 1)%Qc) as ->
      by ring.
    rewrite <-Heq. ring. }
  apply Qcmult_integral in Hzero as [Hfifty|Hzero]; [|exact Hzero].
  by apply (f_equal this) in Hfifty.
Qed.

(** C10.  A FILL whose side is anything but "BUY" (so "SELL", the empty
    string, or no side at all) is applied as a sell by both programs:
    the inventory goes down by qty and the cash up by qty*price, and the
    callback returns normally. *)
Theorem fill_other_side_sells (recv_time : Qc) (data : message) (q : Z)
    (p : Qc) (bot : TradingBot.state) (trader : ManualTrader.state) :
  type data = Some "FILL" ->
  side data ≠ Some "BUY" ->
  qty data = Some q -> price data = Some p ->
  let bot' :=
    TradingBot._on_order_response recv_time (Decoded data) bot in
  let trader' := ManualTrader.on_order_message (Decoded data) trader in
  bot'.1 = inr tt
  ∧ bot_ledger bot'.2
    = (TradingBot.inventory bot - q,
       (TradingBot.cash_flow bot + Py.float q * p)%Qc)
  ∧ trader'.1 = inr tt
  ∧ trader_ledger trader'.2
    = (ManualTrader.inventory trader - q,
       (ManualTrader.pnl trader + Py.float q * p)%Qc).
Proof.
  intros is_fill Hside Hq Hp. simpl.
  assert (bool_decide (default "" (side data) = "BUY") = false) as Hbot.
  { apply bool_decide_eq_false. destruct (side data) as [s|]; [|done].
    simpl. congruence. }
  assert (bool_decide (side data = Some "BUY") = false) as Htrader
    by by apply bool_decide_eq_false.
  rewrite bot_fill_run by done.
  erewrite manual_fill_run by done.
  rewrite Htrader. simpl.
  unfold bot_ledger, trader_ledger.
  destruct (TradingBot.order_send_times bot !! default "" (order_id data));
    simpl; unfold fill_inventory, fill_cash_flow;
    rewrite Hbot, Hq, Hp; done.
Qed.

Lemma fill_other_side_sells_example :
  type sideless_fill = Some "FILL"
  ∧ side sideless_fill ≠ Some "BUY"
  ∧ bot_ledger
      (TradingBot._on_order_response (dec 2 1) (Decoded sideless_fill)
         bob_online).2 = (-100, dec 1000 1)
  ∧ trader_ledger
      (ManualTrader.on_order_message (Decoded sideless_fill) eve).2
    = (-100, dec 1000 1).
Proof.
  assert (side sideless_fill ≠ Some "BUY") as Hside by done.
  destruct (fill_other_side_sells (dec 2 1) sideless_fill 100 (dec 10 1)
              bob_online eve eq_refl Hside eq_refl eq_refl)
    as (_ & Hbot & _ & Htrader).
  split; [reflexivity|]. split; [exact Hside|]. split.
  - rewrite Hbot. apply pair_equal_spec. split; [reflexivity | qc_eq].
  - rewrite Htrader. apply pair_equal_spec. split; [reflexivity | qc_eq].
Defined.

(** *** Fills that match no pending order *)

(** A fill that matches takes its order out of the table, so that a
    second fill for the same order is an unmatched one. *)
Lemma fill_clears_pending (recv_time : Qc) (data : message)
    (self : TradingBot.state) :
  type data = Some "FILL" ->
  TradingBot.order_send_times
    (Py.exec (TradingBot._on_order_response recv_time (Decoded data)) self)
    !! default "" (order_id data) = None.
Proof.
  intros is_fill. unfold Py.exec. rewrite bot_fill_run by done.
  destruct (TradingBot.order_send_times self !! default "" (order_id data))
    as [sent_at|] eqn:Hpending; simpl.
  - apply lookup_delete_eq.
  - exact Hpending.
Qed.

(** C3, as the code has it.  A FILL whose order id has no entry in the
    table of send times leaves that table and the fill-latency samples
    as they were, raises nothing, and still updates inventory and cash
    flow from its payload.  It is not reported as an anomaly: the callback
    prints the ordinary FILL line and nothing else. *)
Theorem unmatched_fill_ignored (recv_time : Qc) (data : message)
    (self : TradingBot.state) :
  type data = Some "FILL" ->
  TradingBot.order_send_times self !! default "" (order_id data) = None ->
  let r := TradingBot._on_order_response recv_time (Decoded data) self in
  r.1 = inr tt
  ∧ TradingBot.order_send_times r.2 = TradingBot.order_send_times self
  ∧ TradingBot.fill_latencies r.2 = TradingBot.fill_latencies self
  ∧ TradingBot.inventory r.2 = fill_inventory data self
  ∧ TradingBot.cash_flow r.2 = fill_cash_flow data self
  ∧ printed self r.2 = [fill_line data self].
Proof.
  intros is_fill Hnone. simpl.
  rewrite bot_fill_run by done. rewrite Hnone. simpl.
  unfold printed. simpl. by rewrite drop_app_length.
Qed.

Lemma unmatched_fill_ignored_example :
  type stray_fill = Some "FILL"
  ∧ TradingBot.order_send_times bob_online !! "ORD_bob_0_0" = None
  ∧ let r :=
      TradingBot._on_order_response (dec 2 1) (Decoded stray_fill)
        bob_online in
    r.1 = inr tt
    ∧ TradingBot.order_send_times r.2 = ∅
    ∧ TradingBot.fill_latencies r.2 = []
    ∧ TradingBot.inventory r.2 = 100.
Proof.
  assert (TradingBot.order_send_times bob_online
            !! default "" (order_id stray_fill) = None) as Hnone by done.
  destruct (unmatched_fill_ignored (dec 2 1) stray_fill bob_online eq_refl
              Hnone) as (Hr & Ht & Hl & Hi & _).
  split; [reflexivity|]. split; [exact Hnone|].
  split; [exact Hr|]. split; [exact Ht|]. split; [exact Hl|]. exact Hi.
Defined.

(** The claim wants the unmatched fill logged as an anomaly.  The fill
    for an order the session never sent prints exactly the line that the
    same fill prints when its order is pending: nothing flags it. *)
Lemma unmatched_fill_not_flagged :
  TradingBot.order_send_times bob_online !! "ORD_bob_0_0" = None
  ∧ TradingBot.order_send_times bob_pending !! "ORD_bob_0_0"
    = Some (dec 1 1)
  ∧ printed bob_online
      (Py.exec (TradingBot._on_order_response (dec 2 1) (Decoded stray_fill))
         bob_online)
    = [TradingBot.Fill "BUY" 100 (dec 10 1) 100 (dec (-1000) 1)]
  ∧ printed bob_pending
      (Py.exec (TradingBot._on_order_response (dec 2 1) (Decoded stray_fill))
         bob_pending)
    = [TradingBot.Fill "BUY" 100 (dec 10 1) 100 (dec (-1000) 1)].
Proof.
  split; [done|]. split; [done|].
  unfold printed.
  rewrite !bot_fill_stdout by done. rewrite !drop_app_length.
  unfold fill_line. simpl.
  split; do 2 f_equal.
Qed.

(** *** The market callback of the bot *)

(** What the bookkeeping of a tick changes and what it leaves alone. *)
Lemma bookkeeping_fields (recv_time : Qc) (data : message)
    (self : TradingBot.state) :
  let s1 := Py.exec (TradingBot.bookkeeping recv_time data) self in
  Py.outcome (TradingBot.bookkeeping recv_time data) self = inr tt
  ∧ TradingBot.order_ws s1 = TradingBot.order_ws self
  ∧ TradingBot.orders_sent s1 = TradingBot.orders_sent self
  ∧ TradingBot.student_id s1 = TradingBot.student_id self
  ∧ TradingBot.last_done_time s1 = TradingBot.last_done_time self
  ∧ TradingBot.step_latencies s1
    = match TradingBot.last_done_time self with
      | Some t0 =>
          TradingBot.step_latencies self
            ++ [TradingBot.milliseconds (recv_time - t0)%Qc]
      | None => TradingBot.step_latencies self
      end
  ∧ TradingBot.current_step s1 = default 0 (step data)
  ∧ TradingBot.history_steps s1
    = TradingBot.history_steps self ++ [default 0 (step data)].
Proof.
  unfold Py.exec, Py.outcome, TradingBot.bookkeeping, Py.bind, Py.get,
    Py.modify, Py.when, Py.ret, TradingBot.print.
  destruct (TradingBot.last_done_time self) as [t0|] eqn:Hdone; simpl;
    match goal with
    | |- context [if ?c then _ else _] => destruct c
    end; simpl; rewrite ?Hdone; done.
Qed.

Lemma bookkeeping_pair (recv_time : Qc) (data : message)
    (self : TradingBot.state) :
  TradingBot.bookkeeping recv_time data self
  = (inr tt, Py.exec (TradingBot.bookkeeping recv_time data) self).
Proof.
  pose proof (bookkeeping_fields recv_time data self) as [H _].
  unfold Py.exec, Py.outcome in *.
  destruct (TradingBot.bookkeeping recv_time data self).
  simpl in *. by subst.
Qed.

(** [send] on a connection that is up. *)
Lemma connected_some (ws : option WebSocketApp) :
  connected ws = true -> ∃ w, ws = Some w ∧ sock w = true.
Proof. destruct ws as [w|]; [|done]. simpl. eauto. Qed.

Lemma send_order_run (now : Qc) (o : TradingBot.order)
    (self : TradingBot.state) :
  connected (TradingBot.order_ws self) = true ->
  TradingBot._send_order now o self
  = (inr tt,
     TradingBot.set_orders_sent (TradingBot.orders_sent self + 1)
       (TradingBot.set_order_ws
          (sent_on (Order None None (TradingBot.new_order_id self)
                      (TradingBot.order_side o) (TradingBot.order_price o)
                      (TradingBot.order_qty o))
             (TradingBot.order_ws self))
          (TradingBot.set_order_send_times
             (<[TradingBot.new_order_id self := now]>
                (TradingBot.order_send_times self)) self))).
Proof.
  intros (w & Hw & Hsock)%connected_some.
  unfold TradingBot._send_order, TradingBot.order_ws_send, Py.try_except,
    Py.bind, Py.get, Py.modify, ws_send. simpl.
  rewrite Hw. simpl. rewrite Hsock. reflexivity.
Qed.

Lemma send_done_up (now : Qc) (self : TradingBot.state) :
  connected (TradingBot.order_ws self) = true ->
  TradingBot._send_done now self
  = (inr tt,
     TradingBot.set_last_done_time (Some now)
       (TradingBot.set_order_ws (sent_on Done (TradingBot.order_ws self))
          self)).
Proof.
  intros (w & Hw & Hsock)%connected_some.
  unfold TradingBot._send_done, TradingBot.order_ws_send, Py.try_except,
    Py.bind, Py.get, Py.modify, ws_send. simpl.
  rewrite Hw. simpl. rewrite Hsock. reflexivity.
Qed.

Lemma send_done_down (now : Qc) (self : TradingBot.state) :
  connected (TradingBot.order_ws self) = false ->
  TradingBot._send_done now self = (inr tt, self).
Proof.
  intros Hdown.
  unfold TradingBot._send_done, TradingBot.order_ws_send, Py.try_except,
    Py.bind, Py.get, Py.modify, ws_send. simpl.
  destruct (TradingBot.order_ws self) as [w|]; [|done].
  simpl in Hdown. by rewrite Hdown.
Qed.

Lemma frames_sent_on (f : frame) (ws : option WebSocketApp) :
  connected ws = true ->
  frames (sent_on f ws) = frames ws ++ [f] ∧ connected (sent_on f ws) = true.
Proof. intros (w & -> & _)%connected_some. done. Qed.

Section MarketTick.

Variable strategy :
  TradingBot.state -> Qc -> Qc -> Qc -> option TradingBot.order.
Variables (clk : TradingBot.clock) (data : message)
  (self : TradingBot.state).
Hypothesis is_tick : type data ≠ Some "CONNECTED".

Let s1 :=
  Py.exec (TradingBot.bookkeeping (TradingBot.recv_time clk) data) self.
Let r := TradingBot._on_market_data strategy clk (Decoded data) self.

(** A tick while the order channel is up. *)
Lemma market_tick_up :
  connected (TradingBot.order_ws self) = true ->
  r.1 = inr tt
  ∧ frames (TradingBot.order_ws r.2)
    = frames (TradingBot.order_ws self) ++ tick_frames strategy s1
  ∧ connected (TradingBot.order_ws r.2) = true
  ∧ TradingBot.last_done_time r.2 = Some (TradingBot.done_time clk)
  ∧ TradingBot.step_latencies r.2 = TradingBot.step_latencies s1
  ∧ TradingBot.student_id r.2 = TradingBot.student_id self
  ∧ TradingBot.orders_sent r.2
    = TradingBot.orders_sent self + Z.of_nat (length (tick_frames strategy s1)) - 1.
Proof.
  intros Hup.
  destruct (bookkeeping_fields (TradingBot.recv_time clk) data self)
    as (_ & Hws & Hsent & Hid & _).
  fold s1 in Hws, Hsent, Hid.
  subst r. unfold TradingBot._on_market_data, Py.try_except, Py.bind,
    json_loads, Py.ret.
  rewrite bool_decide_eq_false_2 by done.
  rewrite bookkeeping_pair. fold s1.
  unfold TradingBot.place_order, Py.bind, Py.get, Py.when, tick_frames.
  destruct (strategy s1 _ _ _) as [o|].
  - rewrite Hws, Hup. rewrite send_order_run by by rewrite Hws.
    rewrite send_done_up; simpl; rewrite Hws.
    + destruct (frames_sent_on
                  (Order None None (TradingBot.new_order_id s1)
                     (TradingBot.order_side o) (TradingBot.order_price o)
                     (TradingBot.order_qty o))
                  (TradingBot.order_ws self) Hup) as [Hf Hc].
      destruct (frames_sent_on Done _ Hc) as [Hf' Hc'].
      rewrite Hf', Hc', Hf, Hid, Hsent, <-app_assoc. simpl.
      repeat split; try done. lia.
    + by apply frames_sent_on.
  - simpl. rewrite send_done_up by by rewrite Hws. simpl. rewrite Hws.
    destruct (frames_sent_on Done _ Hup) as [Hf Hc].
    rewrite Hf, Hc, Hid, Hsent. repeat split; try done. lia.
Qed.

(** A tick while the order channel is down: the bookkeeping is done,
    nothing is sent, and no DONE time is recorded. *)
Lemma market_tick_down :
  connected (TradingBot.order_ws self) = false ->
  r = (inr tt, s1).
Proof.
  intros Hdown.
  destruct (bookkeeping_fields (TradingBot.recv_time clk) data self)
    as (_ & Hws & _).
  fold s1 in Hws.
  subst r. unfold TradingBot._on_market_data, Py.try_except, Py.bind,
    json_loads, Py.ret.
  rewrite bool_decide_eq_false_2 by done.
  rewrite bookkeeping_pair. fold s1.
  unfold TradingBot.place_order, Py.bind, Py.get, Py.when.
  destruct (strategy s1 _ _ _) as [o|].
  - rewrite Hws, Hdown. simpl.
    by rewrite send_done_down by by rewrite Hws.
  - simpl. by rewrite send_done_down by by rewrite Hws.
Qed.

End MarketTick.

(** The interactive trader sends nothing on a market message, and one
    DONE on each step command. *)
Lemma manual_market_sends_nothing (json_dumps : ManualTrader.snapshot -> string)
    (message : payload) (self : ManualTrader.state) :
  ManualTrader.ws_order
    (Py.exec (ManualTrader.on_market_message json_dumps message) self)
  = ManualTrader.ws_order self.
Proof.
  unfold Py.exec, ManualTrader.on_market_message, ManualTrader.display_book,
    ManualTrader.print, Py.bind, Py.get, Py.modify, Py.ret, json_loads.
  destruct message as [|data]; [done|]. simpl.
  repeat (case_bool_decide; simpl); done.
Qed.

Lemma manual_step_sends_done (now : Qc) (self : ManualTrader.state) :
  connected (ManualTrader.ws_order self) = true ->
  frames (ManualTrader.ws_order
            (Py.exec (ManualTrader.on_command now ManualTrader.Advance) self))
  = frames (ManualTrader.ws_order self) ++ [Done].
Proof.
  intros (w & Hw & Hsock)%connected_some.
  unfold Py.exec, ManualTrader.on_command, ManualTrader.ws_order_send,
    Py.bind, Py.get, ws_send. simpl.
  rewrite Hw. simpl. by rewrite Hsock.
Qed.

Lemma tick_frames_done strategy (self : TradingBot.state) :
  length (filter (fun f => is_done f = true) (tick_frames strategy self)) = 1%nat
  ∧ list.last (tick_frames strategy self) = Some Done.
Proof. unfold tick_frames. by destruct (strategy _ _ _ _). Qed.

(** C4, as the code has it.  A tick the bot processes while its order
    channel is up puts on that channel the order of the tick, if the
    strategy places one, and then exactly one DONE, which comes last.
    While the order channel is down the tick is processed all the same but
    nothing is sent: the DONE is dropped.  The interactive trader sends no
    DONE on a tick; it sends one for each step command of the operator. *)
Theorem done_follows_order
    (strategy : TradingBot.state -> Qc -> Qc -> Qc -> option TradingBot.order)
    (clk : TradingBot.clock) (data : message) (self : TradingBot.state) :
  type data ≠ Some "CONNECTED" ->
  let s1 :=
    Py.exec (TradingBot.bookkeeping (TradingBot.recv_time clk) data) self in
  let r := TradingBot._on_market_data strategy clk (Decoded data) self in
  r.1 = inr tt
  ∧ (connected (TradingBot.order_ws self) = true ->
     frames (TradingBot.order_ws r.2)
     = frames (TradingBot.order_ws self) ++ tick_frames strategy s1
     ∧ length (filter (fun f => is_done f = true) (tick_frames strategy s1))
       = 1%nat
     ∧ list.last (tick_frames strategy s1) = Some Done)
  ∧ (connected (TradingBot.order_ws self) = false ->
     frames (TradingBot.order_ws r.2) = frames (TradingBot.order_ws self))
  ∧ (∀ json_dumps message trader,
       ManualTrader.ws_order
         (Py.exec (ManualTrader.on_market_message json_dumps message) trader)
       = ManualTrader.ws_order trader)
  ∧ (∀ now trader,
       connected (ManualTrader.ws_order trader) = true ->
       frames (ManualTrader.ws_order
                 (Py.exec (ManualTrader.on_command now ManualTrader.Advance)
                    trader))
       = frames (ManualTrader.ws_order trader) ++ [Done]).
Proof.
  intros is_tick s1 r.
  split; [|split; [|split; [|split]]].
  - destruct (connected (TradingBot.order_ws self)) eqn:Hc.
    + by destruct (market_tick_up strategy clk data self is_tick Hc).
    + subst r. by rewrite market_tick_down.
  - intros Hup.
    destruct (market_tick_up strategy clk data self is_tick Hup)
      as (_ & Hf & _).
    split; [exact Hf | apply tick_frames_done].
  - intros Hdown. subst r. rewrite market_tick_down by done. simpl.
    by destruct (bookkeeping_fields (TradingBot.recv_time clk) data self)
      as (_ & -> & _).
  - apply manual_market_sends_nothing.
  - apply manual_step_sends_done.
Qed.

(** On step 50 the template strategy sells; the order goes out, then
    DONE. *)
Lemma done_follows_order_example :
  type {| type := Some "MARKET_DATA"; text := None; step := Some 50;
          bid := Some (dec 10 1); ask := Some (dec 11 1); bids := None;
          asks := None; last_trade := None; order_id := None; side := None;
          price := None; qty := None |} ≠ Some "CONNECTED"
  ∧ connected (TradingBot.order_ws bob_online) = true
  ∧ frames (TradingBot.order_ws
              (Py.exec (TradingBot._on_market_data TradingBot.decide_order
                          (at_time 1) (tick 50 (dec 10 1) (dec 11 1)))
                 bob_online))
    = [Order None None "ORD_bob_50_0" "SELL" (dec 10 1) 100; Done].
Proof.
  assert (type {| type := Some "MARKET_DATA"; text := None; step := Some 50;
          bid := Some (dec 10 1); ask := Some (dec 11 1); bids := None;
          asks := None; last_trade := None; order_id := None; side := None;
          price := None; qty := None |} ≠ Some "CONNECTED") as Htick by done.
  destruct (done_follows_order TradingBot.decide_order (at_time 1) _
              bob_online Htick) as (_ & Hup & _).
  destruct (Hup eq_refl) as (Hf & _).
  split; [exact Htick|]. split; [reflexivity|].
  unfold tick, Py.exec. rewrite Hf. simpl.
  unfold tick_frames. simpl. do 2 f_equal. qc_eq.
Defined.

(** The claim promises one DONE for every processed tick.  Before the
    order socket is up (or after it went down) the bot processes the tick,
    prints no error, and sends no DONE. *)
Lemma tick_without_done :
  let r :=
    TradingBot._on_market_data TradingBot.decide_order (at_time 1)
      (tick 7 (dec 10 1) (dec 11 1)) bob in
  connected (TradingBot.order_ws bob) = false
  ∧ r.1 = inr tt
  ∧ TradingBot.history_steps r.2 = [7]
  ∧ printed bob r.2 = []
  ∧ filter (fun f => is_done f = true) (frames (TradingBot.order_ws r.2)) = [].
Proof. vm_compute. done. Qed.

(** *** What the order callback and the socket events leave alone *)

Lemma order_response_frame (recv_time : Qc) (message : payload)
    (self : TradingBot.state) :
  let r := TradingBot._on_order_response recv_time message self in
  r.1 = inr tt
  ∧ TradingBot.order_ws r.2 = TradingBot.order_ws self
  ∧ TradingBot.orders_sent r.2 = TradingBot.orders_sent self
  ∧ TradingBot.student_id r.2 = TradingBot.student_id self
  ∧ TradingBot.last_done_time r.2 = TradingBot.last_done_time self
  ∧ TradingBot.step_latencies r.2 = TradingBot.step_latencies self.
Proof.
  destruct message as [|data]; [done|].
  destruct (decide (type data = Some "FILL")) as [is_fill|not_fill].
  - simpl. rewrite bot_fill_run by done. simpl.
    by destruct (TradingBot.order_send_times self !! _).
  - unfold TradingBot._on_order_response, Py.try_except, Py.bind,
      json_loads, Py.ret. simpl.
    rewrite (bool_decide_eq_false_2 _ not_fill).
    repeat (case_bool_decide; simpl); done.
Qed.

Lemma quiet_event strategy (e : TradingBot.event) (self : TradingBot.state) :
  is_market e = false ->
  let self' := Py.exec (TradingBot.handle strategy e) self in
  TradingBot.last_done_time self' = TradingBot.last_done_time self
  ∧ TradingBot.step_latencies self' = TradingBot.step_latencies self
  ∧ frames (TradingBot.order_ws self') = frames (TradingBot.order_ws self)
  ∧ TradingBot.orders_sent self' = TradingBot.orders_sent self
  ∧ TradingBot.student_id self' = TradingBot.student_id self.
Proof.
  destruct e as [|status|clk message|recv_time message]; try done; intros _.
  - simpl. unfold Py.exec. simpl. by destruct (TradingBot.order_ws self).
  - simpl. unfold Py.exec. simpl. by destruct (TradingBot.order_ws self).
  - simpl. unfold Py.exec.
    destruct (order_response_frame recv_time message self)
      as (_ & -> & -> & -> & -> & ->). done.
Qed.

Lemma quiet_session strategy (es : list TradingBot.event)
    (self : TradingBot.state) :
  Forall (fun e => is_market e = false) es ->
  TradingBot.last_done_time (TradingBot.session strategy es self)
  = TradingBot.last_done_time self
  ∧ TradingBot.step_latencies (TradingBot.session strategy es self)
    = TradingBot.step_latencies self.
Proof.
  intros Hquiet. revert self.
  induction Hquiet as [|e es He _ IH]; intros self; [done|].
  simpl. destruct (IH (Py.exec (TradingBot.handle strategy e) self))
    as [-> ->].
  by destruct (quiet_event strategy e self He) as (-> & -> & _).
Qed.

(** Registration and the construction of the channels record no DONE
    and no sample. *)
Lemma run_no_done (resp : response) (self : TradingBot.state) :
  TradingBot.last_done_time (Py.exec (TradingBot.run resp) self)
  = TradingBot.last_done_time self
  ∧ TradingBot.step_latencies (Py.exec (TradingBot.run resp) self)
    = TradingBot.step_latencies self.
Proof.
  unfold Py.exec, TradingBot.run, TradingBot.register, TradingBot.connect,
    Py.try_except, Py.bind, Py.get, Py.modify, Py.ret, TradingBot.print,
    resp_json.
  destruct resp as [|status_code resp_text [d|]]; simpl; try done;
    destruct (bool_decide (status_code = 200)); simpl; try done.
  destruct (negb (Py.truthy (body_token d)) || negb (Py.truthy (body_run_id d)));
    done.
Qed.

(** *** Step latency *)

(** C6.  A tick that arrives at time t1 after a DONE sent at time t0
    adds to the step latencies the sample t1 - t0, kept in milliseconds;
    a tick that arrives while no DONE has been sent adds no sample.  The
    time of a DONE is the one [_send_done] records when the DONE has gone
    out, and no DONE has been sent when the first tick of a session
    arrives. *)
Theorem step_latency_sampled
    (strategy : TradingBot.state -> Qc -> Qc -> Qc -> option TradingBot.order)
    (clk : TradingBot.clock) (data : message) (self : TradingBot.state) :
  type data ≠ Some "CONNECTED" ->
  let after :=
    Py.exec (TradingBot._on_market_data strategy clk (Decoded data)) self in
  (∀ t0, TradingBot.last_done_time self = Some t0 ->
     TradingBot.step_latencies after
     = TradingBot.step_latencies self
         ++ [TradingBot.milliseconds (TradingBot.recv_time clk - t0)%Qc])
  ∧ (TradingBot.last_done_time self = None ->
     TradingBot.step_latencies after = TradingBot.step_latencies self)
  ∧ (connected (TradingBot.order_ws self) = true ->
     TradingBot.last_done_time after = Some (TradingBot.done_time clk)
     ∧ list.last (frames (TradingBot.order_ws after)) = Some Done)
  ∧ (∀ student_id host scenario password secure resp es,
       Forall (fun e => is_market e = false) es ->
       let fresh :=
         TradingBot.session strategy es
           (Py.exec (TradingBot.run resp)
              (TradingBot.__init__ student_id host scenario password secure)) in
       TradingBot.step_latencies
         (Py.exec (TradingBot._on_market_data strategy clk (Decoded data))
            fresh) = []).
Proof.
  intros is_tick after.
  assert (∀ self,
    TradingBot.step_latencies
      (Py.exec (TradingBot._on_market_data strategy clk (Decoded data)) self)
    = match TradingBot.last_done_time self with
      | Some t0 =>
          TradingBot.step_latencies self
            ++ [TradingBot.milliseconds (TradingBot.recv_time clk - t0)%Qc]
      | None => TradingBot.step_latencies self
      end) as Hsample.
  { clear self after. intros self.
    destruct (bookkeeping_fields (TradingBot.recv_time clk) data self)
      as (_ & _ & _ & _ & _ & Hlat & _).
    unfold Py.exec at 1.
    destruct (connected (TradingBot.order_ws self)) eqn:Hc.
    - destruct (market_tick_up strategy clk data self is_tick Hc)
        as (_ & _ & _ & _ & -> & _). exact Hlat.
    - rewrite market_tick_down by done. exact Hlat. }
  split; [|split; [|split]].
  - intros t0 Hdone. subst after. by rewrite Hsample, Hdone.
  - intros Hdone. subst after. by rewrite Hsample, Hdone.
  - intros Hup. subst after. unfold Py.exec.
    destruct (market_tick_up strategy clk data self is_tick Hup)
      as (_ & Hf & _ & Hdone & _).
    split; [exact Hdone|]. rewrite Hf.
    destruct (tick_frames_done strategy
                (Py.exec (TradingBot.bookkeeping (TradingBot.recv_time clk)
                            data) self)) as [_ Hlast].
    unfold tick_frames in *. destruct (strategy _ _ _ _).
    + match goal with
      | |- context [?l ++ [?a; Done]] =>
          replace (l ++ [a; Done]) with ((l ++ [a]) ++ [Done])
            by (by rewrite <-app_assoc)
      end.
      apply last_snoc.
    + apply last_snoc.
  - intros student_id host scenario password secure resp es Hquiet fresh.
    rewrite Hsample. subst fresh.
    destruct (quiet_session strategy es
                (Py.exec (TradingBot.run resp)
                   (TradingBot.__init__ student_id host scenario password
                      secure)) Hquiet) as [-> ->].
    by destruct (run_no_done resp
                   (TradingBot.__init__ student_id host scenario password
                      secure)) as [-> ->].
Qed.

(** Two ticks in a row: DONE goes out at 1.2, the next tick arrives at
    2.0, and the sample is 800 ms; the first tick left no sample. *)
Lemma step_latency_example :
  type {| type := Some "MARKET_DATA"; text := None; step := Some 8;
          bid := Some (dec 10 1); ask := Some (dec 11 1); bids := None;
          asks := None; last_trade := None; order_id := None; side := None;
          price := None; qty := None |} ≠ Some "CONNECTED"
  ∧ let first :=
      Py.exec (TradingBot._on_market_data TradingBot.decide_order (at_time 1)
                 (tick 7 (dec 10 1) (dec 11 1))) bob_online in
    let second :=
      Py.exec (TradingBot._on_market_data TradingBot.decide_order (at_time 2)
                 (tick 8 (dec 10 1) (dec 11 1))) first in
    TradingBot.step_latencies first = []
    ∧ TradingBot.last_done_time first = Some (dec 12 10)
    ∧ TradingBot.step_latencies second = [dec 800 1].
Proof.
  assert (type {| type := Some "MARKET_DATA"; text := None; step := Some 8;
          bid := Some (dec 10 1); ask := Some (dec 11 1); bids := None;
          asks := None; last_trade := None; order_id := None; side := None;
          price := None; qty := None |} ≠ Some "CONNECTED") as Htick by done.
  split; [exact Htick|]. intros first second.
  assert (TradingBot.last_done_time first = Some (dec 12 10)) as Hdone.
  { subst first. vm_compute. do 2 f_equal. }
  destruct (step_latency_sampled TradingBot.decide_order (at_time 2) _ first
              Htick) as (Hsample & _).
  specialize (Hsample _ Hdone).
  split; [reflexivity|]. split; [exact Hdone|].
  subst second. unfold tick. rewrite Hsample.
  assert (TradingBot.step_latencies first = []) as -> by reflexivity.
  simpl. f_equal. qc_eq.
Defined.

(** *** Malformed messages on the market channel *)

(** The market callback of the interactive trader has no guard of its
    own: the decoding error leaves it, with the trader untouched. *)
Lemma manual_malformed_raises (json_dumps : ManualTrader.snapshot -> string)
    (self : ManualTrader.state) :
  ManualTrader.on_market_message json_dumps Undecodable self
  = (inl Py.JSONDecodeError, self).
Proof. reflexivity. Qed.

(** C9.  A message the market callback cannot decode does not stop the
    listener.  In the bot the callback returns normally, reports the
    decoding error on one line and leaves every attribute as it was: the
    tick is dropped, and the session goes on from that state with the
    messages that follow.  In the interactive trader the error leaves the
    callback, the library hands it to [on_error], which reports it, and the
    trader is as it was. *)
Theorem malformed_tick_dropped
    (strategy : TradingBot.state -> Qc -> Qc -> Qc -> option TradingBot.order)
    (clk : TradingBot.clock) (self : TradingBot.state)
    (es : list TradingBot.event)
    (json_dumps : ManualTrader.snapshot -> string)
    (trader : ManualTrader.state) :
  let dropped :=
    TradingBot.set_stdout
      (TradingBot.stdout self
         ++ [TradingBot.MarketDataError Py.JSONDecodeError]) self in
  TradingBot._on_market_data strategy clk Undecodable self = (inr tt, dropped)
  ∧ TradingBot.session strategy
      (TradingBot.MarketMessage clk Undecodable :: es) self
    = TradingBot.session strategy es dropped
  ∧ ManualTrader.dispatch
      (ManualTrader.on_market_message json_dumps Undecodable) trader
    = (inr tt,
       if ManualTrader.running trader
       then ManualTrader.set_stdout
              (ManualTrader.stdout trader
                 ++ [ManualTrader.WsError Py.JSONDecodeError]) trader
       else trader).
Proof.
  repeat split.
  unfold ManualTrader.dispatch, Py.try_except.
  rewrite manual_malformed_raises.
  unfold ManualTrader.on_error, Py.bind, Py.get, Py.when. simpl.
  by destruct (ManualTrader.running trader).
Qed.

(** *** Order ids *)

Lemma split_at_first (c : ascii) (s1 s2 r1 r2 : string) :
  free_of c s1 -> free_of c s2 ->
  s1 +:+ String c r1 = s2 +:+ String c r2 -> s1 = s2 ∧ r1 = r2.
Proof.
  revert s2. induction s1 as [|a s1 IH]; intros [|b s2]; simpl.
  - intros _ _ [= ->]. done.
  - intros _ [Hb _] [= -> _]. done.
  - intros [Ha _] _ [= -> _]. done.
  - intros [_ H1] [_ H2] [= -> Heq].
    by destruct (IH s2 H1 H2 Heq) as [-> ->].
Qed.

Lemma pretty_N_go_free (c : ascii) (x : N) (s : string) :
  (∀ d, (d < 10)%N -> pretty_N_char d ≠ c) ->
  free_of c s -> free_of c (pretty_N_go x s).
Proof.
  intros Hc. revert s.
  induction (N.lt_wf_0 x) as [x _ IH]; intros s Hs.
  destruct (decide (x = 0%N)) as [->|Hx].
  - by rewrite pretty_N_go_0.
  - rewrite pretty_N_go_step by lia. apply IH.
    + apply N.div_lt; lia.
    + split; [|done]. apply Hc. by apply N.mod_lt.
Qed.

Lemma digit_not_underscore (d : N) : (d < 10)%N -> pretty_N_char d ≠ "_"%char.
Proof. intros _. unfold pretty_N_char. by repeat case_match. Qed.

Lemma str_free_of_underscore (z : Z) : free_of "_" (Py.str z).
Proof.
  assert (∀ p : positive, free_of "_" (pretty p)) as Hpos.
  { intros p. unfold pretty, pretty_positive, pretty, pretty_N.
    case_decide; [done|].
    by apply pretty_N_go_free; [apply digit_not_underscore|]. }
  unfold Py.str, pretty, pretty_Z. destruct z as [|p|p]; [done|apply Hpos|].
  simpl. split; [done|apply Hpos].
Qed.

(** The id of an order determines its step and its sequence number. *)
Lemma order_id_inj (sid : string) (step1 seq1 step2 seq2 : Z) :
  "ORD_" +:+ sid +:+ "_" +:+ Py.str step1 +:+ "_" +:+ Py.str seq1
  = "ORD_" +:+ sid +:+ "_" +:+ Py.str step2 +:+ "_" +:+ Py.str seq2 ->
  step1 = step2 ∧ seq1 = seq2.
Proof.
  intros Heq.
  apply (inj (String.app "ORD_")) in Heq.
  apply (inj (String.app sid)) in Heq.
  apply (inj (String.app "_")) in Heq.
  apply split_at_first in Heq as [H1 H2];
    [|apply str_free_of_underscore..].
  split; by apply (inj pretty).
Qed.

Lemma market_connected_skip strategy (clk : TradingBot.clock)
    (data : message) (self : TradingBot.state) :
  type data = Some "CONNECTED" ->
  TradingBot._on_market_data strategy clk (Decoded data) self = (inr tt, self).
Proof.
  intros Hc. unfold TradingBot._on_market_data, Py.try_except, Py.bind,
    json_loads, Py.ret.
  by rewrite bool_decide_eq_true_2.
Qed.

Lemma ids_numbered_frame (self self' : TradingBot.state) :
  frames (TradingBot.order_ws self') = frames (TradingBot.order_ws self) ->
  TradingBot.orders_sent self' = TradingBot.orders_sent self ->
  TradingBot.student_id self' = TradingBot.student_id self ->
  ids_numbered self -> ids_numbered self'.
Proof.
  intros Hf Hn Hid (l & Hl & Hnd & Hlt). exists l.
  unfold TradingBot.sent_order_ids. by rewrite Hf, Hn, Hid.
Qed.

Lemma ids_numbered_tick strategy (clk : TradingBot.clock) (data : message)
    (self : TradingBot.state) :
  type data ≠ Some "CONNECTED" ->
  connected (TradingBot.order_ws self) = true ->
  ids_numbered self ->
  ids_numbered
    (Py.exec (TradingBot._on_market_data strategy clk (Decoded data)) self).
Proof.
  intros is_tick Hup (l & Hl & Hnd & Hlt).
  destruct (market_tick_up strategy clk data self is_tick Hup)
    as (_ & Hf & _ & _ & _ & Hid & Hn).
  destruct (bookkeeping_fields (TradingBot.recv_time clk) data self)
    as (_ & _ & Hn1 & Hid1 & _).
  unfold ids_numbered, TradingBot.sent_order_ids, Py.exec.
  rewrite Hf, Hid, Hn, omap_app. fold (TradingBot.sent_order_ids self).
  rewrite Hl. unfold tick_frames, TradingBot.new_order_id.
  destruct (strategy _ _ _ _) as [o|]; simpl.
  - exists (l ++ [(TradingBot.current_step
                     (Py.exec (TradingBot.bookkeeping
                                 (TradingBot.recv_time clk) data) self),
                   TradingBot.orders_sent self)]).
    rewrite fmap_app, Hn1, Hid1. split; [done|]. split.
    + rewrite fmap_app. apply list.NoDup_app. split; [done|]. split.
      * intros n Hin ->%list_elem_of_singleton.
        apply list_elem_of_fmap in Hin as ([st n'] & Hn' & Hin).
        rewrite list.Forall_forall in Hlt. specialize (Hlt _ Hin).
        simpl in *. lia.
      * apply NoDup_singleton.
    + apply list.Forall_app. split.
      * eapply list.Forall_impl; [exact Hlt|]. simpl. intros; lia.
      * apply list.Forall_singleton. simpl. lia.
  - exists l. rewrite app_nil_r. split; [done|]. split; [done|].
    eapply list.Forall_impl; [exact Hlt|]. simpl. intros; lia.
Qed.

Lemma ids_numbered_step strategy (e : TradingBot.event)
    (self : TradingBot.state) :
  ids_numbered self ->
  ids_numbered (Py.exec (TradingBot.handle strategy e) self).
Proof.
  intros Hinv.
  destruct (is_market e) eqn:He.
  - destruct e as [| |clk [|data]|]; try discriminate He; simpl.
    { eapply ids_numbered_frame; [..|exact Hinv]; reflexivity. }
    destruct (decide (type data = Some "CONNECTED")) as [Hc|is_tick].
    { unfold Py.exec. by rewrite market_connected_skip. }
    destruct (connected (TradingBot.order_ws self)) eqn:Hup.
    + by apply ids_numbered_tick.
    + unfold Py.exec. rewrite market_tick_down by done. simpl.
      destruct (bookkeeping_fields (TradingBot.recv_time clk) data self)
        as (_ & Hws & Hn & Hid & _).
      eapply ids_numbered_frame; [..|exact Hinv]; try done.
      by rewrite Hws.
  - destruct (quiet_event strategy e self He) as (_ & _ & Hf & Hn & Hid).
    by eapply ids_numbered_frame; [..|exact Hinv].
Qed.

Lemma ids_numbered_session strategy (es : list TradingBot.event)
    (self : TradingBot.state) :
  ids_numbered self -> ids_numbered (TradingBot.session strategy es self).
Proof.
  revert self. induction es as [|e es IH]; intros self Hinv; [done|].
  simpl. by apply IH, ids_numbered_step.
Qed.

Lemma ids_numbered_distinct (self : TradingBot.state) :
  ids_numbered self -> NoDup (TradingBot.sent_order_ids self).
Proof.
  intros (l & -> & Hnd & _).
  apply NoDup_fmap_2_strong; [|by eapply NoDup_fmap_1].
  intros [st1 n1] [st2 n2] _ _ Heq. simpl in Heq.
  by apply order_id_inj in Heq as [-> ->].
Qed.

Lemma manual_order_id_same (now1 now2 : Qc) :
  ManualTrader.new_order_id now1 = ManualTrader.new_order_id now2
  ↔ Py.int (now1 * Q2Qc 1000)%Qc = Py.int (now2 * Q2Qc 1000)%Qc.
Proof.
  unfold ManualTrader.new_order_id. split.
  - intros Heq. apply (inj (String.app "manual_")) in Heq.
    by apply (inj pretty) in Heq.
  - by intros ->.
Qed.

(** C7, as the code has it.  In a session of the bot that starts with no
    order sent, the ids of the orders sent are pairwise distinct: an id is
    made of the participant, the step and the running count of orders
    sent.  The interactive trader names an order after the millisecond of
    the clock at which it is entered: two of its orders have the same id
    exactly when they are entered in the same millisecond. *)
Theorem order_ids_distinct
    (strategy : TradingBot.state -> Qc -> Qc -> Qc -> option TradingBot.order)
    (es : list TradingBot.event) (self : TradingBot.state) :
  TradingBot.sent_order_ids self = [] ->
  NoDup (TradingBot.sent_order_ids (TradingBot.session strategy es self))
  ∧ (∀ now1 now2,
       ManualTrader.new_order_id now1 = ManualTrader.new_order_id now2
       ↔ Py.int (now1 * Q2Qc 1000)%Qc = Py.int (now2 * Q2Qc 1000)%Qc).
Proof.
  intros Hnone. split; [|apply manual_order_id_same].
  apply ids_numbered_distinct, ids_numbered_session.
  exists []. rewrite Hnone. split; [done|]. split; [apply NoDup_nil_2|done].
Qed.

(** Two ticks on which the template strategy trades, on steps 50 and
    100. *)
Lemma order_ids_example :
  TradingBot.sent_order_ids bob_online = []
  ∧ let after :=
      TradingBot.session TradingBot.decide_order
        [TradingBot.MarketMessage (at_time 1) (tick 50 (dec 10 1) (dec 11 1));
         TradingBot.MarketMessage (at_time 2) (tick 100 (dec 10 1) (dec 11 1))]
        bob_online in
    TradingBot.sent_order_ids after = ["ORD_bob_50_0"; "ORD_bob_100_1"]
    ∧ NoDup (TradingBot.sent_order_ids after).
Proof.
  split; [reflexivity|]. intros after. split; [reflexivity|].
  apply (order_ids_distinct TradingBot.decide_order). reflexivity.
Defined.

(** The claim wants the ids of a session pairwise distinct.  Two orders
    the operator enters within one millisecond get the same id. *)
Lemma manual_ids_collide :
  let after :=
    Py.exec (ManualTrader.on_command (dec 10002 10000)
               (ManualTrader.Trade false (Some 1) (Some (dec 11 1))))
      (Py.exec (ManualTrader.on_command (dec 10001 10000)
                  (ManualTrader.Trade true (Some 1) (Some (dec 10 1))))
         eve_online) in
  ManualTrader.sent_order_ids after = ["manual_1000"; "manual_1000"]
  ∧ ¬ NoDup (ManualTrader.sent_order_ids after).
Proof.
  assert (ManualTrader.sent_order_ids
            (Py.exec (ManualTrader.on_command (dec 10002 10000)
               (ManualTrader.Trade false (Some 1) (Some (dec 11 1))))
              (Py.exec (ManualTrader.on_command (dec 10001 10000)
                  (ManualTrader.Trade true (Some 1) (Some (dec 10 1))))
                 eve_online)) = ["manual_1000"; "manual_1000"]) as Hids
    by reflexivity.
  intros after. subst after. rewrite Hids. split; [done|].
  intros Hnd. apply list.NoDup_cons in Hnd as [Hnotin _].
  apply Hnotin. by left.
Qed.

(** *** Registration *)

(** [register] of the bot never raises, and succeeds exactly on status
    200 with a token and a run id that are not empty; the session is then
    populated. *)
Lemma bot_register_sound (resp : response) (self : TradingBot.state) :
  ∃ ok : bool,
    Py.outcome (TradingBot.register resp) self = inr ok
    ∧ (ok = true ↔
       ∃ resp_text tok rid,
         resp = Response 200 resp_text
                  (Some {| body_token := Some tok; body_run_id := Some rid |})
         ∧ tok ≠ "" ∧ rid ≠ "")
    ∧ (ok = true ->
       Py.truthy (TradingBot.token (Py.exec (TradingBot.register resp) self))
       = true
       ∧ Py.truthy
           (TradingBot.run_id (Py.exec (TradingBot.register resp) self))
         = true)
    ∧ TradingBot.market_ws (Py.exec (TradingBot.register resp) self)
      = TradingBot.market_ws self
    ∧ TradingBot.order_ws (Py.exec (TradingBot.register resp) self)
      = TradingBot.order_ws self.
Proof.
  unfold Py.outcome, Py.exec, TradingBot.register, Py.try_except, Py.bind,
    Py.get, Py.modify, Py.ret, TradingBot.print, resp_json, Py.truthy.
  assert (∀ P : Prop, ¬ P -> (false = true ↔ P)) as Hfalse
    by (intros P HP; split; [done | intros; by destruct HP]).
  destruct resp as [|status_code resp_text [[tok rid]|]]; simpl.
  - exists false. split; [done|]. split; [|done].
    apply Hfalse. by intros (? & ? & ? & ? & _).
  - destruct (decide (status_code = 200)) as [->|Hne].
    + simpl.
      destruct tok as [tok|]; simpl;
        [destruct (decide (tok = "")) as [->|Htok];
         [|rewrite (bool_decide_eq_false_2 _ Htok)]|]; simpl;
        (destruct rid as [rid|]; simpl;
         [destruct (decide (rid = "")) as [->|Hrid];
          [|rewrite (bool_decide_eq_false_2 _ Hrid)]|]); simpl;
        try (exists false; split; [done|]; split; [|done];
             apply Hfalse; intros (? & ? & ? & ? & ? & ?); by simplify_eq).
      exists true. split; [done|]. split; [|split; [|done]].
      * split; [|done]. intros _. by exists resp_text, tok, rid.
      * intros _. simpl.
        by rewrite ?(bool_decide_eq_false_2 _ Htok),
             ?(bool_decide_eq_false_2 _ Hrid).
    + rewrite (bool_decide_eq_false_2 _ Hne). simpl.
      exists false. split; [done|]. split; [|done].
      apply Hfalse. intros (? & ? & ? & ? & _). by simplify_eq.
  - destruct (bool_decide (status_code = 200)); simpl;
      exists false; (split; [done|]); (split; [|done]);
      apply Hfalse; by intros (? & ? & ? & ? & _).
Qed.

(** No channel is built when the registration of the bot fails. *)
Lemma bot_run_failed (resp : response) (self : TradingBot.state) :
  Py.outcome (TradingBot.register resp) self = inr false ->
  TradingBot.market_ws (Py.exec (TradingBot.run resp) self)
  = TradingBot.market_ws self
  ∧ TradingBot.order_ws (Py.exec (TradingBot.run resp) self)
    = TradingBot.order_ws self.
Proof.
  intros Hfail.
  destruct (bot_register_sound resp self) as (ok & Hok & _ & _ & Hm & Ho).
  rewrite Hfail in Hok. injection Hok as <-.
  unfold Py.outcome, Py.exec in *. unfold TradingBot.run, Py.bind.
  destruct (TradingBot.register resp self) as [[e|b] s']; simpl in *.
  - done.
  - injection Hfail as ->. unfold Py.ret. simpl. done.
Qed.

(** C8: where the code departs from the claim.  The interactive trader
    takes an answer with status 200 and neither token nor run id for a
    successful registration, and goes on to build both channels, with
    "None" in their addresses.  The bot rejects the same answer and builds
    no channel. *)
Theorem manual_register_accepts_empty_answer :
  let trader :=
    ManualTrader.__init__ "localhost:8080" "normal_market" "eve"
      (Some "pw") false in
  let bot :=
    TradingBot.__init__ "bob" "localhost:8080" "normal_market"
      (Some "pw") false in
  Py.outcome (ManualTrader.register empty_answer) trader = inr true
  ∧ ManualTrader.token (Py.exec (ManualTrader.register empty_answer) trader)
    = None
  ∧ ManualTrader.run_id (Py.exec (ManualTrader.register empty_answer) trader)
    = None
  ∧ url <$> ManualTrader.ws_order
              (Py.exec (ManualTrader.start empty_answer) trader)
    = Some "ws://localhost:8080/api/ws/orders?token=None&run_id=None"
  ∧ url <$> ManualTrader.ws_market
              (Py.exec (ManualTrader.start empty_answer) trader)
    = Some "ws://localhost:8080/api/ws/market?run_id=None"
  ∧ Py.outcome (TradingBot.register empty_answer) bot = inr false
  ∧ TradingBot.order_ws (Py.exec (TradingBot.run empty_answer) bot) = None
  ∧ TradingBot.market_ws (Py.exec (TradingBot.run empty_answer) bot) = None.
Proof. vm_compute. done. Qed.

(** *** Snapshots *)

(** The market callback of the interactive trader on a book. *)
Lemma snapshot_run (json_dumps : ManualTrader.snapshot -> string)
    (data : message) (self : ManualTrader.state) :
  is_book data ->
  ManualTrader.on_market_message json_dumps (Decoded data) self
  = (inr tt,
     if bool_decide (Some (json_dumps (ManualTrader.current_snapshot data))
                     = ManualTrader.last_snapshot_hash self)
     then self
     else ManualTrader.set_last_snapshot_hash
            (Some (json_dumps (ManualTrader.current_snapshot data)))
            (ManualTrader.set_stdout
               (ManualTrader.stdout self
                  ++ [ManualTrader.MarketSnapshot (book_of data self)])
               self)).
Proof.
  intros Hbook.
  unfold ManualTrader.on_market_message, ManualTrader.display_book,
    ManualTrader.print, Py.bind, Py.get, Py.modify, Py.ret, json_loads.
  simpl.
  assert (bool_decide (type data = Some "CONNECTED") = false) as ->.
  { apply bool_decide_eq_false. by destruct Hbook as [-> | ->]. }
  assert (bool_decide (type data = Some "MARKET_DATA")
          || bool_decide (type data = Some "SNAPSHOT") = true) as ->.
  { destruct Hbook as [-> | ->]; [done|].
    by rewrite (bool_decide_eq_true_2 (Some "SNAPSHOT" = Some "SNAPSHOT")),
         orb_true_r. }
  by case_bool_decide.
Qed.

(** After a book has been handled, its fingerprint is the one kept. *)
Lemma snapshot_hash_kept (json_dumps : ManualTrader.snapshot -> string)
    (data : message) (self : ManualTrader.state) :
  is_book data ->
  ManualTrader.last_snapshot_hash
    (Py.exec (ManualTrader.on_market_message json_dumps (Decoded data)) self)
  = Some (json_dumps (ManualTrader.current_snapshot data)).
Proof.
  intros Hbook. unfold Py.exec. rewrite snapshot_run by done. simpl.
  by case_bool_decide.
Qed.

(** A book with the fingerprint of the one before changes nothing. *)
Lemma snapshot_repeat (json_dumps : ManualTrader.snapshot -> string)
    (d1 d2 : message) (self : ManualTrader.state) :
  is_book d1 -> is_book d2 ->
  ManualTrader.current_snapshot d1 = ManualTrader.current_snapshot d2 ->
  let s1 :=
    Py.exec (ManualTrader.on_market_message json_dumps (Decoded d1)) self in
  Py.exec (ManualTrader.on_market_message json_dumps (Decoded d2)) s1 = s1.
Proof.
  intros Hb1 Hb2 Heq s1. unfold Py.exec at 1.
  rewrite snapshot_run by done. simpl.
  subst s1. rewrite snapshot_hash_kept by done.
  by rewrite Heq, bool_decide_eq_true_2.
Qed.

(** A book with another fingerprint than the one before is shown. *)
Lemma snapshot_change (json_dumps : ManualTrader.snapshot -> string)
    (d1 d2 : message) (self : ManualTrader.state) :
  Inj (=) (=) json_dumps ->
  is_book d1 -> is_book d2 ->
  ManualTrader.current_snapshot d1 ≠ ManualTrader.current_snapshot d2 ->
  let s1 :=
    Py.exec (ManualTrader.on_market_message json_dumps (Decoded d1)) self in
  let s2 :=
    Py.exec (ManualTrader.on_market_message json_dumps (Decoded d2)) s1 in
  ManualTrader.shown s2 = ManualTrader.shown s1 ++ [book_of d2 s1].
Proof.
  intros Hinj Hb1 Hb2 Hne s1 s2. subst s2. unfold Py.exec at 1.
  rewrite snapshot_run by done. simpl.
  subst s1. rewrite snapshot_hash_kept by done.
  rewrite bool_decide_eq_false_2.
  - unfold ManualTrader.shown. simpl. by rewrite omap_app.
  - intros [= Heq]. by apply Hinj in Heq.
Qed.

(** Levels that differ in value differ as decoded, and books that differ
    as decoded can still be the same in value. *)
Lemma differ_in_level_snapshot (d1 d2 : message) :
  differ_in_level d1 d2 ->
  ManualTrader.current_snapshot d1 ≠ ManualTrader.current_snapshot d2.
Proof.
  intros (i & Hi & Hdiff) Heq.
  assert (take 10 (default [] (bids d1)) = take 10 (default [] (bids d2))
          ∧ take 10 (default [] (asks d1)) = take 10 (default [] (asks d2)))
    as [Hb Ha].
  { unfold ManualTrader.current_snapshot in Heq. by simplify_eq. }
  destruct Hdiff as [Hd|Hd]; apply Hd.
  - by rewrite <-(lookup_take_lt _ 10 i Hi), Hb, lookup_take_lt.
  - by rewrite <-(lookup_take_lt _ 10 i Hi), Ha, lookup_take_lt.
Qed.

Lemma bot_tick_history strategy (clk : TradingBot.clock) (data : message)
    (self : TradingBot.state) :
  type data ≠ Some "CONNECTED" ->
  TradingBot.history_steps
    (Py.exec (TradingBot._on_market_data strategy clk (Decoded data)) self)
  = TradingBot.history_steps self ++ [default 0 (step data)].
Proof.
  intros is_tick.
  destruct (bookkeeping_fields (TradingBot.recv_time clk) data self)
    as (_ & Hws & Hn & _ & _ & _ & _ & Hh).
  unfold Py.exec at 1.
  destruct (connected (TradingBot.order_ws self)) eqn:Hc.
  - unfold TradingBot._on_market_data, Py.try_except, Py.bind, json_loads,
      Py.ret.
    rewrite bool_decide_eq_false_2 by done.
    rewrite bookkeeping_pair.
    unfold TradingBot.place_order, Py.bind, Py.get, Py.when.
    destruct (strategy _ _ _ _) as [o|].
    + rewrite Hws, Hc. rewrite send_order_run by by rewrite Hws.
      rewrite send_done_up; [exact Hh|]. simpl. rewrite Hws.
      by apply frames_sent_on.
    + simpl. rewrite send_done_up by by rewrite Hws. exact Hh.
  - rewrite market_tick_down by done. exact Hh.
Qed.

Lemma spelled_same_book :
  same_book (book_spelled bid_as_float) (book_spelled bid_as_int)
  ∧ ManualTrader.current_snapshot (book_spelled bid_as_float)
    ≠ ManualTrader.current_snapshot (book_spelled bid_as_int).
Proof.
  split.
  - unfold same_book. simpl. split; [reflexivity|done].
  - by intros [= ?].
Qed.

(** C5, as the code has it.  The interactive trader deduplicates on the
    text [json.dumps] gives for the ten best levels of both sides, the last
    trade and the step, as they were decoded.  Of two consecutive books
    that are identical there (the same keys in the same order in every
    level, every number spelled the same way), the second is not shown
    again and changes nothing.  Of any other two the second is shown
    exactly once ([json.dumps] writes different dictionaries differently):
    so when they differ in the price or the quantity of a single level,
    and so also for some books that are the same in value and only
    spelled differently.  The bot processes every tick, the same as the
    one before or not.  Neither program has a setting that selects the
    other behaviour. *)
Theorem snapshot_dedup (json_dumps : ManualTrader.snapshot -> string)
    (d1 d2 : message) (self : ManualTrader.state) :
  is_book d1 -> is_book d2 ->
  let s1 :=
    Py.exec (ManualTrader.on_market_message json_dumps (Decoded d1)) self in
  let s2 :=
    Py.exec (ManualTrader.on_market_message json_dumps (Decoded d2)) s1 in
  (ManualTrader.current_snapshot d1 = ManualTrader.current_snapshot d2 ->
   s2 = s1)
  ∧ (Inj (=) (=) json_dumps ->
     ManualTrader.current_snapshot d1 ≠ ManualTrader.current_snapshot d2 ->
     ManualTrader.shown s2 = ManualTrader.shown s1 ++ [book_of d2 s1])
  ∧ (differ_in_level d1 d2 ->
     ManualTrader.current_snapshot d1 ≠ ManualTrader.current_snapshot d2)
  ∧ (Inj (=) (=) json_dumps ->
     ∃ e1 e2,
       is_book e1 ∧ is_book e2 ∧ same_book e1 e2
       ∧ let t1 :=
           Py.exec (ManualTrader.on_market_message json_dumps (Decoded e1))
             self in
         let t2 :=
           Py.exec (ManualTrader.on_market_message json_dumps (Decoded e2))
             t1 in
         ManualTrader.shown t2 = ManualTrader.shown t1 ++ [book_of e2 t1])
  ∧ (∀ strategy clk1 clk2 bot,
       TradingBot.history_steps
         (Py.exec (TradingBot._on_market_data strategy clk2 (Decoded d2))
            (Py.exec (TradingBot._on_market_data strategy clk1 (Decoded d1))
               bot))
       = TradingBot.history_steps bot
           ++ [default 0 (step d1); default 0 (step d2)]).
Proof.
  intros Hb1 Hb2 s1 s2.
  split; [|split; [|split; [|split]]].
  - intros Heq. by apply snapshot_repeat.
  - intros Hinj Hne. by apply snapshot_change.
  - apply differ_in_level_snapshot.
  - intros Hinj.
    exists (book_spelled bid_as_float), (book_spelled bid_as_int).
    destruct spelled_same_book as [Hsame Hne].
    split; [by left|]. split; [by left|]. split; [exact Hsame|].
    apply snapshot_change; [done|by left|by left|exact Hne].
  - intros strategy clk1 clk2 bot.
    rewrite !bot_tick_history, <-app_assoc; [done|..].
    + by destruct Hb1 as [-> | ->].
    + by destruct Hb2 as [-> | ->].
Qed.

Lemma render_inj : Inj (=) (=) render.
Proof. intros x y Heq. unfold render in Heq. by simplify_eq. Qed.

(** A book, the same book again, then a book whose second bid has
    another quantity: shown, not shown, shown.  And a book whose best bid
    reads [{"price": 10.0, "qty": 5}], then the same book with that level
    as [{"qty": 5, "price": 10}]: both shown. *)
Lemma snapshot_dedup_example :
  is_book (book_message 3) ∧ is_book (book_message 8)
  ∧ is_book (book_spelled bid_as_float) ∧ is_book (book_spelled bid_as_int)
  ∧ (let s1 :=
       Py.exec (ManualTrader.on_market_message render
                  (Decoded (book_message 3))) eve in
     let s2 :=
       Py.exec (ManualTrader.on_market_message render
                  (Decoded (book_message 3))) s1 in
     let s3 :=
       Py.exec (ManualTrader.on_market_message render
                  (Decoded (book_message 8))) s2 in
     s2 = s1
     ∧ ManualTrader.shown s3
       = ManualTrader.shown s1 ++ [book_of (book_message 8) s1])
  ∧ same_book (book_spelled bid_as_float) (book_spelled bid_as_int)
  ∧ let t1 :=
      Py.exec (ManualTrader.on_market_message render
                 (Decoded (book_spelled bid_as_float))) eve in
    let t2 :=
      Py.exec (ManualTrader.on_market_message render
                 (Decoded (book_spelled bid_as_int))) t1 in
    ManualTrader.shown t2
    = ManualTrader.shown t1 ++ [book_of (book_spelled bid_as_int) t1].
Proof.
  assert (is_book (book_message 3)) as H3 by by left.
  assert (is_book (book_message 8)) as H8 by by left.
  assert (is_book (book_spelled bid_as_float)) as Hf by by left.
  assert (is_book (book_spelled bid_as_int)) as Hi by by left.
  split; [exact H3|]. split; [exact H8|].
  split; [exact Hf|]. split; [exact Hi|].
  split; [|split].
  - intros s1 s2 s3.
    destruct (snapshot_dedup render (book_message 3) (book_message 3) eve
                H3 H3) as (Hsame & _).
    specialize (Hsame eq_refl). fold s1 in Hsame.
    split; [exact Hsame|].
    destruct (snapshot_dedup render (book_message 3) (book_message 8) eve
                H3 H8) as (_ & Hdiff & Hlevel & _).
    fold s1 in Hdiff. subst s3 s2. rewrite Hsame.
    apply Hdiff; [apply render_inj|]. apply Hlevel.
    exists 1%nat. split; [lia|]. left. simpl. by intros [= ?].
  - apply spelled_same_book.
  - intros t1 t2.
    destruct (snapshot_dedup render (book_spelled bid_as_float)
                (book_spelled bid_as_int) eve Hf Hi) as (_ & Hdiff & _).
    apply Hdiff; [apply render_inj|]. apply spelled_same_book.
Defined.

(** The claim wants both behaviours as a configurable choice.  However
    the trader is constructed, it shows a repeated book once; however the
    bot is constructed and whatever its strategy, it processes a repeated
    tick twice. *)
Lemma no_mode_switch :
  (∀ host scenario name password secure json_dumps,
     let trader := ManualTrader.__init__ host scenario name password secure in
     ManualTrader.shown
       (Py.exec (ManualTrader.on_market_message json_dumps
                   (Decoded (book_message 3)))
          (Py.exec (ManualTrader.on_market_message json_dumps
                      (Decoded (book_message 3))) trader))
     = [book_of (book_message 3) trader])
  ∧ (∀ student_id host scenario password secure strategy clk1 clk2,
       let bot :=
         TradingBot.__init__ student_id host scenario password secure in
       TradingBot.history_steps
         (Py.exec (TradingBot._on_market_data strategy clk2
                     (Decoded (book_message 3)))
            (Py.exec (TradingBot._on_market_data strategy clk1
                        (Decoded (book_message 3))) bot))
       = [7; 7]).
Proof.
  split.
  - intros host scenario name password secure json_dumps trader.
    assert (is_book (book_message 3)) as H3 by by left.
    rewrite (snapshot_repeat json_dumps (book_message 3) (book_message 3)
               trader H3 H3 eq_refl).
    unfold Py.exec. rewrite snapshot_run by done. done.
  - intros student_id host scenario password secure strategy clk1 clk2 bot.
    by rewrite !bot_tick_history.
Qed.

(** ** Further properties of the two programs *)

Ltac qc_order :=
  unfold Qcle, Qclt in *; unfold Qcdiv, Qcminus in *;
  unfold Qcmult, Qcplus, Qcopp, Qcinv in *;
  cbn [this Q2Qc] in *; rewrite ?Qred_correct in *;
  change (/ (2#1))%Q with (1#2)%Q in *;
  repeat match goal with
         | H : context [Qred ?x] |- _ => rewrite (Qred_correct x) in H
         end;
  lra.

(** *** The market callback, step by step *)

Lemma place_order_run strategy (now : Qc) (self : TradingBot.state) :
  TradingBot.place_order strategy now self
  = (inr tt, after_place strategy now self).
Proof.
  unfold TradingBot.place_order, after_place, Py.bind, Py.get, Py.when,
    Py.ret.
  destruct (strategy self _ _ _) as [o|]; [|done].
  destruct (connected (TradingBot.order_ws self)) eqn:Hc; [|done].
  by rewrite send_order_run.
Qed.

Lemma send_done_run (now : Qc) (self : TradingBot.state) :
  TradingBot._send_done now self = (inr tt, after_done now self).
Proof.
  unfold after_done.
  destruct (connected (TradingBot.order_ws self)) eqn:Hc.
  - by apply send_done_up.
  - by apply send_done_down.
Qed.

Lemma tick_run strategy (clk : TradingBot.clock) (data : message)
    (self : TradingBot.state) :
  type data ≠ Some "CONNECTED" ->
  TradingBot._on_market_data strategy clk (Decoded data) self
  = (inr tt,
     after_done (TradingBot.done_time clk)
       (after_place strategy (TradingBot.send_time clk)
          (Py.exec (TradingBot.bookkeeping (TradingBot.recv_time clk) data)
             self))).
Proof.
  intros is_tick.
  unfold TradingBot._on_market_data, Py.try_except, Py.bind, json_loads,
    Py.ret.
  rewrite bool_decide_eq_false_2 by done.
  rewrite bookkeeping_pair, place_order_run, send_done_run. done.
Qed.

(** What the bookkeeping of a tick writes besides the latency sample. *)
Lemma bookkeeping_market (recv_time : Qc) (data : message)
    (self : TradingBot.state) :
  let s1 := Py.exec (TradingBot.bookkeeping recv_time data) self in
  TradingBot.last_bid s1 = default (Q2Qc 0) (bid data)
  ∧ TradingBot.last_ask s1 = default (Q2Qc 0) (ask data)
  ∧ TradingBot.last_mid s1
    = mid_of (default (Q2Qc 0) (bid data)) (default (Q2Qc 0) (ask data))
  ∧ TradingBot.history_mids s1
    = TradingBot.history_mids self ++ [TradingBot.last_mid s1]
  ∧ TradingBot.history_bids s1
    = TradingBot.history_bids self ++ [TradingBot.last_bid s1]
  ∧ TradingBot.history_asks s1
    = TradingBot.history_asks self ++ [TradingBot.last_ask s1]
  ∧ TradingBot.inventory s1 = TradingBot.inventory self
  ∧ TradingBot.cash_flow s1 = TradingBot.cash_flow self
  ∧ TradingBot.pnl s1 = TradingBot.pnl self
  ∧ TradingBot.order_send_times s1 = TradingBot.order_send_times self
  ∧ TradingBot.fill_latencies s1 = TradingBot.fill_latencies self.
Proof.
  unfold Py.exec, TradingBot.bookkeeping, Py.bind, Py.get, Py.modify,
    Py.when, Py.ret, TradingBot.print, mid_of.
  destruct (TradingBot.last_done_time self) as [t0|] eqn:Hdone; simpl;
    match goal with
    | |- context [if bool_decide (_ mod 500 = 0) && _ then _ else _] =>
        destruct (bool_decide (default 0 (step data) mod 500 = 0)
                  && negb (bool_decide
                             (TradingBot.step_latencies self
                                ++ [TradingBot.milliseconds
                                      (recv_time - t0)%Qc] = [])))
    | |- context [if bool_decide (_ mod 500 = 0) && _ then _ else _] =>
        destruct (bool_decide (default 0 (step data) mod 500 = 0)
                  && negb (bool_decide (TradingBot.step_latencies self = [])))
    end; simpl; done.
Qed.

Lemma after_done_keeps (now : Qc) (self : TradingBot.state) :
  let s := after_done now self in
  TradingBot.last_mid s = TradingBot.last_mid self
  ∧ TradingBot.history_steps s = TradingBot.history_steps self
  ∧ TradingBot.history_mids s = TradingBot.history_mids self
  ∧ TradingBot.history_bids s = TradingBot.history_bids self
  ∧ TradingBot.history_asks s = TradingBot.history_asks self
  ∧ TradingBot.inventory s = TradingBot.inventory self
  ∧ TradingBot.cash_flow s = TradingBot.cash_flow self
  ∧ TradingBot.pnl s = TradingBot.pnl self
  ∧ TradingBot.order_send_times s = TradingBot.order_send_times self
  ∧ TradingBot.fill_latencies s = TradingBot.fill_latencies self
  ∧ TradingBot.orders_sent s = TradingBot.orders_sent self
  ∧ TradingBot.student_id s = TradingBot.student_id self
  ∧ TradingBot.stdout s = TradingBot.stdout self
  ∧ TradingBot.step_latencies s = TradingBot.step_latencies self.
Proof.
  unfold after_done. by destruct (connected (TradingBot.order_ws self)).
Qed.

Lemma after_place_keeps strategy (now : Qc) (self : TradingBot.state) :
  let s := after_place strategy now self in
  TradingBot.last_mid s = TradingBot.last_mid self
  ∧ TradingBot.history_steps s = TradingBot.history_steps self
  ∧ TradingBot.history_mids s = TradingBot.history_mids self
  ∧ TradingBot.history_bids s = TradingBot.history_bids self
  ∧ TradingBot.history_asks s = TradingBot.history_asks self
  ∧ TradingBot.inventory s = TradingBot.inventory self
  ∧ TradingBot.cash_flow s = TradingBot.cash_flow self
  ∧ TradingBot.pnl s = TradingBot.pnl self
  ∧ TradingBot.fill_latencies s = TradingBot.fill_latencies self
  ∧ TradingBot.student_id s = TradingBot.student_id self
  ∧ TradingBot.stdout s = TradingBot.stdout self
  ∧ TradingBot.step_latencies s = TradingBot.step_latencies self
  ∧ TradingBot.last_done_time s = TradingBot.last_done_time self.
Proof.
  unfold after_place. destruct (strategy self _ _ _) as [o|]; [|done].
  by destruct (connected (TradingBot.order_ws self)).
Qed.

(** *** The mid price *)

Lemma mid_of_cases (b a : Qc) :
  (Q2Qc 0 ≤ mid_of b a)%Qc
  ∧ ((Q2Qc 0 < b)%Qc -> (b ≤ a)%Qc ->
     (b ≤ mid_of b a)%Qc ∧ (mid_of b a ≤ a)%Qc)
  ∧ ((Q2Qc 0 < b)%Qc -> ¬ (Q2Qc 0 < a)%Qc -> mid_of b a = b)
  ∧ (¬ (Q2Qc 0 < b)%Qc -> (Q2Qc 0 < a)%Qc -> mid_of b a = a)
  ∧ (¬ (Q2Qc 0 < b)%Qc -> ¬ (Q2Qc 0 < a)%Qc -> mid_of b a = Q2Qc 0).
Proof.
  unfold mid_of.
  destruct (decide (Q2Qc 0 < b)%Qc) as [Hb|Hb];
    destruct (decide (Q2Qc 0 < a)%Qc) as [Ha|Ha];
    rewrite ?(bool_decide_eq_true_2 _ Hb), ?(bool_decide_eq_false_2 _ Hb),
      ?(bool_decide_eq_true_2 _ Ha), ?(bool_decide_eq_false_2 _ Ha); simpl.
  - split; [qc_order|]. split; [|done]. intros _ Hle. split; qc_order.
  - split; [qc_order|]. split; [|done]. intros _ Hle.
    exfalso. apply Ha. qc_order.
  - split; [qc_order|]. done.
  - split; [qc_order|]. done.
Qed.

(** X1.  After a tick the mid price is never negative.  With a best bid and a
    best ask that are both positive it is their average, and lies between
    them; with one of them missing or not positive it is the other one;
    with neither it is 0. *)
Theorem tick_mid_price strategy (clk : TradingBot.clock) (data : message)
    (self : TradingBot.state) :
  type data ≠ Some "CONNECTED" ->
  let b := default (Q2Qc 0) (bid data) in
  let a := default (Q2Qc 0) (ask data) in
  let mid :=
    TradingBot.last_mid
      (Py.exec (TradingBot._on_market_data strategy clk (Decoded data))
         self) in
  (Q2Qc 0 ≤ mid)%Qc
  ∧ ((Q2Qc 0 < b)%Qc -> (Q2Qc 0 < a)%Qc -> mid = ((b + a) / Q2Qc 2)%Qc)
  ∧ ((Q2Qc 0 < b)%Qc -> (b ≤ a)%Qc -> (b ≤ mid)%Qc ∧ (mid ≤ a)%Qc)
  ∧ ((Q2Qc 0 < b)%Qc -> ¬ (Q2Qc 0 < a)%Qc -> mid = b)
  ∧ (¬ (Q2Qc 0 < b)%Qc -> (Q2Qc 0 < a)%Qc -> mid = a)
  ∧ (¬ (Q2Qc 0 < b)%Qc -> ¬ (Q2Qc 0 < a)%Qc -> mid = Q2Qc 0).
Proof.
  intros is_tick b a mid.
  assert (mid = mid_of b a) as ->.
  { subst mid. unfold Py.exec at 1. rewrite tick_run by done. simpl.
    destruct (after_done_keeps (TradingBot.done_time clk)
                (after_place strategy (TradingBot.send_time clk)
                   (Py.exec (TradingBot.bookkeeping
                               (TradingBot.recv_time clk) data) self)))
      as (-> & _).
    destruct (after_place_keeps strategy (TradingBot.send_time clk)
                (Py.exec (TradingBot.bookkeeping
                            (TradingBot.recv_time clk) data) self))
      as (-> & _).
    by destruct (bookkeeping_market (TradingBot.recv_time clk) data self)
      as (_ & _ & -> & _). }
  destruct (mid_of_cases b a) as (H0 & Hbetween & Hb & Ha & Hnone).
  split; [exact H0|]. split; [|done].
  intros Hb' Ha'. unfold mid_of.
  by rewrite (bool_decide_eq_true_2 _ Hb'), (bool_decide_eq_true_2 _ Ha').
Qed.

(** Best bid 10, best ask 11: the mid price is 10.5. *)
Lemma tick_mid_price_example :
  type (bare (Some "MARKET_DATA")) ≠ Some "CONNECTED"
  ∧ TradingBot.last_mid
      (Py.exec (TradingBot._on_market_data TradingBot.decide_order
                  (at_time 1) (tick 7 (dec 10 1) (dec 11 1))) bob_online)
    = dec 21 2.
Proof.
  assert (type (bare (Some "MARKET_DATA")) ≠ Some "CONNECTED") as Htick
    by done.
  split; [exact Htick|].
  destruct (tick_mid_price TradingBot.decide_order (at_time 1)
              {| type := Some "MARKET_DATA"; text := None; step := Some 7;
                 bid := Some (dec 10 1); ask := Some (dec 11 1);
                 bids := None; asks := None; last_trade := None;
                 order_id := None; side := None; price := None;
                 qty := None |} bob_online Htick) as (_ & Havg & _).
  unfold tick. rewrite Havg; [qc_eq | done | done].
Defined.

(** *** Messages of the order channel other than fills *)

Lemma bot_order_other_run (recv_time : Qc) (data : message)
    (self : TradingBot.state) :
  type data ≠ Some "FILL" ->
  TradingBot._on_order_response recv_time (Decoded data) self
  = (inr tt,
     if bool_decide (type data = Some "AUTHENTICATED")
     then TradingBot.set_stdout
            (TradingBot.stdout self ++ [TradingBot.Authenticated]) self
     else if bool_decide (type data = Some "ERROR")
     then TradingBot.set_stdout
            (TradingBot.stdout self ++ [TradingBot.ServerError (text data)])
            self
     else self).
Proof.
  intros not_fill.
  unfold TradingBot._on_order_response, Py.try_except, Py.bind, json_loads,
    Py.ret, TradingBot.print, Py.modify. simpl.
  rewrite (bool_decide_eq_false_2 _ not_fill).
  by repeat case_bool_decide.
Qed.

(** X2.  On the order channel only a FILL changes the bot.  An AUTHENTICATED
    or an ERROR message prints one line (the ERROR line carries the text of
    the server), a message of any other type has no effect at all, and a
    message that cannot be decoded prints one error line; none of them
    raises. *)
Theorem bot_order_message_harmless (recv_time : Qc) (message : payload)
    (self : TradingBot.state) :
  (∀ data, message = Decoded data -> type data ≠ Some "FILL") ->
  let r := TradingBot._on_order_response recv_time message self in
  r.1 = inr tt
  ∧ (∃ out, r.2 = TradingBot.set_stdout (TradingBot.stdout self ++ out) self
            ∧ out = match message with
                    | Undecodable =>
                        [TradingBot.OrderResponseError Py.JSONDecodeError]
                    | Decoded data =>
                        if bool_decide (type data = Some "AUTHENTICATED")
                        then [TradingBot.Authenticated]
                        else if bool_decide (type data = Some "ERROR")
                        then [TradingBot.ServerError (text data)]
                        else []
                    end).
Proof.
  intros not_fill. destruct message as [|data]; simpl.
  - split; [done|]. by eexists.
  - rewrite bot_order_other_run by by apply not_fill.
    split; [done|]. eexists. split; [|done].
    repeat case_bool_decide; try done.
    rewrite app_nil_r. by destruct self.
Qed.

Lemma bot_order_message_harmless_example :
  (∀ data, Decoded (bare (Some "HEARTBEAT")) = Decoded data ->
           type data ≠ Some "FILL")
  ∧ Py.exec (TradingBot._on_order_response (dec 2 1)
               (Decoded (bare (Some "HEARTBEAT")))) bob_online = bob_online.
Proof.
  assert (∀ data, Decoded (bare (Some "HEARTBEAT")) = Decoded data ->
                  type data ≠ Some "FILL") as Hother
    by (by intros data [= <-]).
  split; [exact Hother|].
  destruct (bot_order_message_harmless (dec 2 1)
              (Decoded (bare (Some "HEARTBEAT"))) bob_online Hother)
    as (_ & out & Hstate & Hout).
  unfold Py.exec. rewrite Hstate, Hout. reflexivity.
Defined.

(** *** What only a fill may change *)

Lemma unfill_event_keeps strategy (e : TradingBot.event)
    (self : TradingBot.state) :
  is_fill_event e = false ->
  let self' := Py.exec (TradingBot.handle strategy e) self in
  TradingBot.inventory self' = TradingBot.inventory self
  ∧ TradingBot.cash_flow self' = TradingBot.cash_flow self
  ∧ TradingBot.pnl self' = TradingBot.pnl self
  ∧ TradingBot.fill_latencies self' = TradingBot.fill_latencies self.
Proof.
  intros Hnot.
  destruct e as [|status|clk [|data]|recv_time [|data]]; simpl;
    unfold Py.exec; try done.
  - destruct (decide (type data = Some "CONNECTED")) as [Hc|is_tick].
    { by rewrite market_connected_skip. }
    rewrite tick_run by done. simpl.
    destruct (after_done_keeps (TradingBot.done_time clk)
                (after_place strategy (TradingBot.send_time clk)
                   (Py.exec (TradingBot.bookkeeping
                               (TradingBot.recv_time clk) data) self)))
      as (_ & _ & _ & _ & _ & -> & -> & -> & _ & -> & _).
    destruct (after_place_keeps strategy (TradingBot.send_time clk)
                (Py.exec (TradingBot.bookkeeping
                            (TradingBot.recv_time clk) data) self))
      as (_ & _ & _ & _ & _ & -> & -> & -> & -> & _).
    by destruct (bookkeeping_market (TradingBot.recv_time clk) data self)
      as (_ & _ & _ & _ & _ & _ & -> & -> & -> & _ & ->).
  - simpl in Hnot. apply bool_decide_eq_false in Hnot.
    rewrite bot_order_other_run by done. simpl.
    by repeat case_bool_decide.
Qed.

(** X3.  Inventory, cash flow and the mark-to-market value of the bot are
    changed by FILL messages only: ticks (an order sent included), socket
    events and the other messages of the order channel leave them as they
    are, over a whole session. *)
Theorem ledger_changed_by_fills_only strategy (es : list TradingBot.event)
    (self : TradingBot.state) :
  Forall (fun e => is_fill_event e = false) es ->
  let self' := TradingBot.session strategy es self in
  TradingBot.inventory self' = TradingBot.inventory self
  ∧ TradingBot.cash_flow self' = TradingBot.cash_flow self
  ∧ TradingBot.pnl self' = TradingBot.pnl self.
Proof.
  intros Hes. revert self.
  induction Hes as [|e es He _ IH]; intros self; [done|].
  simpl in *.
  destruct (IH (Py.exec (TradingBot.handle strategy e) self))
    as (-> & -> & ->).
  by destruct (unfill_event_keeps strategy e self He) as (-> & -> & -> & _).
Qed.

(** An order goes out on step 50; the inventory stays 0. *)
Lemma ledger_changed_by_fills_only_example :
  Forall (fun e => is_fill_event e = false)
    [TradingBot.MarketMessage (at_time 1) (tick 50 (dec 10 1) (dec 11 1))]
  ∧ let after :=
      TradingBot.session TradingBot.decide_order
        [TradingBot.MarketMessage (at_time 1) (tick 50 (dec 10 1) (dec 11 1))]
        bob_online in
    TradingBot.sent_order_ids after = ["ORD_bob_50_0"]
    ∧ TradingBot.inventory after = 0.
Proof.
  assert (Forall (fun e => is_fill_event e = false)
            [TradingBot.MarketMessage (at_time 1)
               (tick 50 (dec 10 1) (dec 11 1))]) as Hes
    by (by apply list.Forall_singleton).
  split; [exact Hes|]. intros after. split; [reflexivity|]. subst after.
  by destruct (ledger_changed_by_fills_only TradingBot.decide_order _
                 bob_online Hes) as (-> & _).
Defined.

(** *** The plotting histories *)

Lemma untick_event_history strategy (e : TradingBot.event)
    (self : TradingBot.state) :
  is_tick e = false ->
  let self' := Py.exec (TradingBot.handle strategy e) self in
  TradingBot.history_steps self' = TradingBot.history_steps self
  ∧ TradingBot.history_mids self' = TradingBot.history_mids self
  ∧ TradingBot.history_bids self' = TradingBot.history_bids self
  ∧ TradingBot.history_asks self' = TradingBot.history_asks self.
Proof.
  intros Hnot.
  destruct e as [|status|clk [|data]|recv_time [|data]]; simpl;
    unfold Py.exec; try done.
  - simpl in Hnot. apply negb_false_iff, bool_decide_eq_true in Hnot.
    by rewrite market_connected_skip.
  - destruct (decide (type data = Some "FILL")) as [is_fill|not_fill].
    + rewrite bot_fill_run by done. simpl.
      by destruct (TradingBot.order_send_times self !! _).
    + rewrite bot_order_other_run by done. simpl.
      by repeat case_bool_decide.
Qed.

Lemma tick_event_history strategy (e : TradingBot.event)
    (self : TradingBot.state) (n : nat) :
  is_tick e = true ->
  history_aligned self n ->
  history_aligned (Py.exec (TradingBot.handle strategy e) self) (S n).
Proof.
  intros Htick (H1 & H2 & H3 & H4).
  destruct e as [|status|clk [|data]|recv_time message]; try done.
  simpl in Htick. apply negb_true_iff, bool_decide_eq_false in Htick.
  simpl. unfold Py.exec at 1. rewrite tick_run by done. simpl.
  unfold history_aligned.
  destruct (after_done_keeps (TradingBot.done_time clk)
              (after_place strategy (TradingBot.send_time clk)
                 (Py.exec (TradingBot.bookkeeping
                             (TradingBot.recv_time clk) data) self)))
    as (_ & -> & -> & -> & -> & _).
  destruct (after_place_keeps strategy (TradingBot.send_time clk)
              (Py.exec (TradingBot.bookkeeping
                          (TradingBot.recv_time clk) data) self))
    as (_ & -> & -> & -> & -> & _).
  destruct (bookkeeping_fields (TradingBot.recv_time clk) data self)
    as (_ & _ & _ & _ & _ & _ & _ & ->).
  destruct (bookkeeping_market (TradingBot.recv_time clk) data self)
    as (_ & _ & _ & -> & -> & -> & _).
  rewrite !length_app. simpl. lia.
Qed.

(** X4.  The four histories the plot is drawn from (steps, mids, bids, asks)
    always have the same length: every processed tick appends one entry
    to each of them, and nothing else touches them. *)
Theorem history_stays_aligned strategy (es : list TradingBot.event)
    (self : TradingBot.state) (n : nat) :
  history_aligned self n ->
  history_aligned (TradingBot.session strategy es self)
    (n + length (filter (fun e => is_tick e = true) es)).
Proof.
  revert self n. induction es as [|e es IH]; intros self n Hn.
  { simpl. by rewrite Nat.add_0_r. }
  simpl. destruct (is_tick e) eqn:He.
  - rewrite filter_cons_True by done. simpl.
    rewrite <-Nat.add_succ_comm. apply IH. by apply tick_event_history.
  - rewrite filter_cons_False by (by rewrite He). apply IH.
    destruct Hn as (H1 & H2 & H3 & H4).
    destruct (untick_event_history strategy e self He) as (E1 & E2 & E3 & E4).
    unfold history_aligned. by rewrite E1, E2, E3, E4.
Qed.

(** Two ticks, a fill and a malformed message: two entries in each
    history. *)
Lemma history_stays_aligned_example :
  history_aligned bob_online 0
  ∧ history_aligned
      (TradingBot.session TradingBot.decide_order
         [TradingBot.MarketMessage (at_time 1) (tick 7 (dec 10 1) (dec 11 1));
          TradingBot.OrderMessage (dec 2 1) (Decoded stray_fill);
          TradingBot.MarketMessage (at_time 3) Undecodable;
          TradingBot.MarketMessage (at_time 4) (tick 8 (dec 10 1) (dec 11 1))]
         bob_online) 2.
Proof.
  assert (history_aligned bob_online 0) as H0 by done.
  split; [exact H0|].
  exact (history_stays_aligned TradingBot.decide_order
           [TradingBot.MarketMessage (at_time 1)
              (tick 7 (dec 10 1) (dec 11 1));
            TradingBot.OrderMessage (dec 2 1) (Decoded stray_fill);
            TradingBot.MarketMessage (at_time 3) Undecodable;
            TradingBot.MarketMessage (at_time 4)
              (tick 8 (dec 10 1) (dec 11 1))] bob_online 0 H0).
Defined.

(** *** DONE signals over a session *)

Lemma done_count_event strategy (e : TradingBot.event)
    (self : TradingBot.state) :
  connected (TradingBot.order_ws self) = true ->
  is_socket_down e = false ->
  let self' := Py.exec (TradingBot.handle strategy e) self in
  connected (TradingBot.order_ws self') = true
  ∧ done_count (TradingBot.order_ws self')
    = (done_count (TradingBot.order_ws self)
       + if is_tick e then 1 else 0)%nat.
Proof.
  intros Hup Hnot.
  destruct e as [|status|clk [|data]|recv_time message]; try done; simpl.
  - unfold Py.exec, done_count. simpl.
    destruct (TradingBot.order_ws self) as [w|]; [|done]. simpl.
    split; [done|lia].
  - destruct (decide (type data = Some "CONNECTED")) as [Hc|is_tick'].
    + unfold Py.exec. rewrite market_connected_skip by done.
      rewrite (bool_decide_eq_true_2 _ Hc). simpl. split; [done|lia].
    + rewrite (bool_decide_eq_false_2 _ is_tick'). simpl.
      destruct (market_tick_up strategy clk data self is_tick' Hup)
        as (_ & Hf & Hc & _).
      unfold Py.exec. split; [exact Hc|].
      unfold done_count. rewrite Hf, list.filter_app, length_app.
      by destruct (tick_frames_done strategy
                     (Py.exec (TradingBot.bookkeeping
                                 (TradingBot.recv_time clk) data) self))
        as [-> _].
  - unfold Py.exec.
    destruct (order_response_frame recv_time message self)
      as (_ & -> & _). split; [done|lia].
Qed.

(** X5.  While the order channel stays up, a session sends exactly one DONE
    for each tick it processes, and none for anything else: the number of
    DONE frames grows by the number of ticks. *)
Theorem one_done_per_tick strategy (es : list TradingBot.event)
    (self : TradingBot.state) :
  connected (TradingBot.order_ws self) = true ->
  Forall (fun e => is_socket_down e = false) es ->
  let self' := TradingBot.session strategy es self in
  connected (TradingBot.order_ws self') = true
  ∧ done_count (TradingBot.order_ws self')
    = (done_count (TradingBot.order_ws self)
       + length (filter (fun e => is_tick e = true) es))%nat.
Proof.
  intros Hup Hes. revert self Hup.
  induction Hes as [|e es He _ IH]; intros self Hup.
  { simpl. split; [done|lia]. }
  simpl.
  destruct (done_count_event strategy e self Hup He) as [Hup' Hcount].
  destruct (IH _ Hup') as [Hup'' ->]. split; [exact Hup''|].
  rewrite Hcount. destruct (is_tick e) eqn:Htick.
  - rewrite filter_cons_True by done. simpl. lia.
  - rewrite filter_cons_False by (by rewrite Htick). lia.
Qed.

Lemma one_done_per_tick_example :
  connected (TradingBot.order_ws bob_online) = true
  ∧ done_count
      (TradingBot.order_ws
         (TradingBot.session TradingBot.decide_order
            [TradingBot.MarketMessage (at_time 1)
               (tick 50 (dec 10 1) (dec 11 1));
             TradingBot.OrderMessage (dec 2 1) (Decoded stray_fill);
             TradingBot.MarketMessage (at_time 3)
               (tick 51 (dec 10 1) (dec 11 1))]
            bob_online)) = 2%nat.
Proof.
  assert (connected (TradingBot.order_ws bob_online) = true) as Hup by done.
  split; [exact Hup|].
  destruct (one_done_per_tick TradingBot.decide_order
              [TradingBot.MarketMessage (at_time 1)
                 (tick 50 (dec 10 1) (dec 11 1));
               TradingBot.OrderMessage (dec 2 1) (Decoded stray_fill);
               TradingBot.MarketMessage (at_time 3)
                 (tick 51 (dec 10 1) (dec 11 1))]
              bob_online Hup) as [_ Hcount].
  - repeat (apply Forall_cons; [reflexivity|]). apply Forall_nil.
  - rewrite Hcount. reflexivity.
Defined.

(** *** Orders sent, pending and filled *)

Lemma size_delete_pending {A} (m : gmap string A) (i : string) (x : A) :
  m !! i = Some x -> size m = S (size (delete i m)).
Proof.
  intros Hi. rewrite <-(insert_delete_id m i x Hi) at 1.
  apply map_size_insert_None, lookup_delete_eq.
Qed.

Lemma accounted_frame (self self' : TradingBot.state) :
  frames (TradingBot.order_ws self') = frames (TradingBot.order_ws self) ->
  TradingBot.orders_sent self' = TradingBot.orders_sent self ->
  TradingBot.student_id self' = TradingBot.student_id self ->
  TradingBot.order_send_times self' = TradingBot.order_send_times self ->
  TradingBot.fill_latencies self' = TradingBot.fill_latencies self ->
  orders_accounted self -> orders_accounted self'.
Proof.
  intros Hf Hn Hid Ht Hl. unfold orders_accounted, TradingBot.sent_order_ids.
  by rewrite Hf, Hn, Hid, Ht, Hl.
Qed.

Lemma accounted_done (now : Qc) (self : TradingBot.state) :
  orders_accounted self -> orders_accounted (after_done now self).
Proof.
  intros (Hwire & Hsum & Hkeys). unfold after_done.
  destruct (connected (TradingBot.order_ws self)) eqn:Hup;
    [|by repeat split].
  unfold orders_accounted, TradingBot.sent_order_ids. simpl.
  destruct (frames_sent_on Done _ Hup) as [-> _].
  rewrite omap_app. simpl. rewrite app_nil_r. by repeat split.
Qed.

Lemma accounted_place strategy (now : Qc) (self : TradingBot.state) :
  orders_accounted self -> orders_accounted (after_place strategy now self).
Proof.
  intros (Hwire & Hsum & Hkeys). unfold after_place.
  destruct (strategy self _ _ _) as [o|]; [|by repeat split].
  destruct (connected (TradingBot.order_ws self)) eqn:Hup;
    [|by repeat split].
  assert (TradingBot.order_send_times self !! TradingBot.new_order_id self
          = None) as Hfresh.
  { apply eq_None_not_Some. intros (st & k & Heq & Hlt)%Hkeys.
    apply order_id_inj in Heq as [_ <-]. lia. }
  unfold orders_accounted, TradingBot.sent_order_ids, order_sent.
  remember (TradingBot.new_order_id self) as nid eqn:Hnid. simpl.
  destruct (frames_sent_on
              (Order None None nid
                 (TradingBot.order_side o) (TradingBot.order_price o)
                 (TradingBot.order_qty o)) _ Hup) as [-> _].
  rewrite omap_app, length_app. simpl.
  fold (TradingBot.sent_order_ids self).
  rewrite map_size_insert_None by done.
  split; [lia|]. split; [lia|].
  intros key [<-|[_ Hkey]]%lookup_insert_is_Some.
  - exists (TradingBot.current_step self), (TradingBot.orders_sent self).
    split; [by rewrite Hnid|lia].
  - destruct (Hkeys key Hkey) as (st & k & -> & Hlt).
    exists st, k. split; [done|lia].
Qed.

Lemma accounted_fill (recv_time : Qc) (data : message)
    (self : TradingBot.state) :
  type data = Some "FILL" ->
  orders_accounted self ->
  orders_accounted
    (Py.exec (TradingBot._on_order_response recv_time (Decoded data)) self).
Proof.
  intros is_fill (Hwire & Hsum & Hkeys).
  unfold Py.exec. rewrite bot_fill_run by done.
  destruct (TradingBot.order_send_times self !! default "" (order_id data))
    as [sent_at|] eqn:Hpending; [|by repeat split].
  unfold orders_accounted, TradingBot.sent_order_ids. simpl.
  rewrite length_app. simpl.
  rewrite (size_delete_pending _ _ _ Hpending) in Hsum.
  split; [done|]. split; [lia|].
  intros key [_ Hkey]%lookup_delete_is_Some. by apply Hkeys.
Qed.

Lemma accounted_event strategy (e : TradingBot.event)
    (self : TradingBot.state) :
  orders_accounted self ->
  orders_accounted (Py.exec (TradingBot.handle strategy e) self).
Proof.
  intros Hinv.
  destruct e as [|status|clk [|data]|recv_time [|data]]; simpl;
    unfold Py.exec.
  - eapply accounted_frame; [..|exact Hinv]; try done. simpl.
    by destruct (TradingBot.order_ws self).
  - eapply accounted_frame; [..|exact Hinv]; try done. simpl.
    by destruct (TradingBot.order_ws self).
  - by eapply accounted_frame; [..|exact Hinv].
  - destruct (decide (type data = Some "CONNECTED")) as [Hc|is_tick'].
    { by rewrite market_connected_skip. }
    rewrite tick_run by done. simpl.
    apply accounted_done, accounted_place.
    destruct (bookkeeping_fields (TradingBot.recv_time clk) data self)
      as (_ & Hws & Hn & Hid & _).
    destruct (bookkeeping_market (TradingBot.recv_time clk) data self)
      as (_ & _ & _ & _ & _ & _ & _ & _ & _ & Ht & Hl).
    eapply accounted_frame; [..|exact Hinv]; try done. by rewrite Hws.
  - by eapply accounted_frame; [..|exact Hinv].
  - destruct (decide (type data = Some "FILL")) as [is_fill|not_fill].
    + by apply accounted_fill.
    + rewrite bot_order_other_run by done. simpl.
      eapply accounted_frame; [..|exact Hinv]; by repeat case_bool_decide.
Qed.

(** X6.  From the start of a session on, [orders_sent] is the number of
    orders on the wire, and every order sent is accounted for exactly
    once: it is pending in the table of send times, or a fill has turned it
    into one latency sample. *)
Theorem orders_sent_accounted strategy (es : list TradingBot.event)
    (self : TradingBot.state) :
  TradingBot.sent_order_ids self = [] ->
  TradingBot.orders_sent self = 0 ->
  TradingBot.order_send_times self = ∅ ->
  TradingBot.fill_latencies self = [] ->
  let self' := TradingBot.session strategy es self in
  Z.of_nat (length (TradingBot.sent_order_ids self'))
  = TradingBot.orders_sent self'
  ∧ Z.of_nat (size (TradingBot.order_send_times self'))
    + Z.of_nat (length (TradingBot.fill_latencies self'))
    = TradingBot.orders_sent self'.
Proof.
  intros Hids Hn Ht Hl self'.
  assert (orders_accounted self) as Hinv.
  { unfold orders_accounted. rewrite Hids, Hn, Ht, Hl.
    split; [done|]. split; [done|].
    intros key [x Hx]. by rewrite lookup_empty in Hx. }
  assert (orders_accounted self') as (Hwire & Hsum & _); [|done].
  subst self'. clear Hids Hn Ht Hl. revert self Hinv.
  induction es as [|e es IH]; intros self Hinv; [done|].
  simpl. by apply IH, accounted_event.
Qed.

(** Two orders go out; one of them is filled, the other is pending. *)
Lemma orders_sent_accounted_example :
  TradingBot.sent_order_ids bob_online = []
  ∧ TradingBot.orders_sent bob_online = 0
  ∧ TradingBot.order_send_times bob_online = ∅
  ∧ TradingBot.fill_latencies bob_online = []
  ∧ let after :=
      TradingBot.session TradingBot.decide_order
        [TradingBot.MarketMessage (at_time 1) (tick 50 (dec 10 1) (dec 11 1));
         TradingBot.OrderMessage (dec 2 1)
           (fill_message
              {| fill_order_id := "ORD_bob_50_0"; fill_side := "SELL";
                 fill_price := dec 10 1; fill_qty := 100 |});
         TradingBot.MarketMessage (at_time 3)
           (tick 100 (dec 10 1) (dec 11 1))]
        bob_online in
    TradingBot.orders_sent after = 2
    ∧ size (TradingBot.order_send_times after) = 1%nat
    ∧ length (TradingBot.fill_latencies after) = 1%nat.
Proof.
  split; [reflexivity|]. split; [reflexivity|]. split; [reflexivity|].
  split; [reflexivity|]. intros after.
  destruct (orders_sent_accounted TradingBot.decide_order
              [TradingBot.MarketMessage (at_time 1)
                 (tick 50 (dec 10 1) (dec 11 1));
               TradingBot.OrderMessage (dec 2 1)
                 (fill_message
                    {| fill_order_id := "ORD_bob_50_0"; fill_side := "SELL";
                       fill_price := dec 10 1; fill_qty := 100 |});
               TradingBot.MarketMessage (at_time 3)
                 (tick 100 (dec 10 1) (dec 11 1))]
              bob_online eq_refl eq_refl eq_refl eq_refl) as [Hwire Hsum].
  fold after in Hwire, Hsum.
  assert (length (TradingBot.fill_latencies after) = 1%nat) as Hl
    by reflexivity.
  assert (TradingBot.orders_sent after = 2) as Hn by reflexivity.
  rewrite Hl, Hn in Hsum. split; [exact Hn|]. split; [lia|exact Hl].
Defined.

(** *** The template strategy *)

(** X7.  When [decide_order] places an order, the best bid, the best ask and the
    mid price are positive and the step is a multiple of 50; the order is
    for 100 units, a SELL at the bid rounded to two decimals or a BUY at
    the ask rounded to two decimals. *)
Theorem decide_order_cadence (self : TradingBot.state) (bid ask mid : Qc)
    (o : TradingBot.order) :
  TradingBot.decide_order self bid ask mid = Some o ->
  (Q2Qc 0 < mid)%Qc ∧ (Q2Qc 0 < bid)%Qc ∧ (Q2Qc 0 < ask)%Qc
  ∧ TradingBot.current_step self mod 50 = 0
  ∧ TradingBot.order_qty o = 100
  ∧ ((TradingBot.order_side o = "SELL"
      ∧ TradingBot.order_price o = Py.round2 bid)
     ∨ (TradingBot.order_side o = "BUY"
        ∧ TradingBot.order_price o = Py.round2 ask)).
Proof.
  unfold TradingBot.decide_order.
  destruct (decide (mid ≤ Q2Qc 0)%Qc) as [Hm|Hm];
    [by rewrite (bool_decide_eq_true_2 _ Hm)|].
  destruct (decide (bid ≤ Q2Qc 0)%Qc) as [Hb|Hb];
    [by rewrite (bool_decide_eq_true_2 _ Hb), orb_true_r|].
  destruct (decide (ask ≤ Q2Qc 0)%Qc) as [Ha|Ha];
    [by rewrite (bool_decide_eq_true_2 _ Ha), !orb_true_r|].
  rewrite (bool_decide_eq_false_2 _ Hm), (bool_decide_eq_false_2 _ Hb),
    (bool_decide_eq_false_2 _ Ha). simpl.
  apply Qcnot_le_lt in Hm, Hb, Ha.
  destruct (decide (TradingBot.current_step self mod 50 = 0)) as [Hs|Hs];
    [rewrite (bool_decide_eq_true_2 _ Hs)
    |by rewrite (bool_decide_eq_false_2 _ Hs)].
  simpl. repeat case_bool_decide; intros [= <-]; simpl; naive_solver.
Qed.

Lemma decide_order_cadence_example :
  TradingBot.decide_order
    (TradingBot.set_current_step 100 bob_online) (dec 10 1) (dec 11 1)
    (dec 21 2)
  = Some {| TradingBot.order_side := "BUY";
            TradingBot.order_price := Py.round2 (dec 11 1);
            TradingBot.order_qty := 100 |}
  ∧ TradingBot.current_step (TradingBot.set_current_step 100 bob_online)
      mod 50 = 0.
Proof.
  assert (TradingBot.decide_order
            (TradingBot.set_current_step 100 bob_online) (dec 10 1)
            (dec 11 1) (dec 21 2)
          = Some {| TradingBot.order_side := "BUY";
                    TradingBot.order_price := Py.round2 (dec 11 1);
                    TradingBot.order_qty := 100 |}) as Horder
    by reflexivity.
  split; [exact Horder|].
  by destruct (decide_order_cadence _ _ _ _ _ Horder) as (_ & _ & _ & Hs & _).
Defined.

(** X8.  On a step that is a multiple of 50, with positive prices, the
    template strategy always places an order, and its direction follows
    the position: above 200 units it sells, below -200 it buys, and in
    between it buys on even multiples of 50 and sells on odd ones. *)
Theorem decide_order_direction (self : TradingBot.state) (bid ask mid : Qc) :
  (Q2Qc 0 < mid)%Qc -> (Q2Qc 0 < bid)%Qc -> (Q2Qc 0 < ask)%Qc ->
  TradingBot.current_step self mod 50 = 0 ->
  ∃ o, TradingBot.decide_order self bid ask mid = Some o
       ∧ (200 < TradingBot.inventory self ->
          TradingBot.order_side o = "SELL")
       ∧ (TradingBot.inventory self < -200 ->
          TradingBot.order_side o = "BUY")
       ∧ (-200 ≤ TradingBot.inventory self ≤ 200 ->
          (TradingBot.order_side o = "BUY"
           ↔ (TradingBot.current_step self / 50) mod 2 = 0)).
Proof.
  intros Hm Hb Ha Hs. unfold TradingBot.decide_order.
  apply Qclt_not_le in Hm, Hb, Ha.
  rewrite (bool_decide_eq_false_2 _ Hm), (bool_decide_eq_false_2 _ Hb),
    (bool_decide_eq_false_2 _ Ha), (bool_decide_eq_true_2 _ Hs). simpl.
  repeat case_bool_decide; eexists; (split; [reflexivity|]); simpl;
    repeat split; intros; try lia; try done.
Qed.

Lemma decide_order_direction_example :
  (Q2Qc 0 < dec 21 2)%Qc ∧ (Q2Qc 0 < dec 10 1)%Qc ∧ (Q2Qc 0 < dec 11 1)%Qc
  ∧ TradingBot.current_step
      (TradingBot.set_inventory 300
         (TradingBot.set_current_step 100 bob_online)) mod 50 = 0
  ∧ TradingBot.order_side
      <$> TradingBot.decide_order
            (TradingBot.set_inventory 300
               (TradingBot.set_current_step 100 bob_online))
            (dec 10 1) (dec 11 1) (dec 21 2) = Some "SELL".
Proof.
  assert (Q2Qc 0 < dec 21 2)%Qc as Hm by reflexivity.
  assert (Q2Qc 0 < dec 10 1)%Qc as Hb by reflexivity.
  assert (Q2Qc 0 < dec 11 1)%Qc as Ha by reflexivity.
  destruct (decide_order_direction
              (TradingBot.set_inventory 300
                 (TradingBot.set_current_step 100 bob_online))
              (dec 10 1) (dec 11 1) (dec 21 2) Hm Hb Ha eq_refl)
    as (o & -> & Hsell & _).
  repeat (split; [done|]). simpl. f_equal. apply Hsell. simpl. lia.
Defined.

(** *** From the order to its fill *)

(** X9.  When a tick places an order on a channel that is up, the id of the
    order is entered in the table of send times with the time of the
    send; the FILL that names this id then records the sample
    (recv_time - send_time) in milliseconds and takes the id out of the
    table. *)
Theorem order_fill_latency strategy (clk : TradingBot.clock)
    (data : message) (self : TradingBot.state) (o : TradingBot.order) :
  type data ≠ Some "CONNECTED" ->
  connected (TradingBot.order_ws self) = true ->
  let s1 :=
    Py.exec (TradingBot.bookkeeping (TradingBot.recv_time clk) data) self in
  strategy s1 (TradingBot.last_bid s1) (TradingBot.last_ask s1)
    (TradingBot.last_mid s1) = Some o ->
  let sent :=
    Py.exec (TradingBot._on_market_data strategy clk (Decoded data)) self in
  let id := TradingBot.new_order_id s1 in
  TradingBot.order_send_times sent !! id = Some (TradingBot.send_time clk)
  ∧ (∀ recv_time fdata,
       type fdata = Some "FILL" -> order_id fdata = Some id ->
       let filled :=
         Py.exec (TradingBot._on_order_response recv_time (Decoded fdata))
           sent in
       TradingBot.fill_latencies filled
       = TradingBot.fill_latencies self
           ++ [TradingBot.milliseconds
                 (recv_time - TradingBot.send_time clk)%Qc]
       ∧ TradingBot.order_send_times filled !! id = None).
Proof.
  intros is_tick' Hup s1 Ho sent id.
  destruct (bookkeeping_fields (TradingBot.recv_time clk) data self)
    as (_ & Hws & _).
  destruct (bookkeeping_market (TradingBot.recv_time clk) data self)
    as (_ & _ & _ & _ & _ & _ & _ & _ & _ & _ & Hl).
  fold s1 in Hws, Hl.
  assert (TradingBot.order_send_times sent !! id
          = Some (TradingBot.send_time clk)
          ∧ TradingBot.fill_latencies sent = TradingBot.fill_latencies self)
    as [Hsent Hlat].
  { subst sent. unfold Py.exec at 1 2. rewrite tick_run by done. simpl.
    fold s1.
    destruct (after_done_keeps (TradingBot.done_time clk)
                (after_place strategy (TradingBot.send_time clk) s1))
      as (_ & _ & _ & _ & _ & _ & _ & _ & -> & -> & _).
    unfold after_place. rewrite Ho, Hws, Hup. unfold order_sent. simpl.
    split; [apply lookup_insert_eq | exact Hl]. }
  split; [exact Hsent|].
  intros recv_time fdata is_fill Hid filled. subst filled.
  unfold Py.exec at 1 2. rewrite bot_fill_run by done.
  rewrite Hid. simpl. rewrite Hsent. simpl.
  split; [by rewrite Hlat | apply lookup_delete_eq].
Qed.

(** The order of step 50 goes out at 1.1 and is filled at 2.0: 900 ms. *)
Lemma order_fill_latency_example :
  let sent :=
    Py.exec (TradingBot._on_market_data TradingBot.decide_order (at_time 1)
               (tick 50 (dec 10 1) (dec 11 1))) bob_online in
  let filled :=
    Py.exec (TradingBot._on_order_response (dec 2 1)
               (fill_message
                  {| fill_order_id := "ORD_bob_50_0"; fill_side := "SELL";
                     fill_price := dec 10 1; fill_qty := 100 |})) sent in
  connected (TradingBot.order_ws bob_online) = true
  ∧ TradingBot.order_send_times sent !! "ORD_bob_50_0" = Some (dec 11 10)
  ∧ TradingBot.fill_latencies filled = [dec 900 1]
  ∧ TradingBot.order_send_times filled !! "ORD_bob_50_0" = None.
Proof.
  intros sent filled.
  assert (type {| type := Some "MARKET_DATA"; text := None; step := Some 50;
                  bid := Some (dec 10 1); ask := Some (dec 11 1);
                  bids := None; asks := None; last_trade := None;
                  order_id := None; side := None; price := None;
                  qty := None |} ≠ Some "CONNECTED") as Htick by done.
  destruct (order_fill_latency TradingBot.decide_order (at_time 1) _
              bob_online
              {| TradingBot.order_side := "SELL";
                 TradingBot.order_price := Py.round2 (dec 10 1);
                 TradingBot.order_qty := 100 |} Htick eq_refl eq_refl)
    as [Hsent Hfill].
  split; [reflexivity|]. split.
  - subst sent. unfold tick. etrans; [exact Hsent|]. by f_equal.
  - destruct (Hfill (dec 2 1)
                {| type := Some "FILL"; text := None; step := None;
                   bid := None; ask := None; bids := None; asks := None;
                   last_trade := None; order_id := Some "ORD_bob_50_0";
                   side := Some "SELL"; price := Some (dec 10 1);
                   qty := Some 100 |} eq_refl eq_refl) as [Hlat Hgone].
    split.
    + subst filled sent. unfold fill_message, tick. simpl.
      etrans; [exact Hlat|]. simpl. f_equal. first [done | qc_eq].
    + subst filled sent. exact Hgone.
Defined.

Lemma unmatched_fill_like_matched (recv_time : Qc) (data : message)
    (self : TradingBot.state) :
  type data = Some "FILL" ->
  TradingBot.order_send_times self !! default "" (order_id data) = None ->
  let self' :=
    Py.exec (TradingBot._on_order_response recv_time (Decoded data)) self in
  TradingBot.fill_latencies self' = TradingBot.fill_latencies self
  ∧ TradingBot.inventory self' = fill_inventory data self
  ∧ TradingBot.cash_flow self' = fill_cash_flow data self.
Proof.
  intros is_fill Hnone. simpl. unfold Py.exec.
  rewrite bot_fill_run by done. by rewrite Hnone.
Qed.

(** X10.  A FILL that arrives twice is applied to the ledger twice (inventory
    and cash move by the same amounts again) but is timed once: the second
    delivery finds no send time and adds no latency sample. *)
Theorem duplicate_fill_counted_twice (t1 t2 sent_at : Qc) (data : message)
    (self : TradingBot.state) :
  type data = Some "FILL" ->
  TradingBot.order_send_times self !! default "" (order_id data)
  = Some sent_at ->
  let once :=
    Py.exec (TradingBot._on_order_response t1 (Decoded data)) self in
  let twice :=
    Py.exec (TradingBot._on_order_response t2 (Decoded data)) once in
  TradingBot.fill_latencies twice
  = TradingBot.fill_latencies self
      ++ [TradingBot.milliseconds (t1 - sent_at)%Qc]
  ∧ TradingBot.inventory twice - TradingBot.inventory once
    = TradingBot.inventory once - TradingBot.inventory self
  ∧ (TradingBot.cash_flow twice - TradingBot.cash_flow once)%Qc
    = (TradingBot.cash_flow once - TradingBot.cash_flow self)%Qc.
Proof.
  intros is_fill Hpending once twice.
  assert (TradingBot.order_send_times once !! default "" (order_id data)
          = None) as Hgone by by apply fill_clears_pending.
  assert (TradingBot.fill_latencies once
          = TradingBot.fill_latencies self
              ++ [TradingBot.milliseconds (t1 - sent_at)%Qc]) as Hlat.
  { subst once. unfold Py.exec. rewrite bot_fill_run by done.
    by rewrite Hpending. }
  destruct (unmatched_fill_like_matched t2 data once is_fill Hgone)
    as (Hl2 & Hi2 & Hc2).
  fold twice in Hl2, Hi2, Hc2.
  rewrite Hl2, Hi2, Hc2, Hlat.
  subst once. rewrite bot_fill_inventory, bot_fill_cash_flow by done.
  unfold fill_inventory, fill_cash_flow.
  rewrite bot_fill_inventory, bot_fill_cash_flow by done.
  unfold fill_inventory, fill_cash_flow.
  split; [done|].
  destruct (bool_decide (default "" (side data) = "BUY")); split; try lia;
    ring.
Qed.

(** The fill of the pending order delivered twice: one sample, 200 units
    bought. *)
Lemma duplicate_fill_example :
  type stray_fill = Some "FILL"
  ∧ TradingBot.order_send_times bob_pending
      !! default "" (order_id stray_fill) = Some (dec 1 1)
  ∧ let twice :=
      Py.exec (TradingBot._on_order_response (dec 3 1) (Decoded stray_fill))
        (Py.exec (TradingBot._on_order_response (dec 2 1)
                    (Decoded stray_fill)) bob_pending) in
    TradingBot.fill_latencies twice = [dec 1000 1]
    ∧ TradingBot.inventory twice = 200.
Proof.
  assert (TradingBot.order_send_times bob_pending
            !! default "" (order_id stray_fill) = Some (dec 1 1)) as Hpending
    by done.
  split; [reflexivity|]. split; [exact Hpending|]. intros twice.
  destruct (duplicate_fill_counted_twice (dec 2 1) (dec 3 1) (dec 1 1)
              stray_fill bob_pending eq_refl Hpending) as (Hlat & _).
  fold twice in Hlat. split; [|reflexivity].
  rewrite Hlat. simpl. do 2 f_equal.
Defined.

(** *** Fills with missing keys *)

Lemma float_zero_times (p : Qc) : (Py.float 0 * p)%Qc = Q2Qc 0.
Proof. change (Py.float 0) with (Q2Qc 0). ring. Qed.

Lemma times_zero (q : Qc) : (q * Q2Qc 0)%Qc = Q2Qc 0.
Proof. ring. Qed.

(** X11.  The bot reads the keys of a FILL with defaults.  A FILL without qty
    leaves inventory and cash flow as they are; a FILL without price moves
    the inventory and leaves the cash flow; neither raises, and both
    print the FILL line. *)
Theorem bot_fill_missing_keys (recv_time : Qc) (data : message)
    (self : TradingBot.state) :
  type data = Some "FILL" ->
  let r := TradingBot._on_order_response recv_time (Decoded data) self in
  r.1 = inr tt
  ∧ printed self r.2 = [fill_line data self]
  ∧ (qty data = None ->
     TradingBot.inventory r.2 = TradingBot.inventory self
     ∧ TradingBot.cash_flow r.2 = TradingBot.cash_flow self)
  ∧ (price data = None ->
     TradingBot.cash_flow r.2 = TradingBot.cash_flow self).
Proof.
  intros is_fill r.
  assert (r = (inr tt, Py.exec (TradingBot._on_order_response recv_time
                                  (Decoded data)) self)) as ->.
  { subst r. unfold Py.exec. by rewrite bot_fill_run. }
  simpl. unfold printed.
  rewrite bot_fill_stdout, bot_fill_inventory, bot_fill_cash_flow by done.
  rewrite drop_app_length. split; [done|]. split; [done|].
  unfold fill_inventory, fill_cash_flow. split.
  - intros ->. simpl. rewrite float_zero_times.
    destruct (bool_decide _); split; try lia; ring.
  - intros ->. simpl. rewrite times_zero.
    destruct (bool_decide _); ring.
Qed.

Lemma bot_fill_missing_keys_example :
  type (bare (Some "FILL")) = Some "FILL"
  ∧ bot_ledger
      (Py.exec (TradingBot._on_order_response (dec 2 1)
                  (Decoded (bare (Some "FILL")))) bob_online)
    = bot_ledger bob_online.
Proof.
  split; [reflexivity|].
  destruct (bot_fill_missing_keys (dec 2 1) (bare (Some "FILL")) bob_online
              eq_refl) as (_ & _ & Hqty & _).
  destruct (Hqty eq_refl) as [Hi Hc].
  unfold bot_ledger, Py.exec. simpl in Hi, Hc. by rewrite Hi, Hc.
Defined.

(** X12.  The interactive trader reads the keys of a FILL without defaults.
    Without qty the callback raises TypeError and changes nothing; with a
    qty but without price it raises TypeError after the inventory has
    moved, with the cash untouched and nothing printed. *)
Theorem manual_fill_missing_keys (data : message)
    (self : ManualTrader.state) :
  type data = Some "FILL" ->
  (qty data = None ->
   ManualTrader.on_order_message (Decoded data) self
   = (inl Py.TypeError, self))
  ∧ (∀ q, qty data = Some q -> price data = None ->
     ManualTrader.on_order_message (Decoded data) self
     = (inl Py.TypeError,
        ManualTrader.set_inventory
          (if bool_decide (side data = Some "BUY")
           then ManualTrader.inventory self + q
           else ManualTrader.inventory self - q) self)).
Proof.
  intros is_fill.
  unfold ManualTrader.on_order_message, Py.bind, json_loads, Py.ret. simpl.
  rewrite is_fill. simpl. split.
  - intros ->. by destruct (bool_decide (side data = Some "BUY")).
  - intros q -> ->. by destruct (bool_decide (side data = Some "BUY")).
Qed.

Lemma manual_fill_missing_keys_example :
  type (bare (Some "FILL")) = Some "FILL"
  ∧ ManualTrader.on_order_message (Decoded (bare (Some "FILL"))) eve
    = (inl Py.TypeError, eve).
Proof.
  split; [reflexivity|].
  destruct (manual_fill_missing_keys (bare (Some "FILL")) eve eq_refl)
    as [Hqty _].
  exact (Hqty eq_refl).
Defined.

(** *** Messages the interactive trader has no use for *)

(** X13.  On the order channel the interactive trader ignores every message
    that is neither a FILL nor an ERROR, and on the market channel every
    message that is neither CONNECTED nor a book, a FILL or an ERROR
    among them: the trader is left exactly as it was.  An ERROR of the
    server on the order channel prints one line and changes nothing
    else. *)
Theorem manual_other_messages_ignored
    (json_dumps : ManualTrader.snapshot -> string) (data : message)
    (self : ManualTrader.state) :
  (type data ≠ Some "FILL" -> type data ≠ Some "ERROR" ->
   ManualTrader.on_order_message (Decoded data) self = (inr tt, self))
  ∧ (type data = Some "ERROR" ->
     ManualTrader.on_order_message (Decoded data) self
     = (inr tt,
        ManualTrader.set_stdout
          (ManualTrader.stdout self ++ [ManualTrader.ServerError (text data)])
          self))
  ∧ (type data ≠ Some "CONNECTED" -> ¬ is_book data ->
     ManualTrader.on_market_message json_dumps (Decoded data) self
     = (inr tt, self)).
Proof.
  unfold ManualTrader.on_order_message, ManualTrader.on_market_message,
    Py.bind, json_loads, Py.ret, ManualTrader.print, Py.modify, is_book.
  simpl. split; [|split].
  - intros not_fill not_error.
    by rewrite (bool_decide_eq_false_2 _ not_fill),
         (bool_decide_eq_false_2 _ not_error).
  - intros is_error. rewrite is_error. reflexivity.
  - intros not_connected not_book.
    rewrite (bool_decide_eq_false_2 _ not_connected).
    repeat case_bool_decide; naive_solver.
Qed.

Lemma manual_other_messages_ignored_example :
  type (bare (Some "AUTHENTICATED")) ≠ Some "FILL"
  ∧ ManualTrader.on_order_message (Decoded (bare (Some "AUTHENTICATED"))) eve
    = (inr tt, eve)
  ∧ ManualTrader.on_market_message render
      (Decoded (bare (Some "AUTHENTICATED"))) eve = (inr tt, eve)
  ∧ ManualTrader.on_market_message render (Decoded stray_fill) eve
    = (inr tt, eve)
  ∧ ManualTrader.on_market_message render (Decoded (bare (Some "ERROR"))) eve
    = (inr tt, eve).
Proof.
  assert (type (bare (Some "AUTHENTICATED")) ≠ Some "FILL") as Hother by done.
  destruct (manual_other_messages_ignored render
              (bare (Some "AUTHENTICATED")) eve) as (Ho & _ & Hm).
  destruct (manual_other_messages_ignored render stray_fill eve)
    as (_ & _ & Hfill).
  destruct (manual_other_messages_ignored render (bare (Some "ERROR")) eve)
    as (_ & _ & Herror).
  split; [exact Hother|]. split; [|split; [|split]].
  - by apply Ho.
  - apply Hm; [done|]. by intros [?|?].
  - apply Hfill; [done|]. by intros [?|?].
  - apply Herror; [done|]. by intros [?|?].
Defined.

(** *** The commands of the operator *)

(** X14.  With the order channel up, a command of the operator sends at most
    one frame: DONE for a step command, a NEW_ORDER on ticker SYM for a
    buy or sell with well-formed numbers (BUY for buy, SELL for sell, named
    after the millisecond of entry), a CANCEL_ORDER for a cancel with an
    id; every other line sends nothing.  No command changes inventory or
    cash, and none raises. *)
Theorem manual_command_frames (now : Qc) (cmd : ManualTrader.command)
    (self : ManualTrader.state) :
  connected (ManualTrader.ws_order self) = true ->
  let r := ManualTrader.on_command now cmd self in
  r.1 = inr tt
  ∧ frames (ManualTrader.ws_order r.2)
    = frames (ManualTrader.ws_order self)
        ++ match command_frame now cmd with Some f => [f] | None => [] end
  ∧ trader_ledger r.2 = trader_ledger self.
Proof.
  intros (w & Hw & Hsock)%connected_some.
  unfold ManualTrader.on_command, ManualTrader.ws_order_send, Py.bind,
    Py.get, Py.modify, Py.ret, ManualTrader.print, ws_send, trader_ledger.
  destruct cmd as [| | |buy|buy [qty|] [price|]| |order_id|]; simpl;
    rewrite ?Hw; simpl; rewrite ?Hsock; simpl; rewrite ?Hw; simpl;
    by rewrite ?app_nil_r.
Qed.

Lemma manual_command_frames_example :
  connected (ManualTrader.ws_order eve_online) = true
  ∧ frames (ManualTrader.ws_order
              (ManualTrader.on_command (dec 5 1)
                 (ManualTrader.Trade false (Some 3) (Some (dec 11 1)))
                 eve_online).2)
    = [Order (Some "NEW_ORDER") (Some "SYM") "manual_5000" "SELL"
         (dec 11 1) 3].
Proof.
  assert (connected (ManualTrader.ws_order eve_online) = true) as Hup
    by reflexivity.
  split; [exact Hup|].
  destruct (manual_command_frames (dec 5 1)
              (ManualTrader.Trade false (Some 3) (Some (dec 11 1)))
              eve_online Hup) as (_ & Hf & _).
  rewrite Hf. reflexivity.
Defined.

(** X15.  With the order channel down, a command that has a frame to send
    raises (the connection-closed error of the library, or AttributeError
    when there is no connection object) before anything is printed: the
    frame is not queued and the trader is left as it was. *)
Theorem manual_command_offline (now : Qc) (cmd : ManualTrader.command)
    (f : frame) (self : ManualTrader.state) :
  connected (ManualTrader.ws_order self) = false ->
  command_frame now cmd = Some f ->
  ManualTrader.on_command now cmd self
  = (inl (match ManualTrader.ws_order self with
          | Some _ => Py.WebSocketConnectionClosedException
          | None => Py.AttributeError
          end), self).
Proof.
  intros Hdown Hframe.
  unfold ManualTrader.on_command, ManualTrader.ws_order_send, Py.bind,
    Py.get, Py.modify, Py.ret, ManualTrader.print, ws_send.
  destruct cmd as [| | |buy|buy [qty|] [price|]| |order_id|]; try done;
    simpl; (destruct (ManualTrader.ws_order self) as [w|]; [|done]);
    simpl in *; by rewrite Hdown.
Qed.

Lemma manual_command_offline_example :
  connected (ManualTrader.ws_order eve) = false
  ∧ ManualTrader.on_command (dec 5 1) ManualTrader.Advance eve
    = (inl Py.WebSocketConnectionClosedException, eve).
Proof.
  split; [reflexivity|].
  exact (manual_command_offline (dec 5 1) ManualTrader.Advance Done eve
           eq_refl eq_refl).
Defined.

(** *** The command loop *)

Lemma command_loop_cons (now : Qc) (cmd : ManualTrader.command)
    (rest : list (Qc * ManualTrader.command)) (self : ManualTrader.state) :
  ManualTrader.command_loop ((now, cmd) :: rest) self
  = if ManualTrader.running self
    then match ManualTrader.on_command now cmd self with
         | (inr _, s') =>
             match cmd with
             | ManualTrader.Quit => (inr tt, s')
             | _ => ManualTrader.command_loop rest s'
             end
         | (inl e, s') => (inl e, s')
         end
    else (inr tt, self).
Proof.
  cbn [ManualTrader.command_loop]. unfold Py.bind, Py.get, Py.ret.
  destruct (ManualTrader.running self); [|done].
  destruct (ManualTrader.on_command now cmd self) as [[e|[]] s']; [done|].
  by destruct cmd.
Qed.

(** X16.  [quit] ends the command loop: the lines the operator enters after it
    are never executed. *)
Theorem quit_ends_loop (before after : list (Qc * ManualTrader.command))
    (now : Qc) (self : ManualTrader.state) :
  ManualTrader.command_loop (before ++ (now, ManualTrader.Quit) :: after) self
  = ManualTrader.command_loop (before ++ [(now, ManualTrader.Quit)]) self.
Proof.
  revert self. induction before as [|[t cmd] before IH]; intros self.
  - simpl app. by rewrite !command_loop_cons.
  - rewrite <-!app_comm_cons, !command_loop_cons.
    destruct (ManualTrader.running self); [|done].
    destruct (ManualTrader.on_command t cmd self) as [[e|[]] s']; [done|].
    destruct cmd; try apply IH; done.
Qed.

Lemma session_closes_running (lines : list (Qc * ManualTrader.command))
    (self : ManualTrader.state) :
  ManualTrader.running (ManualTrader.command_session lines self).2 = false.
Proof.
  unfold ManualTrader.command_session, Py.try_finally,
    ManualTrader.start_finally, Py.bind, Py.modify.
  by destruct (ManualTrader.command_loop lines self) as [res s'].
Qed.

(** X17.  However the command loop ends (end of input, quit, or a command that
    raises on a dead connection), [start] clears the running flag and
    closes both connections; what was sent before stays sent and the
    outcome of the loop is passed on. *)
Theorem session_always_closes (lines : list (Qc * ManualTrader.command))
    (self : ManualTrader.state) :
  let loop := ManualTrader.command_loop lines self in
  let r := ManualTrader.command_session lines self in
  r.1 = loop.1
  ∧ ManualTrader.running r.2 = false
  ∧ connected (ManualTrader.ws_order r.2) = false
  ∧ connected (ManualTrader.ws_market r.2) = false
  ∧ frames (ManualTrader.ws_order r.2) = frames (ManualTrader.ws_order loop.2)
  ∧ trader_ledger r.2 = trader_ledger loop.2.
Proof.
  unfold ManualTrader.command_session, Py.try_finally,
    ManualTrader.start_finally, Py.bind, Py.modify.
  destruct (ManualTrader.command_loop lines self) as [res s']. simpl.
  destruct (ManualTrader.ws_order s') as [w|],
    (ManualTrader.ws_market s') as [w'|]; done.
Qed.

(** X18.  After the session has closed, the close and error callbacks of the
    two connections print nothing. *)
Theorem closed_session_is_silent (lines : list (Qc * ManualTrader.command))
    (self : ManualTrader.state) (status : option Z) (e : Py.exn) :
  let closed := (ManualTrader.command_session lines self).2 in
  ManualTrader.on_close status closed = (inr tt, closed)
  ∧ ManualTrader.on_error e closed = (inr tt, closed).
Proof.
  intros closed.
  pose proof (session_closes_running lines self) as Hrun.
  fold closed in Hrun.
  unfold ManualTrader.on_close, ManualTrader.on_error, Py.bind, Py.get,
    Py.when. by rewrite Hrun.
Qed.

(** *** Start-up of the bot *)

(** X19.  After a registration answered with status 200, a token and a run id
    (both not empty), [run] stores them and builds the two connections at
    the addresses made of the protocol, the host, the token and the run
    id; the sockets are not up yet and nothing has been sent. *)
Theorem bot_run_opens_channels (resp_text tok rid : string)
    (self : TradingBot.state) :
  tok ≠ "" -> rid ≠ "" ->
  let resp :=
    Response 200 resp_text
      (Some {| body_token := Some tok; body_run_id := Some rid |}) in
  let self' := Py.exec (TradingBot.run resp) self in
  TradingBot.token self' = Some tok
  ∧ TradingBot.run_id self' = Some rid
  ∧ TradingBot.market_ws self'
    = Some {| url := TradingBot.ws_proto self +:+ "://"
                       +:+ TradingBot.host self
                       +:+ "/api/ws/market?run_id=" +:+ rid;
              sock := false; sent := [] |}
  ∧ TradingBot.order_ws self'
    = Some {| url := TradingBot.ws_proto self +:+ "://"
                       +:+ TradingBot.host self
                       +:+ "/api/ws/orders?token=" +:+ tok
                       +:+ "&run_id=" +:+ rid;
              sock := false; sent := [] |}
  ∧ printed self self'
    = [TradingBot.Registering (TradingBot.scenario self);
       TradingBot.Registered (Some rid); TradingBot.Running].
Proof.
  intros Htok Hrid resp self'. subst self' resp.
  unfold Py.exec, TradingBot.run, TradingBot.register, TradingBot.connect,
    Py.try_except, Py.bind, Py.get, Py.modify, Py.ret, TradingBot.print,
    resp_json, Py.truthy, printed.
  simpl.
  rewrite (bool_decide_eq_false_2 _ Htok), (bool_decide_eq_false_2 _ Hrid).
  simpl. repeat split.
  rewrite <-!app_assoc. simpl. by rewrite drop_app_length.
Qed.

Lemma bot_run_opens_channels_example :
  "tok" ≠ "" ∧ "run1" ≠ ""
  ∧ TradingBot.order_ws bob
    = Some {| url := "ws://localhost:8080/api/ws/orders?token=tok&run_id=run1";
              sock := false; sent := [] |}.
Proof.
  assert ("tok" ≠ "") as Htok by done.
  assert ("run1" ≠ "") as Hrid by done.
  split; [exact Htok|]. split; [exact Hrid|].
  by destruct (bot_run_opens_channels "" "tok" "run1"
                 (TradingBot.__init__ "bob" "localhost:8080" "normal_market"
                    (Some "pw") false) Htok Hrid) as (_ & _ & _ & Ho & _).
Defined.

(** X20.  Any other answer to the registration (no answer, a status other than
    200, a body that is not a dictionary, a token or run id that is missing
    or empty) makes [register] return False without raising, and [run]
    then builds no connection. *)
Theorem bot_run_refused (resp : response) (self : TradingBot.state) :
  (∀ resp_text tok rid,
     resp = Response 200 resp_text
              (Some {| body_token := Some tok; body_run_id := Some rid |}) ->
     tok = "" ∨ rid = "") ->
  Py.outcome (TradingBot.register resp) self = inr false
  ∧ TradingBot.market_ws (Py.exec (TradingBot.run resp) self)
    = TradingBot.market_ws self
  ∧ TradingBot.order_ws (Py.exec (TradingBot.run resp) self)
    = TradingBot.order_ws self.
Proof.
  intros Hbad.
  destruct (bot_register_sound resp self) as (ok & Hok & Hiff & _).
  assert (ok = false) as ->.
  { destruct ok; [|done].
    destruct (proj1 Hiff eq_refl) as (resp_text & tok & rid & -> & Ht & Hr).
    by destruct (Hbad resp_text tok rid eq_refl). }
  split; [exact Hok|]. by apply bot_run_failed.
Qed.

Lemma bot_run_refused_example :
  (∀ resp_text tok rid,
     Response 503 "busy" None
     = Response 200 resp_text
         (Some {| body_token := Some tok; body_run_id := Some rid |}) ->
     tok = "" ∨ rid = "")
  ∧ TradingBot.order_ws
      (Py.exec (TradingBot.run (Response 503 "busy" None))
         (TradingBot.__init__ "bob" "localhost:8080" "normal_market"
            (Some "pw") false)) = None.
Proof.
  assert (∀ resp_text tok rid,
            Response 503 "busy" None
            = Response 200 resp_text
                (Some {| body_token := Some tok; body_run_id := Some rid |}) ->
            tok = "" ∨ rid = "") as Hbad by (intros ??? [=]).
  split; [exact Hbad|].
  by destruct (bot_run_refused (Response 503 "busy" None)
                 (TradingBot.__init__ "bob" "localhost:8080" "normal_market"
                    (Some "pw") false) Hbad) as (_ & _ & ->).
Defined.

(** X21.  [register] of the interactive trader never raises and returns True
    exactly when the status is 200 and the body is a JSON dictionary; it
    then stores the token and the run id as the body has them, present or
    not. *)
Theorem manual_register_outcome (resp : response)
    (self : ManualTrader.state) :
  ∃ ok : bool,
    Py.outcome (ManualTrader.register resp) self = inr ok
    ∧ (ok = true ↔ ∃ resp_text d, resp = Response 200 resp_text (Some d))
    ∧ (∀ resp_text d, resp = Response 200 resp_text (Some d) ->
       ManualTrader.token (Py.exec (ManualTrader.register resp) self)
       = body_token d
       ∧ ManualTrader.run_id (Py.exec (ManualTrader.register resp) self)
         = body_run_id d).
Proof.
  unfold Py.outcome, Py.exec, ManualTrader.register, Py.try_except, Py.bind,
    Py.get, Py.modify, Py.ret, ManualTrader.print, resp_json.
  destruct resp as [|status_code resp_text [d|]]; simpl.
  - exists false. split; [done|]. split; [|done].
    split; [done|]. by intros (? & ? & ?).
  - destruct (decide (status_code = 200)) as [->|Hne].
    + exists true. simpl. split; [done|]. split.
      * split; [|done]. intros _. by exists resp_text, d.
      * by intros ? ? [= <- <-].
    + rewrite (bool_decide_eq_false_2 _ Hne). simpl.
      exists false. split; [done|]. split.
      * split; [done|]. intros (? & ? & [= -> _ _]). done.
      * intros ? ? [= -> _ _]. done.
  - destruct (bool_decide (status_code = 200)); simpl;
      exists false; (split; [done|]); (split; [|done]);
      (split; [done|]); by intros (? & ? & ?).
Qed.

(** *** Orders while the channel is down *)

(** X22.  An order the strategy decides on while the order channel is down is
    dropped, not queued: the tick sends nothing, enters nothing in the
    table of send times, does not count the order and records no DONE
    time. *)
Theorem offline_tick_drops_order strategy (clk : TradingBot.clock)
    (data : message) (self : TradingBot.state) :
  type data ≠ Some "CONNECTED" ->
  connected (TradingBot.order_ws self) = false ->
  let self' :=
    Py.exec (TradingBot._on_market_data strategy clk (Decoded data)) self in
  TradingBot.order_ws self' = TradingBot.order_ws self
  ∧ TradingBot.order_send_times self' = TradingBot.order_send_times self
  ∧ TradingBot.orders_sent self' = TradingBot.orders_sent self
  ∧ TradingBot.last_done_time self' = TradingBot.last_done_time self.
Proof.
  intros is_tick' Hdown self'. subst self'. unfold Py.exec.
  rewrite market_tick_down by done. simpl.
  destruct (bookkeeping_fields (TradingBot.recv_time clk) data self)
    as (_ & -> & -> & _ & -> & _).
  by destruct (bookkeeping_market (TradingBot.recv_time clk) data self)
    as (_ & _ & _ & _ & _ & _ & _ & _ & _ & -> & _).
Qed.

(** Step 50 before the order socket is up: the template strategy wants
    to sell, and nothing is sent or recorded. *)
Lemma offline_tick_drops_order_example :
  connected (TradingBot.order_ws bob) = false
  ∧ let s1 :=
      Py.exec (TradingBot.bookkeeping (dec 1 1)
                 {| type := Some "MARKET_DATA"; text := None;
                    step := Some 50; bid := Some (dec 10 1);
                    ask := Some (dec 11 1); bids := None; asks := None;
                    last_trade := None; order_id := None; side := None;
                    price := None; qty := None |}) bob in
    is_Some (TradingBot.decide_order s1 (TradingBot.last_bid s1)
               (TradingBot.last_ask s1) (TradingBot.last_mid s1))
  ∧ let self' :=
      Py.exec (TradingBot._on_market_data TradingBot.decide_order (at_time 1)
                 (tick 50 (dec 10 1) (dec 11 1))) bob in
    frames (TradingBot.order_ws self') = []
    ∧ TradingBot.order_send_times self' = ∅
    ∧ TradingBot.orders_sent self' = 0.
Proof.
  split; [reflexivity|]. split; [by eexists|]. intros self'.
  assert (type {| type := Some "MARKET_DATA"; text := None; step := Some 50;
                  bid := Some (dec 10 1); ask := Some (dec 11 1);
                  bids := None; asks := None; last_trade := None;
                  order_id := None; side := None; price := None;
                  qty := None |} ≠ Some "CONNECTED") as Htick by done.
  destruct (offline_tick_drops_order TradingBot.decide_order (at_time 1) _
              bob Htick eq_refl) as (Hws & Ht & Hn & _).
  fold (tick 50 (dec 10 1) (dec 11 1)) in Hws, Ht, Hn.
  fold self' in Hws, Ht, Hn.
  rewrite Hws, Ht, Hn. done.
Defined.

(** *** Deduplication against the previous book only *)

(** X23.  The interactive trader compares a book with the one just before it,
    not with all it has shown: when the book changes from A to B and back
    to A, the second A is shown again. *)
Theorem snapshot_return_is_shown
    (json_dumps : ManualTrader.snapshot -> string) (a b : message)
    (self : ManualTrader.state) :
  Inj (=) (=) json_dumps ->
  is_book a -> is_book b ->
  ManualTrader.current_snapshot a ≠ ManualTrader.current_snapshot b ->
  let s1 :=
    Py.exec (ManualTrader.on_market_message json_dumps (Decoded a)) self in
  let s2 :=
    Py.exec (ManualTrader.on_market_message json_dumps (Decoded b)) s1 in
  let s3 :=
    Py.exec (ManualTrader.on_market_message json_dumps (Decoded a)) s2 in
  ManualTrader.shown s3
  = ManualTrader.shown s1 ++ [book_of b s1; book_of a s2].
Proof.
  intros Hinj Ha Hb Hne s1 s2 s3.
  pose proof (snapshot_change json_dumps a b self Hinj Ha Hb Hne) as H12.
  pose proof (snapshot_change json_dumps b a s1 Hinj Hb Ha
                (fun H => Hne (eq_sym H))) as H23.
  simpl in H12, H23. fold s1 in H12, H23. fold s2 in H12, H23.
  fold s3 in H23. rewrite H23, H12, <-app_assoc. done.
Qed.

Lemma snapshot_return_is_shown_example :
  is_book (book_message 3) ∧ is_book (book_message 8)
  ∧ ManualTrader.current_snapshot (book_message 3)
    ≠ ManualTrader.current_snapshot (book_message 8)
  ∧ length
      (ManualTrader.shown
         (Py.exec (ManualTrader.on_market_message render
                     (Decoded (book_message 3)))
            (Py.exec (ManualTrader.on_market_message render
                        (Decoded (book_message 8)))
               (Py.exec (ManualTrader.on_market_message render
                           (Decoded (book_message 3))) eve)))) = 3%nat.
Proof.
  assert (is_book (book_message 3)) as H3 by by left.
  assert (is_book (book_message 8)) as H8 by by left.
  assert (ManualTrader.current_snapshot (book_message 3)
          ≠ ManualTrader.current_snapshot (book_message 8)) as Hne
    by (by intros [= ?]).
  split; [exact H3|]. split; [exact H8|]. split; [exact Hne|].
  pose proof (snapshot_return_is_shown render (book_message 3)
                (book_message 8) eve render_inj H3 H8 Hne) as Hshown.
  cbv zeta in Hshown. rewrite Hshown, length_app.
  unfold Py.exec. rewrite snapshot_run by done. reflexivity.
Defined.

(** *** The progress line *)

Lemma bookkeeping_stdout (recv_time : Qc) (data : message)
    (self : TradingBot.state) :
  let s1 := Py.exec (TradingBot.bookkeeping recv_time data) self in
  TradingBot.stdout s1
  = TradingBot.stdout self
      ++ if bool_decide (default 0 (step data) mod 500 = 0)
            && negb (bool_decide (TradingBot.step_latencies s1 = []))
         then [TradingBot.Progress (default 0 (step data))
                 (TradingBot.orders_sent self) (TradingBot.inventory self)
                 (Py.sum (Py.last_n 100 (TradingBot.step_latencies s1))
                  / Py.float
                      (Z.of_nat (length (TradingBot.step_latencies s1))
                         `min` 100))%Qc]
         else [].
Proof.
  unfold Py.exec, TradingBot.bookkeeping, Py.bind, Py.get, Py.modify,
    Py.when, Py.ret, TradingBot.print.
  destruct (TradingBot.last_done_time self) as [t0|] eqn:Hdone; simpl;
    match goal with
    | |- context [if bool_decide (_ mod 500 = 0) && _ then _ else _] =>
        destruct (bool_decide (default 0 (step data) mod 500 = 0)
                  && negb (bool_decide
                             (TradingBot.step_latencies self
                                ++ [TradingBot.milliseconds
                                      (recv_time - t0)%Qc] = []))) eqn:Hc
    | |- context [if bool_decide (_ mod 500 = 0) && _ then _ else _] =>
        destruct (bool_decide (default 0 (step data) mod 500 = 0)
                  && negb (bool_decide (TradingBot.step_latencies self = [])))
          eqn:Hc
    end; simpl; rewrite ?Hc; by rewrite ?app_nil_r.
Qed.

(** X24.  A processed tick prints nothing but the progress line, and that only
    on a step that is a multiple of 500 and once a latency sample exists:
    the average it shows is taken over at least one sample.  So the first
    tick of a session prints nothing, whatever its step. *)
Theorem tick_prints_progress_only strategy (clk : TradingBot.clock)
    (data : message) (self : TradingBot.state) :
  type data ≠ Some "CONNECTED" ->
  let after :=
    Py.exec (TradingBot._on_market_data strategy clk (Decoded data)) self in
  let samples := TradingBot.step_latencies after in
  printed self after
  = (if bool_decide (default 0 (step data) mod 500 = 0)
        && negb (bool_decide (samples = []))
     then [TradingBot.Progress (default 0 (step data))
             (TradingBot.orders_sent self) (TradingBot.inventory self)
             (Py.sum (Py.last_n 100 samples)
              / Py.float (Z.of_nat (length samples) `min` 100))%Qc]
     else [])
  ∧ (default 0 (step data) mod 500 ≠ 0 -> printed self after = [])
  ∧ (TradingBot.last_done_time self = None ->
     TradingBot.step_latencies self = [] -> printed self after = []).
Proof.
  intros is_tick' after samples.
  assert (TradingBot.stdout after
          = TradingBot.stdout
              (Py.exec (TradingBot.bookkeeping (TradingBot.recv_time clk)
                          data) self)
          ∧ samples
            = TradingBot.step_latencies
                (Py.exec (TradingBot.bookkeeping (TradingBot.recv_time clk)
                            data) self)) as [Hout Hsamples].
  { subst samples after. unfold Py.exec at 1 3.
    rewrite tick_run by done. simpl.
    destruct (after_done_keeps (TradingBot.done_time clk)
                (after_place strategy (TradingBot.send_time clk)
                   (Py.exec (TradingBot.bookkeeping
                               (TradingBot.recv_time clk) data) self)))
      as (_ & _ & _ & _ & _ & _ & _ & _ & _ & _ & _ & _ & -> & ->).
    by destruct (after_place_keeps strategy (TradingBot.send_time clk)
                   (Py.exec (TradingBot.bookkeeping
                               (TradingBot.recv_time clk) data) self))
      as (_ & _ & _ & _ & _ & _ & _ & _ & _ & _ & -> & -> & _). }
  assert (printed self after
          = (if bool_decide (default 0 (step data) mod 500 = 0)
                && negb (bool_decide (samples = []))
             then [TradingBot.Progress (default 0 (step data))
                     (TradingBot.orders_sent self)
                     (TradingBot.inventory self)
                     (Py.sum (Py.last_n 100 samples)
                      / Py.float (Z.of_nat (length samples) `min` 100))%Qc]
             else [])) as Hprinted.
  { unfold printed. rewrite Hout, Hsamples, bookkeeping_stdout.
    by rewrite drop_app_length. }
  split; [exact Hprinted|]. split.
  - intros Hstep. rewrite Hprinted.
    by rewrite (bool_decide_eq_false_2 _ Hstep).
  - intros Hdone Hnone. rewrite Hprinted.
    destruct (bookkeeping_fields (TradingBot.recv_time clk) data self)
      as (_ & _ & _ & _ & _ & Hlat & _).
    rewrite Hdone, Hnone in Hlat. rewrite Hsamples, Hlat.
    by rewrite (bool_decide_eq_true_2 ([] = [])), andb_false_r.
Qed.

(** Step 0 as the first tick of a session: no sample yet, no line. *)
Lemma tick_prints_progress_only_example :
  type (bare (Some "SNAPSHOT")) ≠ Some "CONNECTED"
  ∧ printed bob_online
      (Py.exec (TradingBot._on_market_data TradingBot.decide_order
                  (at_time 1) (Decoded (bare (Some "SNAPSHOT")))) bob_online)
    = [].
Proof.
  assert (type (bare (Some "SNAPSHOT")) ≠ Some "CONNECTED") as Htick by done.
  split; [exact Htick|].
  destruct (tick_prints_progress_only TradingBot.decide_order (at_time 1)
              (bare (Some "SNAPSHOT")) bob_online Htick) as (_ & _ & Hfirst).
  by apply Hfirst.
Defined.
